(** * PdfEditor: overlay editing and export

    A shallow embedding of the [PdfEditor] React component
    (upload, [?file=] loading, overlay restore, page rendering,
    overlay store, drag-stop conversion, colour resolution, export)
    together with the properties its specification states.

    Conventions.
    - A JavaScript [number] is an IEEE double.  It is modelled by
      [number]: an exact rational, the two infinities, or NaN.  Rounding
      and overflow of finite results are not modelled, and the two
      zeros are not told apart (a zero divisor counts as [+0]).
    - React state is an explicit record [EditorState]; a handler maps a
      state to the next state and to the list of effects it performs.
    - Collaborators outside the repository (pdf.js, pdf-lib, the
      canvas, [fetch], [localStorage]) are parameters: section
      variables, or the fields of the class [PdfLib].  Every theorem
      holds for whatever they answer; [None] stands for a rejected
      promise or a thrown exception. *)

From Stdlib Require Import QArith Qround Qminmax ZArith String Ascii List Lia Lqa.
From stdpp Require Import base option list gmap strings.
Import ListNotations.

Local Open Scope Q_scope.

(** ** JavaScript numbers *)

Module JS.

Inductive number : Type :=
| Fin (q : Q)
| PInf
| NInf
| NaN.

(** [a * b] *)
Definition mul (a b : number) : number :=
  match a, b with
  | NaN, _ | _, NaN => NaN
  | Fin p, Fin q => Fin (p * q)
  | Fin p, PInf | PInf, Fin p =>
      match p ?= 0 with Gt => PInf | Lt => NInf | Eq => NaN end
  | Fin p, NInf | NInf, Fin p =>
      match p ?= 0 with Gt => NInf | Lt => PInf | Eq => NaN end
  | PInf, PInf | NInf, NInf => PInf
  | PInf, NInf | NInf, PInf => NInf
  end.

(** [a - b] *)
Definition sub (a b : number) : number :=
  match a, b with
  | NaN, _ | _, NaN => NaN
  | Fin p, Fin q => Fin (p - q)
  | Fin _, PInf => NInf
  | Fin _, NInf => PInf
  | PInf, Fin _ | PInf, NInf => PInf
  | NInf, Fin _ | NInf, PInf => NInf
  | PInf, PInf | NInf, NInf => NaN
  end.

(** [a / b]; a zero divisor is read as [+0]. *)
Definition div (a b : number) : number :=
  match a, b with
  | NaN, _ | _, NaN => NaN
  | Fin p, Fin q =>
      match q ?= 0 with
      | Eq => match p ?= 0 with Gt => PInf | Lt => NInf | Eq => NaN end
      | _ => Fin (p / q)
      end
  | Fin _, PInf | Fin _, NInf => Fin 0
  | PInf, Fin q => match q ?= 0 with Lt => NInf | _ => PInf end
  | NInf, Fin q => match q ?= 0 with Lt => PInf | _ => NInf end
  | PInf, PInf | PInf, NInf | NInf, PInf | NInf, NInf => NaN
  end.

(** [Math.max(a, b)] *)
Definition Math_max (a b : number) : number :=
  match a, b with
  | NaN, _ | _, NaN => NaN
  | PInf, _ | _, PInf => PInf
  | NInf, c | c, NInf => c
  | Fin p, Fin q => Fin (Qmax p q)
  end.

(** [Math.min(a, b)] *)
Definition Math_min (a b : number) : number :=
  match a, b with
  | NaN, _ | _, NaN => NaN
  | NInf, _ | _, NInf => NInf
  | PInf, c | c, PInf => c
  | Fin p, Fin q => Fin (Qmin p q)
  end.

(** [Math.round(a)]: the nearest integer, ties towards [+Infinity]. *)
Definition Math_round (a : number) : number :=
  match a with
  | Fin q => Fin (inject_Z (Qfloor (q + (1 # 2))))
  | other => other
  end.

Definition of_Z (z : Z) : number := Fin (inject_Z z).

(** [a + b] *)
Definition add (a b : number) : number :=
  match a, b with
  | NaN, _ | _, NaN => NaN
  | Fin p, Fin q => Fin (p + q)
  | PInf, NInf | NInf, PInf => NaN
  | PInf, _ | _, PInf => PInf
  | NInf, _ | _, NInf => NInf
  end.

(** [Math.ceil(a)] *)
Definition Math_ceil (a : number) : number :=
  match a with
  | Fin q => Fin (inject_Z (Qceiling q))
  | other => other
  end.

(** [Math.floor(a)] *)
Definition Math_floor (a : number) : number :=
  match a with
  | Fin q => Fin (inject_Z (Qfloor q))
  | other => other
  end.

(** Truthiness of a number: [0] and NaN are falsy. *)
Definition num_truthy (a : number) : bool :=
  match a with
  | Fin q => negb (Qeq_bool q 0)
  | NaN => false
  | _ => true
  end.

(** Numeric equality of two numbers, as [===] decides it on values
    that are not NaN (the structural equality of [Q] would tell
    [1/2] from [2/4]). *)
Definition num_eq (a b : number) : Prop :=
  match a, b with
  | Fin p, Fin q => p == q
  | PInf, PInf | NInf, NInf => True
  | _, _ => False
  end.

(** [lo <= a <= hi] for a finite [a]. *)
Definition between (lo hi : Q) (a : number) : Prop :=
  match a with
  | Fin q => lo <= q /\ q <= hi
  | _ => False
  end.

Definition is_NaN (a : number) : bool :=
  match a with NaN => true | _ => false end.

(** Truthiness of a string: only the empty string is falsy. *)
Definition truthy (s : string) : bool :=
  match s with EmptyString => false | _ => true end.

(** *** Character classes *)

(** [\d] *)
Definition is_digit (c : ascii) : bool :=
  let n := N_of_ascii c in (48 <=? n)%N && (n <=? 57)%N.

(** [\s], and the white space [parseInt] skips, among the code units
    below 256: TAB, LF, VT, FF, CR, SPACE, NBSP. *)
Definition is_space (c : ascii) : bool :=
  let n := N_of_ascii c in
  ((9 <=? n)%N && (n <=? 13)%N) || (n =? 32)%N || (n =? 160)%N.

Definition digit_value (c : ascii) : Z := Z.of_N (N_of_ascii c) - 48.

(** The longest prefix of digits, and what follows it. *)
Fixpoint span_digits (s : string) : string * string :=
  match s with
  | String c s' =>
      if is_digit c
      then let '(ds, rest) := span_digits s' in (String c ds, rest)
      else (EmptyString, s)
  | EmptyString => (EmptyString, EmptyString)
  end.

Fixpoint skip_spaces (s : string) : string :=
  match s with
  | String c s' => if is_space c then skip_spaces s' else s
  | EmptyString => EmptyString
  end.

(** The value of a string of decimal digits, most significant first. *)
Fixpoint digits_value (acc : Z) (ds : string) : Z :=
  match ds with
  | String c ds' => digits_value (10 * acc + digit_value c) ds'
  | EmptyString => acc
  end.

(** [parseInt(s, 10)]: leading white space, an optional sign, then the
    longest run of digits; NaN when that run is empty. *)
Definition parseInt (s : string) : number :=
  let s1 := skip_spaces s in
  let '(neg, s2) :=
    match s1 with
    | String "-"%char r => (true, r)
    | String "+"%char r => (false, r)
    | _ => (false, s1)
    end in
  match fst (span_digits s2) with
  | EmptyString => NaN
  | ds => let v := digits_value 0 ds in of_Z (if neg then - v else v)%Z
  end.

End JS.

Import JS.

(** ** Data model *)

(** [OverlayItem] *)
Module Item.
Record t : Type := mk {
  id : string;
  text : string;
  x : number;        (* normalized 0..1 from left *)
  y : number;        (* normalized 0..1 from top *)
  fontSize : number;
  color : string     (* CSS color string *)
}.
End Item.
Abbreviation OverlayItem := Item.t.

(** [Partial<OverlayItem>]: every field may be left out. *)
Module Partial.
Record t : Type := mk {
  id : option string;
  text : option string;
  x : option number;
  y : option number;
  fontSize : option number;
  color : option string
}.
Definition empty : t := mk None None None None None None.
End Partial.

(** [{ ...o, ...partial }] *)
Definition spread (o : OverlayItem) (partial : Partial.t) : OverlayItem :=
  {| Item.id := default (Item.id o) (Partial.id partial);
     Item.text := default (Item.text o) (Partial.text partial);
     Item.x := default (Item.x o) (Partial.x partial);
     Item.y := default (Item.y o) (Partial.y partial);
     Item.fontSize := default (Item.fontSize o) (Partial.fontSize partial);
     Item.color := default (Item.color o) (Partial.color partial) |}.

(** [PageOverlays = Record<number, OverlayItem[]>] *)
Abbreviation PageOverlays := (gmap nat (list OverlayItem)).

Record Size : Type := { width : number; height : number }.

Definition ArrayBuffer : Type := list Byte.byte.

(** What the component uses of a pdf.js page: its viewport at scale 1
    and whether the promise of [page.render] resolves. *)
Record PDFPageProxy : Type := {
  getViewport : Size;
  render_resolves : bool
}.

(** What the component uses of a pdf.js document; [getPage i] is [None]
    when its promise rejects.  Pages are numbered from 1. *)
Record PDFDocumentProxy : Type := {
  doc_numPages : nat;
  getPage : nat -> option PDFPageProxy
}.

(** The React state of [PdfEditor]. *)
Record EditorState : Type := {
  uploading : bool;
  pdfUrl : option string;
  pdfArrayBuffer : option ArrayBuffer;
  exportArrayBuffer : option ArrayBuffer;
  pdfDoc : option PDFDocumentProxy;
  numPages : nat;
  pageSizes : list Size;
  overlays : PageOverlays;
  rendering : bool
}.

(** The state of a freshly mounted component. *)
Definition initialState : EditorState :=
  {| uploading := false; pdfUrl := None; pdfArrayBuffer := None;
     exportArrayBuffer := None; pdfDoc := None; numPages := 0%nat;
     pageSizes := []; overlays := ∅; rendering := false |}.

Definition setUploading (v : bool) (st : EditorState) : EditorState :=
  {| uploading := v; pdfUrl := pdfUrl st; pdfArrayBuffer := pdfArrayBuffer st;
     exportArrayBuffer := exportArrayBuffer st; pdfDoc := pdfDoc st;
     numPages := numPages st; pageSizes := pageSizes st;
     overlays := overlays st; rendering := rendering st |}.

Definition setPdfUrl (v : option string) (st : EditorState) : EditorState :=
  {| uploading := uploading st; pdfUrl := v; pdfArrayBuffer := pdfArrayBuffer st;
     exportArrayBuffer := exportArrayBuffer st; pdfDoc := pdfDoc st;
     numPages := numPages st; pageSizes := pageSizes st;
     overlays := overlays st; rendering := rendering st |}.

Definition setPdfArrayBuffer (v : option ArrayBuffer) (st : EditorState) : EditorState :=
  {| uploading := uploading st; pdfUrl := pdfUrl st; pdfArrayBuffer := v;
     exportArrayBuffer := exportArrayBuffer st; pdfDoc := pdfDoc st;
     numPages := numPages st; pageSizes := pageSizes st;
     overlays := overlays st; rendering := rendering st |}.

Definition setExportArrayBuffer (v : option ArrayBuffer) (st : EditorState) : EditorState :=
  {| uploading := uploading st; pdfUrl := pdfUrl st; pdfArrayBuffer := pdfArrayBuffer st;
     exportArrayBuffer := v; pdfDoc := pdfDoc st;
     numPages := numPages st; pageSizes := pageSizes st;
     overlays := overlays st; rendering := rendering st |}.

Definition setPdfDoc (v : option PDFDocumentProxy) (st : EditorState) : EditorState :=
  {| uploading := uploading st; pdfUrl := pdfUrl st; pdfArrayBuffer := pdfArrayBuffer st;
     exportArrayBuffer := exportArrayBuffer st; pdfDoc := v;
     numPages := numPages st; pageSizes := pageSizes st;
     overlays := overlays st; rendering := rendering st |}.

Definition setNumPages (v : nat) (st : EditorState) : EditorState :=
  {| uploading := uploading st; pdfUrl := pdfUrl st; pdfArrayBuffer := pdfArrayBuffer st;
     exportArrayBuffer := exportArrayBuffer st; pdfDoc := pdfDoc st;
     numPages := v; pageSizes := pageSizes st;
     overlays := overlays st; rendering := rendering st |}.

Definition setPageSizes (v : list Size) (st : EditorState) : EditorState :=
  {| uploading := uploading st; pdfUrl := pdfUrl st; pdfArrayBuffer := pdfArrayBuffer st;
     exportArrayBuffer := exportArrayBuffer st; pdfDoc := pdfDoc st;
     numPages := numPages st; pageSizes := v;
     overlays := overlays st; rendering := rendering st |}.

(** [setOverlays(prev => f(prev))] *)
Definition setOverlays (f : PageOverlays -> PageOverlays) (st : EditorState) : EditorState :=
  {| uploading := uploading st; pdfUrl := pdfUrl st; pdfArrayBuffer := pdfArrayBuffer st;
     exportArrayBuffer := exportArrayBuffer st; pdfDoc := pdfDoc st;
     numPages := numPages st; pageSizes := pageSizes st;
     overlays := f (overlays st); rendering := rendering st |}.

Definition setRendering (v : bool) (st : EditorState) : EditorState :=
  {| uploading := uploading st; pdfUrl := pdfUrl st; pdfArrayBuffer := pdfArrayBuffer st;
     exportArrayBuffer := exportArrayBuffer st; pdfDoc := pdfDoc st;
     numPages := numPages st; pageSizes := pageSizes st;
     overlays := overlays st; rendering := v |}.

(** What a handler does besides changing the state. *)
Inductive Effect : Type :=
| ConsoleError                       (* console.error(e) *)
| Alert (msg : string)               (* alert(msg) *)
| Download (filename mime : string) (bytes : ArrayBuffer).
                                     (* the click on the <a download> *)

Definition is_Alert (e : Effect) : bool :=
  match e with Alert _ => true | _ => false end.

Definition is_Download (e : Effect) : bool :=
  match e with Download _ _ _ => true | _ => false end.

(** ** Overlay store *)

(** [prev[pageIndex] || []] *)
Definition page_or_empty (prev : PageOverlays) (pageIndex : nat) : list OverlayItem :=
  default [] (prev !! pageIndex).

(** [addTextOverlay(pageIndex)]; [uuid] is what [crypto.randomUUID()]
    answers. *)
Definition addTextOverlay (uuid : string) (pageIndex : nat) (st : EditorState) : EditorState :=
  let size := pageSizes st !! pageIndex in
  let newOverlay :=
    {| Item.id := uuid;
       Item.text := "New Text";
       Item.x := Fin 0.5;
       Item.y := Fin 0.5;
       Item.fontSize :=
         Math_max (Fin 12)
           (Math_min (Fin 24)
              match size with
              | Some size => Math_round (mul (width size) (Fin 0.02))
              | None => Fin 16
              end);
       Item.color := "#111827" |} in
  setOverlays
    (fun prev => <[pageIndex := page_or_empty prev pageIndex ++ [newOverlay]]> prev) st.

(** [updateOverlay(pageIndex, id, partial)] *)
Definition updateOverlay (pageIndex : nat) (id : string) (partial : Partial.t)
    (st : EditorState) : EditorState :=
  setOverlays
    (fun prev =>
       <[pageIndex :=
           map (fun o => if String.eqb (Item.id o) id then spread o partial else o)
             (page_or_empty prev pageIndex)]> prev) st.

(** [removeOverlay(pageIndex, id)] *)
Definition removeOverlay (pageIndex : nat) (id : string) (st : EditorState) : EditorState :=
  setOverlays
    (fun prev =>
       <[pageIndex :=
           List.filter (fun o => negb (String.eqb (Item.id o) id))
             (page_or_empty prev pageIndex)]> prev) st.

(** An update keeps the id of the item it rewrites unless the
    partial carries another one. *)
Definition keeps_id (id : string) (partial : Partial.t) : Prop :=
  forall i, Partial.id partial = Some i -> i = id.

(** The updates of a session: each names a page and carries a partial;
    all are addressed to the same [id]. *)
Definition updateAll (id : string) (updates : list (nat * Partial.t)) (st : EditorState) : EditorState :=
  fold_left (fun s u => updateOverlay u.1 id u.2 s) updates st.


(** [{ ...a, ...b }] on two partials: a field of [b] wins. *)
Definition merge_partials (a b : Partial.t) : Partial.t :=
  {| Partial.id := match Partial.id b with Some v => Some v | None => Partial.id a end;
     Partial.text := match Partial.text b with Some v => Some v | None => Partial.text a end;
     Partial.x := match Partial.x b with Some v => Some v | None => Partial.x a end;
     Partial.y := match Partial.y b with Some v => Some v | None => Partial.y a end;
     Partial.fontSize :=
       match Partial.fontSize b with Some v => Some v | None => Partial.fontSize a end;
     Partial.color :=
       match Partial.color b with Some v => Some v | None => Partial.color a end |}.

(** ** Interaction: drag stop and field edits *)

(** The [data] argument of react-draggable's [onStop]. *)
Record DraggableData : Type := { data_x : number; data_y : number }.

(** [pageSizes[pageIndex] || { width: 595, height: 842 }] *)
Definition size_or_default (st : EditorState) (pageIndex : nat) : Size :=
  default {| width := Fin 595; height := Fin 842 |} (pageSizes st !! pageIndex).

(** [defaultPosition={{ x: left, y: top }}] with [left = o.x * size.width]
    and [top = o.y * size.height]. *)
Definition defaultPosition (size : Size) (o : OverlayItem) : DraggableData :=
  {| data_x := mul (Item.x o) (width size);
     data_y := mul (Item.y o) (height size) |}.

(** [newX] and [newY] of [onStop]. *)
Definition newX (size : Size) (data : DraggableData) : number :=
  Math_min (Fin 1) (Math_max (Fin 0) (div (data_x data) (width size))).

Definition newY (size : Size) (data : DraggableData) : number :=
  Math_min (Fin 1) (Math_max (Fin 0) (div (data_y data) (height size))).

(** [onStop={(e, data) => ...}] of the overlay [o] shown on [pageIndex]. *)
Definition onStop (pageIndex : nat) (o : OverlayItem) (data : DraggableData)
    (st : EditorState) : EditorState :=
  let size := size_or_default st pageIndex in
  updateOverlay pageIndex (Item.id o)
    {| Partial.id := None; Partial.text := None;
       Partial.x := Some (newX size data); Partial.y := Some (newY size data);
       Partial.fontSize := None; Partial.color := None |} st.

(** [onChange] of the text input: [e.target.value] is [value]. *)
Definition onTextChange (pageIndex : nat) (o : OverlayItem) (value : string)
    (st : EditorState) : EditorState :=
  updateOverlay pageIndex (Item.id o)
    {| Partial.id := None; Partial.text := Some value; Partial.x := None;
       Partial.y := None; Partial.fontSize := None; Partial.color := None |} st.

(** [onChange] of the colour input. *)
Definition onColorChange (pageIndex : nat) (o : OverlayItem) (value : string)
    (st : EditorState) : EditorState :=
  updateOverlay pageIndex (Item.id o)
    {| Partial.id := None; Partial.text := None; Partial.x := None;
       Partial.y := None; Partial.fontSize := None; Partial.color := Some value |} st.

(** [onChange] of the font-size input:
    [updateOverlay(pageIndex, o.id, { fontSize: parseInt(e.target.value, 10) })]. *)
Definition onFontSizeChange (pageIndex : nat) (o : OverlayItem) (value : string)
    (st : EditorState) : EditorState :=
  updateOverlay pageIndex (Item.id o)
    {| Partial.id := None; Partial.text := None; Partial.x := None;
       Partial.y := None; Partial.fontSize := Some (parseInt value);
       Partial.color := None |} st.

(** The attributes of the font-size input:
    [type="range" min={8} max={72} step={1}]. *)
Definition fontSize_min : Z := 8.
Definition fontSize_max : Z := 72.

(** The decimal digits of a natural number below 100, as the control
    writes them. *)
Definition digit_char (d : Z) : ascii := ascii_of_N (Z.to_N (48 + d)).

Definition decimal_lt100 (n : Z) : string :=
  if (n <? 10)%Z then String (digit_char n) EmptyString
  else String (digit_char (n / 10)) (String (digit_char (n mod 10)) EmptyString).

(** [onClick] of the Delete button. *)
Definition onDeleteClick (pageIndex : nat) (o : OverlayItem) (st : EditorState) : EditorState :=
  removeOverlay pageIndex (Item.id o) st.

(** Every item of every page has [x] and [y] in [0,1]. *)
Definition item_on_page (o : OverlayItem) : Prop :=
  between 0 1 (Item.x o) /\ between 0 1 (Item.y o).

Definition all_on_page (prev : PageOverlays) : Prop :=
  forall pageIndex, Forall item_on_page (page_or_empty prev pageIndex).

(** What the user can do to the overlays, each through the handler
    the interface attaches to it. *)
Inductive Action : Type :=
| AddText (uuid : string) (pageIndex : nat)
| DragStop (pageIndex : nat) (o : OverlayItem) (data : DraggableData)
| EditText (pageIndex : nat) (o : OverlayItem) (value : string)
| EditColor (pageIndex : nat) (o : OverlayItem) (value : string)
| EditFontSize (pageIndex : nat) (o : OverlayItem) (value : string)
| ClickDelete (pageIndex : nat) (o : OverlayItem).

Definition perform (action : Action) (st : EditorState) : EditorState :=
  match action with
  | AddText uuid pageIndex => addTextOverlay uuid pageIndex st
  | DragStop pageIndex o data => onStop pageIndex o data st
  | EditText pageIndex o value => onTextChange pageIndex o value st
  | EditColor pageIndex o value => onColorChange pageIndex o value st
  | EditFontSize pageIndex o value => onFontSizeChange pageIndex o value st
  | ClickDelete pageIndex o => onDeleteClick pageIndex o st
  end.

(** The page an action works on. *)
Definition action_page (action : Action) : nat :=
  match action with
  | AddText _ pageIndex | DragStop pageIndex _ _ | EditText pageIndex _ _
  | EditColor pageIndex _ _ | EditFontSize pageIndex _ _ | ClickDelete pageIndex _ =>
      pageIndex
  end.

(** A drag stops at a position, not at NaN. *)
Definition well_placed (action : Action) : Prop :=
  match action with
  | DragStop _ _ data => is_NaN (data_x data) = false /\ is_NaN (data_y data) = false
  | _ => True
  end.

(** Every known page size is finite and positive. *)
Definition positive_sizes (st : EditorState) : Prop :=
  Forall (fun size => exists w h, width size = Fin w /\ height size = Fin h /\
                                  0 < w /\ 0 < h)
    (pageSizes st).

(** ** Colour resolution *)

(** [s] without the prefix [p], when it starts with it. *)
Fixpoint strip_prefix (p s : string) : option string :=
  match p, s with
  | EmptyString, _ => Some s
  | String a p', String b s' => if Ascii.eqb a b then strip_prefix p' s' else None
  | String _ _, EmptyString => None
  end.

(** Every character of [s] is a digit. *)
Fixpoint all_digits (s : string) : bool :=
  match s with
  | String c s' => is_digit c && all_digits s'
  | EmptyString => true
  end.

(** [\d+]: a non-empty run of digits and the rest. *)
Definition digits1 (s : string) : option (string * string) :=
  match span_digits s with
  | (EmptyString, _) => None
  | (ds, rest) => Some (ds, rest)
  end.

(** [/rgba?\((\d+),\s*(\d+),\s*(\d+)/] matched at the head of [s]:
    the three captured groups.  Each quantified class is followed by a
    character outside it, so the greedy match is the only one. *)
Definition rgb_match_here (s : string) : option (string * string * string) :=
  s ← strip_prefix "rgb" s;
  let s := match s with String "a"%char r => r | _ => s end in
  s ← strip_prefix "(" s;
  '(m1, s) ← digits1 s;
  s ← strip_prefix "," s;
  '(m2, s) ← digits1 (skip_spaces s);
  s ← strip_prefix "," s;
  '(m3, _) ← digits1 (skip_spaces s);
  Some (m1, m2, m3).

(** [regexp.exec(computed)]: the leftmost match. *)
Fixpoint rgb_exec (computed : string) : option (string * string * string) :=
  match rgb_match_here computed with
  | Some m => Some m
  | None =>
      match computed with
      | String _ rest => rgb_exec rest
      | EmptyString => None
      end
  end.

(** A triple [[r, g, b]]. *)
Definition Triple : Type := number * number * number.

Definition black : Triple := (Fin 0, Fin 0, Fin 0).

(** [Math.min(255, Math.max(0, parseInt(m, 10)))] *)
Definition channel (m : string) : number :=
  Math_min (Fin 255) (Math_max (Fin 0) (parseInt m)).

(** [cssColorToRgb01(color)].  [ctx] is what
    [document.createElement('canvas').getContext('2d')] answers: [None]
    for [null], otherwise the string read back from [fillStyle] after
    [color] was assigned to it on that fresh context. *)
Definition cssColorToRgb01 (ctx : option (string -> string)) (color : string) : Triple :=
  match ctx with
  | None => black
  | Some fillStyle =>
      let computed := fillStyle color in
      match rgb_exec computed with
      | None => black
      | Some (m1, m2, m3) =>
          let r := channel m1 in
          let g := channel m2 in
          let b := channel m3 in
          (div r (Fin 255), div g (Fin 255), div b (Fin 255))
      end
  end.

(** Each component of a triple lies in [0,1]. *)
Definition in_unit_cube (c : Triple) : Prop :=
  between 0 1 c.1.1 /\ between 0 1 c.1.2 /\ between 0 1 c.2.

(** [c] occurs in [s]. *)
Fixpoint has_char (c : ascii) (s : string) : bool :=
  match s with
  | String c' s' => Ascii.eqb c' c || has_char c s'
  | EmptyString => false
  end.

(** Every character of [s] is white space. *)
Fixpoint all_spaces (s : string) : bool :=
  match s with
  | String c s' => is_space c && all_spaces s'
  | EmptyString => true
  end.

Definition starts_with_digit (s : string) : bool :=
  match s with
  | String c _ => is_digit c
  | EmptyString => false
  end.

(** The serialized form [rgb(m1,ws1 m2,ws2 m3 rest] of a colour, or
    [rgba(...] when [alpha] is set. *)
Definition rgb_form (alpha : bool) (m1 ws1 m2 ws2 m3 rest : string) : string :=
  ("rgb" ++ (if alpha then "a" else "") ++ "(" ++ m1 ++ "," ++ ws1 ++ m2 ++ ","
     ++ ws2 ++ m3 ++ rest)%string.

(** [Math.min(255, Math.max(0, v)) / 255] for the integer [v]. *)
Definition unit_channel (v : Z) : number :=
  Fin (Qmin 255 (Qmax 0 (inject_Z v)) / 255).

(** ** Export *)

(** pdf-lib's [rgb(red, green, blue)]: it asserts that each component
    is a number in 0..1 and throws otherwise. *)
Record Color : Type := { red : number; green : number; blue : number }.

Definition in_range01 (a : number) : bool :=
  match a with
  | Fin q => Qle_bool 0 q && Qle_bool q 1
  | _ => false
  end.

Definition rgb (c : Triple) : option Color :=
  let '(r, g, b) := c in
  if in_range01 r && in_range01 g && in_range01 b
  then Some {| red := r; green := g; blue := b |}
  else None.

(** The options object of [page.drawText]; the font is the one font of
    the export. *)
Record DrawTextOptions : Type := {
  opt_x : number;
  opt_y : number;
  opt_size : number;
  opt_color : Color
}.

(** A page of a pdf-lib document: its size and the text-draw
    instructions issued on it so far. *)
Record PDFPage : Type := {
  getWidth : number;
  getHeight : number;
  drawn : list (string * DrawTextOptions)
}.

(** A pdf-lib document: [getPageCount()] is the length, [getPage(i)]
    the lookup. *)
Definition PDFDocument : Type := list PDFPage.

(** What pdf-lib answers; [None] stands for a rejected promise or a
    thrown exception.  [PDFFont] is the embedded font. *)
Class PdfLib : Type := {
  PDFFont : Type;
  PDFDocument_load : ArrayBuffer -> option PDFDocument;
  embedFont : PDFDocument -> option PDFFont;      (* StandardFonts.Helvetica *)
  widthOfTextAtSize : PDFFont -> string -> number -> option number;
  drawText_accepts : PDFFont -> string -> DrawTextOptions -> bool;
  save : PDFDocument -> option ArrayBuffer
}.

Section ExportEngine.

Context `{lib : PdfLib}.
(** The 2d context of a fresh canvas, as [cssColorToRgb01] takes it. *)
Variable ctx : option (string -> string).

(** [page.drawText(text, options)] *)
Definition drawText (font : PDFFont) (page : PDFPage) (text : string)
    (options : DrawTextOptions) : option PDFPage :=
  if drawText_accepts font text options
  then Some {| getWidth := getWidth page; getHeight := getHeight page;
               drawn := drawn page ++ [(text, options)] |}
  else None.

(** The body of [for (const o of pageOverlays)]. *)
Definition drawOverlay (font : PDFFont) (pageWidth pageHeight : number)
    (page : PDFPage) (o : OverlayItem) : option PDFPage :=
  textWidth ← widthOfTextAtSize font (Item.text o) (Item.fontSize o);
  let xPdf := mul (Item.x o) pageWidth in
  let yTop := mul (Item.y o) pageHeight in
  let yPdf := sub (sub pageHeight yTop) (Item.fontSize o) in
  color ← rgb (cssColorToRgb01 ctx (Item.color o));
  drawText font page (Item.text o)
    {| opt_x := xPdf; opt_y := yPdf; opt_size := Item.fontSize o; opt_color := color |}.

Fixpoint drawOverlays (font : PDFFont) (pageWidth pageHeight : number)
    (page : PDFPage) (pageOverlays : list OverlayItem) : option PDFPage :=
  match pageOverlays with
  | [] => Some page
  | o :: rest =>
      page' ← drawOverlay font pageWidth pageHeight page o;
      drawOverlays font pageWidth pageHeight page' rest
  end.

(** The body of [for (let i = 0; i < pdfDocLib.getPageCount(); i++)],
    on the pages from index [i] on. *)
Fixpoint drawPages (font : PDFFont) (overlays : PageOverlays) (i : nat)
    (pages : list PDFPage) : option (list PDFPage) :=
  match pages with
  | [] => Some []
  | page :: rest =>
      let pageWidth := getWidth page in
      let pageHeight := getHeight page in
      let pageOverlays := page_or_empty overlays i in
      page' ← drawOverlays font pageWidth pageHeight page pageOverlays;
      rest' ← drawPages font overlays (S i) rest;
      Some (page' :: rest')
  end.

(** The [try] block of [handleExport] up to [pdfDocLib.save()]. *)
Definition exportBytes (overlays : PageOverlays) (buffer : ArrayBuffer) : option ArrayBuffer :=
  pdfDocLib ← PDFDocument_load buffer;
  font ← embedFont pdfDocLib;
  pdfDocLib' ← drawPages font overlays 0 pdfDocLib;
  save pdfDocLib'.

(** [handleExport()] *)
Definition handleExport (st : EditorState) : list Effect :=
  match exportArrayBuffer st with
  | None => []
  | Some buffer =>
      match exportBytes (overlays st) buffer with
      | Some bytes => [Download "annotated.pdf" "application/pdf" bytes]
      | None => [ConsoleError; Alert "Failed to export PDF"]
      end
  end.

(** The instruction one overlay leaves on a page of the given size. *)
Definition draws_as (pageWidth pageHeight : number) (o : OverlayItem)
    (op : string * DrawTextOptions) : Prop :=
  op.1 = Item.text o /\
  opt_x op.2 = mul (Item.x o) pageWidth /\
  opt_y op.2 = sub (sub pageHeight (mul (Item.y o) pageHeight)) (Item.fontSize o) /\
  opt_size op.2 = Item.fontSize o /\
  rgb (cssColorToRgb01 ctx (Item.color o)) = Some (opt_color op.2).

(** The steps of an export that can fail. *)
Inductive ExportStep : Type :=
| LoadSource | EmbedFont | Draw | Serialize.

(** [fails_at overlays buffer step]: every step before [step]
    succeeded and [step] failed. *)
Definition fails_at (overlays : PageOverlays) (buffer : ArrayBuffer)
    (step : ExportStep) : Prop :=
  match step with
  | LoadSource => PDFDocument_load buffer = None
  | EmbedFont =>
      exists doc, PDFDocument_load buffer = Some doc /\ embedFont doc = None
  | Draw =>
      exists doc font, PDFDocument_load buffer = Some doc /\
        embedFont doc = Some font /\ drawPages font overlays 0 doc = None
  | Serialize =>
      exists doc font doc', PDFDocument_load buffer = Some doc /\
        embedFont doc = Some font /\ drawPages font overlays 0 doc = Some doc' /\
        save doc' = None
  end.

End ExportEngine.

(** ** Loading a document *)

Section Loading.

(** [fetch(url).then(r => r.arrayBuffer())]; [None] when it rejects. *)
Variable fetch_arrayBuffer : string -> option ArrayBuffer.

(** The effect that loads the PDF named by [?file=];
    [searchParams_file] is [searchParams.get('file')]. *)
Definition loadFromParam (searchParams_file : option string) (st : EditorState)
    : EditorState * list Effect :=
  match searchParams_file with
  | None => (st, [])
  | Some paramUrl =>
      if negb (truthy paramUrl) then (st, [])
      else if decide (pdfUrl st = Some paramUrl) then (st, [])
      else
        let st := setPdfUrl (Some paramUrl) st in
        match fetch_arrayBuffer paramUrl with
        | Some ab => (setPdfArrayBuffer (Some ab) st, [])
        | None => (st, [ConsoleError; Alert "Failed to load PDF from URL"])
        end
  end.

(** The selected file of the upload input. *)
Record File : Type := { file_type : string }.

(** The answer of [POST /api/upload]: the request rejects with an error
    message, the response is not ok and its body carries an [error]
    field or not, or it is ok and its body carries the [url]. *)
Inductive UploadAnswer : Type :=
| UploadRejects (message : string)
| UploadNotOk (error : option string)
| UploadOk (url : string).

Variable upload : File -> UploadAnswer.

(** [a || b] on strings. *)
Definition or_else (a b : string) : string := if truthy a then a else b.

(** [handleFileSelect(e)]: the handler's own writes and alerts, in the
    order it issues them, with nothing else running while it awaits;
    [file] is [e.target.files?.[0]], and [fetch_message] the message of
    the error a failed fetch of the uploaded URL rejects with.  What the
    component does while the handler awaits is in
    [handleFileSelect_start] and [handleFileSelect_resume] below. *)
Definition handleFileSelect (fetch_message : string) (file : option File)
    (st : EditorState) : EditorState * list Effect :=
  match file with
  | None => (st, [])
  | Some file =>
      if negb (String.eqb (file_type file) "application/pdf")
      then (st, [Alert "Please upload a PDF file"])
      else
        let st := setUploading true st in
        match upload file with
        | UploadRejects message =>
            (setUploading false st, [ConsoleError; Alert (or_else message "Upload failed")])
        | UploadNotOk error =>
            let message := or_else (default "" error) "Upload failed" in
            (setUploading false st, [ConsoleError; Alert (or_else message "Upload failed")])
        | UploadOk url =>
            let st := setPdfUrl (Some url) st in
            match fetch_arrayBuffer url with
            | None =>
                (setUploading false st,
                 [ConsoleError; Alert (or_else fetch_message "Upload failed")])
            | Some ab =>
                let renderCopy := ab in
                let exportCopy := ab in
                let st := setPdfArrayBuffer (Some renderCopy) st in
                let st := setExportArrayBuffer (Some exportCopy) st in
                (setUploading false st, [])
            end
        end
  end.

(** The handler stops at [await fetch(data.url)] (line 71) with
    [setPdfUrl(data.url)] already issued (line 70): the component
    renders with the new [pdfUrl], and the effects that depend on it run,
    before the buffers are written.  Where the handler stands then: it
    has returned, or it awaits the fetch of [url]. *)
Inductive HandlerProgress : Type :=
| Returned (st : EditorState) (effects : list Effect)
| AwaitsFetch (url : string) (st : EditorState).

(** [handleFileSelect] up to [await fetch(data.url)] (lines 53-70). *)
Definition handleFileSelect_start (file : option File) (st : EditorState)
    : HandlerProgress :=
  match file with
  | None => Returned st []
  | Some file =>
      if negb (String.eqb (file_type file) "application/pdf")
      then Returned st [Alert "Please upload a PDF file"]
      else
        let st := setUploading true st in
        match upload file with
        | UploadRejects message =>
            Returned (setUploading false st)
              [ConsoleError; Alert (or_else message "Upload failed")]
        | UploadNotOk error =>
            let message := or_else (default "" error) "Upload failed" in
            Returned (setUploading false st)
              [ConsoleError; Alert (or_else message "Upload failed")]
        | UploadOk url => AwaitsFetch url (setPdfUrl (Some url) st)
        end
  end.

(** [handleFileSelect] from the moment the fetch of [url] settles
    (lines 71-82), on the state the component has by then. *)
Definition handleFileSelect_resume (fetch_message url : string) (st : EditorState)
    : EditorState * list Effect :=
  match fetch_arrayBuffer url with
  | None =>
      (setUploading false st,
       [ConsoleError; Alert (or_else fetch_message "Upload failed")])
  | Some ab =>
      let renderCopy := ab in
      let exportCopy := ab in
      let st := setPdfArrayBuffer (Some renderCopy) st in
      let st := setExportArrayBuffer (Some exportCopy) st in
      (setUploading false st, [])
  end.

(** The [?file=] effect up to its own [await] (lines 97-103): the state
    after its synchronous part, and the URL whose fetch it awaits, if it
    got that far. *)
Definition loadFromParam_start (searchParams_file : option string) (st : EditorState)
    : EditorState * option string :=
  match searchParams_file with
  | None => (st, None)
  | Some paramUrl =>
      if negb (truthy paramUrl) then (st, None)
      else if decide (pdfUrl st = Some paramUrl) then (st, None)
      else (setPdfUrl (Some paramUrl) st, Some paramUrl)
  end.

(** The [?file=] effect from the moment its fetch settles
    (lines 103-108). *)
Definition loadFromParam_resume (paramUrl : string) (st : EditorState)
    : EditorState * list Effect :=
  match fetch_arrayBuffer paramUrl with
  | Some ab => (setPdfArrayBuffer (Some ab) st, [])
  | None => (st, [ConsoleError; Alert "Failed to load PDF from URL"])
  end.

End Loading.

(** ** Restoring the overlays of a document *)

(** What [localStorage.getItem(key)] does: throw, answer [null], or
    answer the stored string. *)
Inductive StorageRead : Type :=
| ReadThrows
| ReadNull
| ReadString (raw : string).

Section Restore.

Variable encodeURIComponent : string -> string.
Variable localStorage_getItem : string -> StorageRead.
(** [JSON.parse(raw) as PageOverlays]; [None] when it throws. *)
Variable JSON_parse : string -> option PageOverlays.

(** [getOverlaysStorageKey(url)] *)
Definition getOverlaysStorageKey (url : string) : string :=
  ("overlays:" ++ encodeURIComponent url)%string.

(** The effect that restores the overlays when [pdfUrl] changes. *)
Definition restoreOverlays (st : EditorState) : EditorState * list Effect :=
  match pdfUrl st with
  | None => (st, [])
  | Some url =>
      if negb (truthy url) then (st, [])
      else
        match localStorage_getItem (getOverlaysStorageKey url) with
        | ReadThrows => (setOverlays (fun _ => ∅) st, [ConsoleError])
        | ReadNull => (setOverlays (fun _ => ∅) st, [])
        | ReadString raw =>
            if truthy raw then
              match JSON_parse raw with
              | Some parsed => (setOverlays (fun _ => parsed) st, [])
              | None => (setOverlays (fun _ => ∅) st, [ConsoleError])
              end
            else (setOverlays (fun _ => ∅) st, [])
        end
  end.

(** The restore found nothing it could use: the read threw, the record
    is absent or empty, or the parse threw. *)
Definition nothing_restorable (url : string) : Prop :=
  match localStorage_getItem (getOverlaysStorageKey url) with
  | ReadThrows | ReadNull => True
  | ReadString raw => truthy raw = false \/ JSON_parse raw = None
  end.

End Restore.

(** ** Persisting the overlays of a document *)

(** A [localStorage] that can be read: its records. *)
Definition getItem_of (storage : gmap string string) (key : string) : StorageRead :=
  match storage !! key with
  | Some raw => ReadString raw
  | None => ReadNull
  end.

Section Persist.

Variable encodeURIComponent : string -> string.
Variable JSON_stringify : PageOverlays -> string.
(** Whether [localStorage.setItem(key, value)] returns; [false] when it
    throws (quota, access). *)
Variable setItem_returns : string -> string -> bool.

(** The effect that persists the overlays when they or [pdfUrl]
    change: the records afterwards, and the effects. *)
Definition persistOverlays (st : EditorState) (storage : gmap string string)
    : gmap string string * list Effect :=
  match pdfUrl st with
  | None => (storage, [])
  | Some url =>
      if negb (truthy url) then (storage, [])
      else
        let key := getOverlaysStorageKey encodeURIComponent url in
        let value := JSON_stringify (overlays st) in
        if setItem_returns key value then (<[key := value]> storage, [])
        else (storage, [ConsoleError])
  end.

End Persist.

(** ** Rendering *)

(** A mounted [<canvas>]: whether [getContext('2d')] answers a
    context. *)
Record HTMLCanvasElement : Type := { has_2d_context : bool }.

(** When the effect's cleanup set [cancelled], relative to the awaits of
    [loadAndRender]. *)
Inductive Cancellation : Type :=
| NotCancelled
| CancelledWhileOpening      (* before [loadingTask.promise] settled *)
| CancelledWhileMeasuring    (* during the loop that collects the sizes *)
| CancelledWhileRendering.   (* during the loop that paints the pages *)

(** What a run of [loadAndRender] leaves behind: the state, the effects,
    and the numbers of the pages whose [page.render] resolved, in
    order. *)
Record RenderRun : Type := {
  run_state : EditorState;
  run_effects : list Effect;
  run_painted : list nat
}.

Section Rendering.

(** [getDocument({ data }).promise]; [None] when it rejects. *)
Variable getDocument : ArrayBuffer -> option PDFDocumentProxy.
(** [canvasRefs.current], indexed from 0. *)
Variable canvasRefs : gmap nat HTMLCanvasElement.

(** The first loop: the viewport of every page in [pages]; [None] when
    a [getPage] rejects. *)
Fixpoint collectSizes (doc : PDFDocumentProxy) (pages : list nat) : option (list Size) :=
  match pages with
  | [] => Some []
  | i :: rest =>
      page ← getPage doc i;
      sizes ← collectSizes doc rest;
      Some (getViewport page :: sizes)
  end.

(** The second loop on the pages [pages]: the pages painted, and
    whether the loop ran to its end ([false]: an await rejected). *)
Fixpoint renderPages (doc : PDFDocumentProxy) (pages : list nat) : list nat * bool :=
  match pages with
  | [] => ([], true)
  | i :: rest =>
      match getPage doc i with
      | None => ([], false)
      | Some page =>
          match canvasRefs !! (i - 1)%nat with
          | None => renderPages doc rest                       (* continue *)
          | Some canvas =>
              if negb (has_2d_context canvas) then renderPages doc rest
              else if render_resolves page then
                let '(painted, completed) := renderPages doc rest in
                (i :: painted, completed)
              else ([], false)
          end
      end
  end.

(** [catch (e) { console.error(e); alert('Failed to render PDF'); }] *)
Definition renderFailure : list Effect := [ConsoleError; Alert "Failed to render PDF"].

(** [finally { if (!cancelled) setRendering(false); }] *)
Definition finally (cancel : Cancellation) (st : EditorState) : EditorState :=
  match cancel with
  | NotCancelled => setRendering false st
  | _ => st
  end.

(** [loadAndRender()] *)
Definition loadAndRender (cancel : Cancellation) (st : EditorState) : RenderRun :=
  match pdfArrayBuffer st with
  | None => {| run_state := st; run_effects := []; run_painted := [] |}
  | Some data =>
      let st := setRendering true st in
      match getDocument data with
      | None =>
          {| run_state := finally cancel st; run_effects := renderFailure;
             run_painted := [] |}
      | Some doc =>
          match cancel with
          | CancelledWhileOpening =>
              {| run_state := st; run_effects := []; run_painted := [] |}
          | _ =>
              let st := setPdfDoc (Some doc) st in
              let st := setNumPages (doc_numPages doc) st in
              match collectSizes doc (seq 1 (doc_numPages doc)) with
              | None =>
                  {| run_state := finally cancel st; run_effects := renderFailure;
                     run_painted := [] |}
              | Some sizes =>
                  match cancel with
                  | CancelledWhileMeasuring =>
                      {| run_state := st; run_effects := []; run_painted := [] |}
                  | _ =>
                      let st := setPageSizes sizes st in
                      let '(painted, completed) :=
                        renderPages doc (seq 1 (doc_numPages doc)) in
                      {| run_state := finally cancel st;
                         run_effects := if completed then [] else renderFailure;
                         run_painted := painted |}
                  end
              end
          end
      end
  end.

End Rendering.

(** ** The autosizing input *)

(** The fields of [getComputedStyle(el)] that enter the width. *)
Record CSSStyleDeclaration : Type := {
  paddingLeft : string;
  paddingRight : string;
  borderLeftWidth : string;
  borderRightWidth : string
}.

Section Autosize.

(** [parseFloat], and [ctx.measureText(text).width] under the font of
    the element. *)
Variable parseFloat : string -> number.
Variable measureText_width : string -> number.

(** [computedWidth] of the layout effect of [AutosizeInput]. *)
Definition computedWidth (cs : CSSStyleDeclaration) (value : string) : number :=
  let metrics_width := measureText_width (or_else value " ") in
  let paddingLeft := parseFloat (or_else (paddingLeft cs) "0") in
  let paddingRight := parseFloat (or_else (paddingRight cs) "0") in
  let borderLeft := parseFloat (or_else (borderLeftWidth cs) "0") in
  let borderRight := parseFloat (or_else (borderRightWidth cs) "0") in
  Math_ceil
    (add (add (add (add (add metrics_width paddingLeft) paddingRight) borderLeft)
            borderRight) (Fin 1)).

(** The layout effect of [AutosizeInput]: the width after it, from the
    width before.  [el] is the computed style of [inputRef.current]
    ([None] when the ref is empty), [has_ctx] whether the canvas
    answers a 2d context. *)
Definition autosize (el : option CSSStyleDeclaration) (has_ctx : bool)
    (value : string) (minWidth width : number) : number :=
  match el with
  | None => width
  | Some cs =>
      if has_ctx then Math_max minWidth (computedWidth cs value) else width
  end.

End Autosize.

(** ** The upload page *)

Module Home.

Record State : Type := {
  uploadedUrl : option string;
  isUploading : bool;
  error : option string
}.

Definition setUploadedUrl (v : option string) (st : State) : State :=
  {| uploadedUrl := v; isUploading := isUploading st; error := error st |}.

Definition setIsUploading (v : bool) (st : State) : State :=
  {| uploadedUrl := uploadedUrl st; isUploading := v; error := error st |}.

Definition setError (v : option string) (st : State) : State :=
  {| uploadedUrl := uploadedUrl st; isUploading := isUploading st; error := v |}.

(** [handleFileChange(e)]; [upload] is the answer of [POST /api/upload]
    read through [res.json()]: [UploadRejects] when the fetch or the
    reading rejects. *)
Definition handleFileChange (upload : File -> UploadAnswer) (file : option File)
    (st : State) : State :=
  let st := setError None st in
  match file with
  | None => st
  | Some file =>
      if negb (String.eqb (file_type file) "application/pdf")
      then setError (Some "Please select a PDF file") st
      else
        let st := setIsUploading true st in
        let st :=
          match upload file with
          | UploadRejects message => setError (Some message) st
          | UploadNotOk data_error =>
              setError (Some (or_else (default "" data_error) "Upload failed")) st
          | UploadOk url => setUploadedUrl (Some url) st
          end in
        setIsUploading false st
  end.

(** [{error && <p>...</p>}]: the message is shown. *)
Definition error_shown (st : State) : bool :=
  match error st with
  | Some message => truthy message
  | None => false
  end.

End Home.

(** ** The single-page editor *)

Module SinglePage.

(** [TextItem]: a position in canvas pixels from the top left. *)
Record TextItem : Type := {
  id : string;
  text : string;
  x : number;
  y : number;
  size : number
}.

Record State : Type := {
  scale : number;
  pageViewport : option Size;
  textItems : list TextItem;
  newText : string
}.

(** [handleAddText()]; [container] tells whether [containerRef.current]
    is set, [random_id] is [Math.random().toString(36).slice(2)]. *)
Definition handleAddText (container : bool) (random_id : string) (st : State) : State :=
  match pageViewport st with
  | None => st
  | Some viewport =>
      if negb container then st
      else
        let defaultX := sub (div (width viewport) (Fin 2)) (Fin 50) in
        let defaultY := sub (div (height viewport) (Fin 2)) (Fin 10) in
        {| scale := scale st;
           pageViewport := pageViewport st;
           textItems :=
             textItems st
             ++ [{| id := random_id; text := or_else (newText st) "Text";
                    x := defaultX; y := defaultY; size := Fin 16 |}];
           newText := "" |}
  end.

(** [updateItemPosition(id, x, y)] *)
Definition updateItemPosition (id' : string) (x' y' : number) (st : State) : State :=
  {| scale := scale st;
     pageViewport := pageViewport st;
     textItems :=
       map (fun t => if String.eqb (id t) id'
                     then {| id := id t; text := text t; x := x'; y := y'; size := size t |}
                     else t)
         (textItems st);
     newText := newText st |}.

(** [a || b] on numbers. *)
Definition or_num (a b : number) : number := if num_truthy a then a else b.

(** [pageViewport?.width || pageWidth] and
    [pageViewport?.height || pageHeight]. *)
Definition canvasWidth (st : State) (pageWidth : number) : number :=
  match pageViewport st with
  | Some viewport => or_num (width viewport) pageWidth
  | None => pageWidth
  end.

Definition canvasHeight (st : State) (pageHeight : number) : number :=
  match pageViewport st with
  | Some viewport => or_num (height viewport) pageHeight
  | None => pageHeight
  end.

Section Exporting.

Context `{lib : PdfLib}.
Variable fetch_arrayBuffer : string -> option ArrayBuffer.

(** The loop [for (const item of textItems)] on the first page. *)
Fixpoint drawItems (font : PDFFont) (canvasHeight xRatio yRatio : number)
    (page : PDFPage) (items : list TextItem) : option PDFPage :=
  match items with
  | [] => Some page
  | item :: rest =>
      let pdfX := mul (x item) xRatio in
      let pdfY := mul (sub canvasHeight (y item)) yRatio in
      page' ← drawText font page (text item)
                {| opt_x := pdfX; opt_y := pdfY; opt_size := size item;
                   opt_color := {| red := Fin 0; green := Fin 0; blue := Fin 0 |} |};
      drawItems font canvasHeight xRatio yRatio page' rest
  end.

(** [handleExport()] up to [pdfDoc.save()]; [None] when a promise
    rejects or [getPage(0)] throws. *)
Definition exportBytes (pdfUrl : string) (st : State) : option ArrayBuffer :=
  originalPdfBytes ← fetch_arrayBuffer pdfUrl;
  pdfDoc ← PDFDocument_load originalPdfBytes;
  match pdfDoc with
  | [] => None
  | page :: others =>
      font ← embedFont pdfDoc;
      let pageWidth := getWidth page in
      let pageHeight := getHeight page in
      let canvasWidth := canvasWidth st pageWidth in
      let canvasHeight := canvasHeight st pageHeight in
      let xRatio := div pageWidth canvasWidth in
      let yRatio := div pageHeight canvasHeight in
      page' ← drawItems font canvasHeight xRatio yRatio page (textItems st);
      save (page' :: others)
  end.

(** [handleExport()]: it has no [catch], so a failure raises nothing
    the user sees. *)
Definition handleExport (pdfUrl : string) (st : State) : list Effect :=
  match exportBytes pdfUrl st with
  | Some pdfBytes => [Download "filled.pdf" "application/pdf" pdfBytes]
  | None => []
  end.

End Exporting.

End SinglePage.

(** ** The upload routes *)

(** [s.includes(sub)] *)
Fixpoint includes (s sub : string) : bool :=
  if String.prefix sub s then true
  else
    match s with
    | String _ s' => includes s' sub
    | EmptyString => false
    end.

(** The [file] entry of the form data. *)
Record UploadedFile : Type := { type : string; name : string }.

Inductive FormEntry : Type :=
| NoEntry                          (* formData.get("file") is null *)
| StringEntry (value : string)
| FileEntry (file : UploadedFile).

(** The JSON body of a response. *)
Inductive ResponseBody : Type :=
| ErrorBody (error : string) (details : option string)
| UrlBody (url : string) (pathname : option string).

Record Response : Type := { status : nat; body : ResponseBody }.

(** What [put] of [@vercel/blob] answers. *)
Record PutBlobResult : Type := { blob_url : string; blob_pathname : string }.

Section Routes.

(** [put(filename, file, { contentType, ... })]: the stored blob, or the
    message of the error it rejects with. *)
Variable put : string -> UploadedFile -> string -> PutBlobResult + string.

(** The call of the nodejs route,
    [put(filename, file, { contentType, token, ... })]: a call of its
    own, made with the token it is given and, as [addRandomSuffix] is
    set in both routes, with a random suffix of its own.  What it
    answers is therefore a parameter of its own, and no function of
    what the call of the edge route answers. *)
Variable put_with_token
  : string -> UploadedFile -> string -> option string -> PutBlobResult + string.

(** [POST] of the edge route; [formData] is what [req.formData()]
    resolves to with [get("file")] applied, or the message it rejects
    with. *)
Definition POST_edge (formData : FormEntry + string) : Response :=
  match formData with
  | inr _ => {| status := 500; body := ErrorBody "Upload failed" None |}
  | inl NoEntry | inl (StringEntry _) =>
      {| status := 400; body := ErrorBody "No file provided" None |}
  | inl (FileEntry file) =>
      let contentType := or_else (type file) "application/octet-stream" in
      if negb (includes contentType "pdf")
      then {| status := 400; body := ErrorBody "Only PDF files are allowed" None |}
      else
        match put (or_else (name file) "upload.pdf") file contentType with
        | inl blob => {| status := 200; body := UrlBody (blob_url blob) None |}
        | inr _ => {| status := 500; body := ErrorBody "Upload failed" None |}
        end
  end.

(** [POST] of the nodejs route; [BLOB_READ_WRITE_TOKEN] is the
    variable of [process.env], [content_type] is
    [request.headers.get("content-type")], [now] the decimal of
    [Date.now()]. *)
Definition POST_node (BLOB_READ_WRITE_TOKEN : option string)
    (content_type : option string) (now : string)
    (formData : FormEntry + string) : Response :=
  let contentType := or_else (default "" content_type) "" in
  if negb (includes contentType "multipart/form-data")
  then {| status := 400;
          body := ErrorBody "Invalid content type. Use multipart/form-data." None |}
  else
    match formData with
    | inr message =>
        {| status := 500; body := ErrorBody "Upload failed" (Some message) |}
    | inl (FileEntry file) =>
        if negb (String.eqb (type file) "application/pdf")
        then {| status := 400; body := ErrorBody "Only PDF files are allowed" None |}
        else
          let filename := or_else (name file) ("upload-" ++ now ++ ".pdf")%string in
          match put_with_token filename file "application/pdf" BLOB_READ_WRITE_TOKEN with
          | inl blob =>
              {| status := 200;
                 body := UrlBody (blob_url blob) (Some (blob_pathname blob)) |}
          | inr message =>
              {| status := 500; body := ErrorBody "Upload failed" (Some message) |}
          end
    | inl _ => {| status := 400; body := ErrorBody "No file provided" None |}
    end.

End Routes.

(** Page [i] has a mounted canvas that answers a 2d context. *)
Definition usable_canvas (canvasRefs : gmap nat HTMLCanvasElement) (i : nat) : bool :=
  match canvasRefs !! (i - 1)%nat with
  | Some canvas => has_2d_context canvas
  | None => false
  end.

(** ** Scenarios *)

(** An editor that holds one overlay, added to page 0 before any page
    size is known: [{x: 0.5, y: 0.5, fontSize: 16}]. *)
Definition one_overlay : EditorState := addTextOverlay "u1" 0 initialState.

Definition the_overlay : OverlayItem :=
  Item.mk "u1" "New Text" (Fin 0.5) (Fin 0.5) (Fin 16) "#111827".

(** A page of 595 x 842 points with nothing drawn on it. *)
Definition a4 : Size := {| width := Fin 595; height := Fin 842 |}.

Definition a4_page : PDFPage :=
  {| getWidth := Fin 595; getHeight := Fin 842; drawn := [] |}.

(** A pdf-lib that loads every buffer as one A4 page and accepts
    everything. *)
Definition one_page_lib : PdfLib :=
  {| PDFFont := unit;
     PDFDocument_load := fun _ => Some [a4_page];
     embedFont := fun _ => Some tt;
     widthOfTextAtSize := fun _ _ _ => Some (Fin 0);
     drawText_accepts := fun _ _ _ => true;
     save := fun _ => Some [] |}.

(** A pdf-lib that rejects every buffer as corrupt. *)
Definition corrupt_source_lib : PdfLib :=
  {| PDFFont := unit;
     PDFDocument_load := fun _ => None;
     embedFont := fun _ => Some tt;
     widthOfTextAtSize := fun _ _ _ => Some (Fin 0);
     drawText_accepts := fun _ _ _ => true;
     save := fun _ => Some [] |}.

(** A pdf.js document of three A4 pages of which page 2 fails to
    render, and three mounted canvases. *)
Definition page2_fails (i : nat) : PDFPageProxy :=
  {| getViewport := a4; render_resolves := negb (i =? 2)%nat |}.

Definition three_pages : PDFDocumentProxy :=
  {| doc_numPages := 3; getPage := fun i => Some (page2_fails i) |}.

Definition three_canvases : gmap nat HTMLCanvasElement :=
  <[0%nat := {| has_2d_context := true |}]>
    (<[1%nat := {| has_2d_context := true |}]>
       (<[2%nat := {| has_2d_context := true |}]> ∅)).

(** A pdf-lib whose font cannot measure any text. *)
Definition no_glyph_lib : PdfLib :=
  {| PDFFont := unit;
     PDFDocument_load := fun _ => Some [a4_page];
     embedFont := fun _ => Some tt;
     widthOfTextAtSize := fun _ _ _ => None;
     drawText_accepts := fun _ _ _ => true;
     save := fun _ => Some [] |}.

(** A pdf.js document of three pages whose page 2 cannot be got. *)
Definition page2_missing : PDFDocumentProxy :=
  {| doc_numPages := 3;
     getPage := fun i => if (i =? 2)%nat then None else Some (page2_fails i) |}.

(** Canvases for pages 1 and 3 only. *)
Definition two_canvases : gmap nat HTMLCanvasElement :=
  <[0%nat := {| has_2d_context := true |}]>
    (<[2%nat := {| has_2d_context := true |}]> ∅).
(** * Properties *)

Example parseInt_16 : parseInt "16" = Fin (16 # 1).
Proof. reflexivity. Qed.

Example parseInt_signed : parseInt "  -42px" = Fin (-42 # 1).
Proof. reflexivity. Qed.

Example parseInt_empty : parseInt "" = NaN.
Proof. reflexivity. Qed.

Example add_default_item :
  page_or_empty (overlays (addTextOverlay "u1" 0 initialState)) 0
  = [Item.mk "u1" "New Text" (Fin 0.5) (Fin 0.5) (Fin 16) "#111827"].
Proof. vm_compute. reflexivity. Qed.

(** *** The store's page-wise behaviour *)

Section OverlayStore.

Implicit Types (st : EditorState) (prev : PageOverlays) (l : list OverlayItem).

Lemma page_add uuid p st :
  exists o, Item.id o = uuid /\
    page_or_empty (overlays (addTextOverlay uuid p st)) p
    = page_or_empty (overlays st) p ++ [o].
Proof.
  eexists. split; [|unfold addTextOverlay, page_or_empty at 1; simpl;
                     rewrite lookup_insert_eq; reflexivity].
  reflexivity.
Qed.

Lemma page_update p id partial st :
  page_or_empty (overlays (updateOverlay p id partial st)) p
  = map (fun o => if String.eqb (Item.id o) id then spread o partial else o)
      (page_or_empty (overlays st) p).
Proof. unfold updateOverlay, page_or_empty at 1. simpl. by rewrite lookup_insert_eq. Qed.

Lemma page_update_other p q id partial st :
  p <> q ->
  page_or_empty (overlays (updateOverlay q id partial st)) p
  = page_or_empty (overlays st) p.
Proof.
  intros Hne. unfold updateOverlay, page_or_empty at 1. simpl.
  by rewrite lookup_insert_ne.
Qed.

Lemma page_remove p id st :
  page_or_empty (overlays (removeOverlay p id st)) p
  = List.filter (fun o => negb (String.eqb (Item.id o) id))
      (page_or_empty (overlays st) p).
Proof. unfold removeOverlay, page_or_empty at 1. simpl. by rewrite lookup_insert_eq. Qed.

Lemma page_remove_other p q id st :
  p <> q ->
  page_or_empty (overlays (removeOverlay q id st)) p
  = page_or_empty (overlays st) p.
Proof.
  intros Hne. unfold removeOverlay, page_or_empty at 1. simpl.
  by rewrite lookup_insert_ne.
Qed.

(** Items whose id differs from [id] are left alone by an update. *)
Lemma map_update_foreign id partial l :
  Forall (fun o => Item.id o <> id) l ->
  map (fun o => if String.eqb (Item.id o) id then spread o partial else o) l = l.
Proof.
  induction 1 as [|o l Ho _ IH]; simpl; [done|].
  destruct (String.eqb_spec (Item.id o) id); [done|]. by rewrite IH.
Qed.

Lemma filter_remove_foreign id l :
  Forall (fun o => Item.id o <> id) l ->
  List.filter (fun o => negb (String.eqb (Item.id o) id)) l = l.
Proof.
  induction 1 as [|o l Ho _ IH]; simpl; [done|].
  destruct (String.eqb_spec (Item.id o) id); [done|]. simpl. by rewrite IH.
Qed.

Lemma spread_keeps_id o partial :
  keeps_id (Item.id o) partial -> Item.id (spread o partial) = Item.id o.
Proof.
  unfold keeps_id. simpl. destruct (Partial.id partial) as [i|]; simpl; [|done].
  intros H. by apply H.
Qed.

(** While the updates run, the page is its old items followed by one
    item that still carries the fresh id. *)
Lemma updateAll_page id p updates : forall st old o,
  Forall (fun u => keeps_id id u.2) updates ->
  Forall (fun o' => Item.id o' <> id) old ->
  Item.id o = id ->
  page_or_empty (overlays st) p = old ++ [o] ->
  exists o', Item.id o' = id /\
    page_or_empty (overlays (updateAll id updates st)) p = old ++ [o'].
Proof.
  induction updates as [|[q partial] updates IH]; intros st old o Hk Hold Ho Hp.
  - exists o. by split.
  - inversion Hk as [|? ? Hk1 Hk2]; subst. simpl in Hk1. simpl.
    destruct (decide (p = q)) as [->|Hne].
    + eapply (IH _ old (spread o partial)); [done|done| |].
      * by apply spread_keeps_id.
      * rewrite page_update, Hp, map_app, map_update_foreign by done.
        simpl. by rewrite String.eqb_refl.
    + eapply (IH _ old o); [done|done|done|].
      by rewrite page_update_other.
Qed.

End OverlayStore.

(** ** Numbers *)

Section Numbers.

Lemma num_eq_refl (a : number) : is_NaN a = false -> num_eq a a.
Proof. destruct a; simpl; intros; try done. Qed.

Lemma num_eq_sym (a b : number) : num_eq a b -> num_eq b a.
Proof. destruct a, b; simpl; try done. Qed.

Lemma num_eq_trans (a b c : number) : num_eq a b -> num_eq b c -> num_eq a c.
Proof.
  destruct a, b, c; simpl; try done. apply Qeq_trans.
Qed.

Lemma num_eq_Fin_r (a : number) (q : Q) : num_eq a (Fin q) -> exists p, a = Fin p /\ p == q.
Proof. destruct a; simpl; try done. eauto. Qed.

Lemma between_num_eq (lo hi : Q) (a b : number) : num_eq a b -> between lo hi a -> between lo hi b.
Proof.
  destruct a, b; simpl; try done. intros H [H1 H2]. rewrite <- H. by split.
Qed.

(** Dividing by a positive finite number. *)
Lemma div_Fin_pos (p w : Q) : 0 < w -> div (Fin p) (Fin w) = Fin (p / w).
Proof.
  intros Hw. simpl. destruct (w ?= 0) eqn:E; try done.
  apply Qeq_alt in E. rewrite E in Hw. by apply Qlt_irrefl in Hw.
Qed.

Lemma div_pos_not_NaN (a : number) (w : Q) : 0 < w -> is_NaN a = false -> is_NaN (div a (Fin w)) = false.
Proof.
  intros Hw Ha. destruct a; try done.
  - by rewrite div_Fin_pos.
  - simpl. by destruct (w ?= 0).
  - simpl. by destruct (w ?= 0).
Qed.

(** [Math.min(1, Math.max(0, a))] lies in [0,1] unless [a] is NaN. *)
Lemma clamp01_between (a : number) :
  is_NaN a = false -> between 0 1 (Math_min (Fin 1) (Math_max (Fin 0) a)).
Proof.
  destruct a as [q| | |]; simpl; try done; intros _.
  split.
  - apply Q.min_glb; [done|apply Q.le_max_l].
  - apply Q.le_min_l.
Qed.

Lemma mul_div_cancel (q w : Q) : 0 < w -> q * w / w == q.
Proof. intros Hw. field. intros E. rewrite E in Hw. by apply Qlt_irrefl in Hw. Qed.

(** On [0,1] the clamp is the identity. *)
Lemma clamp01_id (q : Q) :
  0 <= q <= 1 -> Qmin 1 (Qmax 0 q) == q.
Proof.
  intros [H0 H1]. rewrite (Q.max_r 0 q) by done. by rewrite Q.min_r.
Qed.

Lemma clamp01_round_trip (q w : Q) :
  0 < w -> 0 <= q <= 1 -> Qmin 1 (Qmax 0 (q * w / w)) == q.
Proof. intros Hw H. rewrite (mul_div_cancel q w Hw). by apply clamp01_id. Qed.

End Numbers.

(** ** Drag stop *)

Section DragStop.

Implicit Types (st : EditorState) (size : Size) (o : OverlayItem) (data : DraggableData) (p : nat).

(** C2.  For a normalized position [(x, y)] in [0,1]^2 and a page of
    positive width and height, the surface position
    [(x * width, y * height)] that the overlay is shown at is converted
    back by the drag-stop conversion to [(x, y)]. *)
Theorem drag_round_trip size o w h qx qy :
  width size = Fin w -> height size = Fin h -> 0 < w -> 0 < h ->
  Item.x o = Fin qx -> Item.y o = Fin qy ->
  0 <= qx <= 1 -> 0 <= qy <= 1 ->
  num_eq (newX size (defaultPosition size o)) (Item.x o) /\
  num_eq (newY size (defaultPosition size o)) (Item.y o).
Proof.
  intros Hw Hh Hwp Hhp Hx Hy Hqx Hqy.
  unfold newX, newY, defaultPosition. simpl.
  rewrite Hw, Hh, Hx, Hy. cbn [mul].
  rewrite !div_Fin_pos by done. cbn [Math_max Math_min num_eq].
  split; by apply clamp01_round_trip.
Qed.

Lemma onStop_page st p o data :
  page_or_empty (overlays (onStop p o data st)) p
  = map (fun o' =>
           if String.eqb (Item.id o') (Item.id o)
           then {| Item.id := Item.id o'; Item.text := Item.text o';
                   Item.x := newX (size_or_default st p) data;
                   Item.y := newY (size_or_default st p) data;
                   Item.fontSize := Item.fontSize o'; Item.color := Item.color o' |}
           else o')
      (page_or_empty (overlays st) p).
Proof. unfold onStop. by rewrite page_update. Qed.

Lemma newX_between size data w :
  width size = Fin w -> 0 < w -> is_NaN (data_x data) = false ->
  between 0 1 (newX size data).
Proof.
  intros Hw Hwp Hx. unfold newX. rewrite Hw.
  by apply clamp01_between, div_pos_not_NaN.
Qed.

Lemma newY_between size data h :
  height size = Fin h -> 0 < h -> is_NaN (data_y data) = false ->
  between 0 1 (newY size data).
Proof.
  intros Hh Hhp Hy. unfold newY. rewrite Hh.
  by apply clamp01_between, div_pos_not_NaN.
Qed.

(** A drag stop whose converted position is in the unit square keeps
    every item on its page. *)
Lemma onStop_keeps_on_page st p o data :
  between 0 1 (newX (size_or_default st p) data) ->
  between 0 1 (newY (size_or_default st p) data) ->
  all_on_page (overlays st) -> all_on_page (overlays (onStop p o data st)).
Proof.
  intros HX HY Hall q. destruct (decide (q = p)) as [->|Hne].
  - rewrite onStop_page. apply Forall_map.
    eapply Forall_impl; [apply (Hall p)|]. intros o' Ho'. simpl.
    destruct (String.eqb (Item.id o') (Item.id o)); [by split|done].
  - unfold onStop. rewrite page_update_other by done. apply Hall.
Qed.

(** C3.  Whatever surface position a drag stops at (negative, beyond
    the page, even infinite), on a page of positive width and height
    the drag-stop conversion yields [x] and [y] in [0,1]; the items the
    drag rewrites then lie on the page, and a collection whose items all
    lay on their pages stays so. *)
Theorem drag_stop_clamped st p o data w h :
  width (size_or_default st p) = Fin w ->
  height (size_or_default st p) = Fin h ->
  0 < w -> 0 < h ->
  is_NaN (data_x data) = false -> is_NaN (data_y data) = false ->
  between 0 1 (newX (size_or_default st p) data) /\
  between 0 1 (newY (size_or_default st p) data) /\
  Forall (fun o' => Item.id o' = Item.id o -> item_on_page o')
    (page_or_empty (overlays (onStop p o data st)) p) /\
  (all_on_page (overlays st) -> all_on_page (overlays (onStop p o data st))).
Proof.
  intros Hw Hh Hwp Hhp Hx Hy.
  pose proof (newX_between _ data w Hw Hwp Hx) as HX.
  pose proof (newY_between _ data h Hh Hhp Hy) as HY.
  split; [done|]. split; [done|]. split.
  - rewrite onStop_page. apply Forall_map, Forall_forall. intros o' _.
    destruct (String.eqb_spec (Item.id o') (Item.id o)) as [E|NE]; simpl.
    + intros _. by split.
    + intros E. by destruct NE.
  - by apply onStop_keeps_on_page.
Qed.

(** *** The invariant over a whole editing session *)

Lemma page_add_other uuid p q st :
  p <> q ->
  page_or_empty (overlays (addTextOverlay uuid q st)) p = page_or_empty (overlays st) p.
Proof.
  intros Hne. unfold addTextOverlay, page_or_empty at 1. simpl.
  by rewrite lookup_insert_ne.
Qed.

Lemma add_keeps_on_page uuid p st :
  all_on_page (overlays st) -> all_on_page (overlays (addTextOverlay uuid p st)).
Proof.
  intros Hall q. destruct (decide (q = p)) as [->|Hne].
  - unfold addTextOverlay, page_or_empty at 1. simpl. rewrite lookup_insert_eq. simpl.
    apply Forall_app. split; [apply Hall|]. repeat constructor; simpl; done.
  - rewrite page_add_other by done. apply Hall.
Qed.

(** An update that carries neither [x] nor [y] moves nothing. *)
Lemma update_keeps_on_page p id partial st :
  Partial.x partial = None -> Partial.y partial = None ->
  all_on_page (overlays st) -> all_on_page (overlays (updateOverlay p id partial st)).
Proof.
  intros Hx Hy Hall q. destruct (decide (q = p)) as [->|Hne].
  - rewrite page_update. apply Forall_map.
    eapply Forall_impl; [apply (Hall p)|]. intros o' Ho'. simpl.
    destruct (String.eqb (Item.id o') id); [|done].
    unfold item_on_page, spread. simpl. by rewrite Hx, Hy.
  - rewrite page_update_other by done. apply Hall.
Qed.

Lemma remove_keeps_on_page p id st :
  all_on_page (overlays st) -> all_on_page (overlays (removeOverlay p id st)).
Proof.
  intros Hall q. destruct (decide (q = p)) as [->|Hne].
  - rewrite page_remove. apply List.Forall_forall. intros o' Hin.
    apply List.filter_In in Hin as [Hin _].
    pose proof (Hall p) as Hp. rewrite List.Forall_forall in Hp. by apply Hp.
  - rewrite page_remove_other by done. apply Hall.
Qed.

Lemma perform_pageSizes action st : pageSizes (perform action st) = pageSizes st.
Proof. by destruct action. Qed.

Lemma size_or_default_positive st p :
  positive_sizes st ->
  exists w h, width (size_or_default st p) = Fin w /\
              height (size_or_default st p) = Fin h /\ 0 < w /\ 0 < h.
Proof.
  intros Hpos. unfold size_or_default.
  destruct (pageSizes st !! p) as [size|] eqn:E; simpl.
  - unfold positive_sizes in Hpos. rewrite Forall_forall in Hpos.
    apply Hpos. by eapply list_elem_of_lookup_2.
  - by exists 595, 842.
Qed.

Lemma perform_keeps_on_page action st :
  positive_sizes st -> well_placed action ->
  all_on_page (overlays st) -> all_on_page (overlays (perform action st)).
Proof.
  intros Hpos Hwp Hall. destruct action as [uuid p|p o data|p o v|p o v|p o v|p o]; simpl.
  - by apply add_keeps_on_page.
  - destruct (size_or_default_positive st p Hpos) as (w & h & Hw & Hh & Hwp' & Hhp).
    destruct Hwp as [Hx Hy].
    apply onStop_keeps_on_page; [by eapply newX_between|by eapply newY_between|done].
  - by apply update_keeps_on_page.
  - by apply update_keeps_on_page.
  - by apply update_keeps_on_page.
  - by apply remove_keeps_on_page.
Qed.

(** X7.  Whatever the user does, in whatever order, on pages of positive
    size: if every item lay on its page before, every item does
    after.  The empty collection of a fresh editor is such a start. *)
Lemma session_keeps_on_page actions : forall st,
  positive_sizes st -> Forall well_placed actions ->
  all_on_page (overlays st) ->
  all_on_page (overlays (fold_left (fun s a => perform a s) actions st)).
Proof.
  induction actions as [|a actions IH]; intros st Hpos Hwp Hall; [done|].
  inversion Hwp as [|? ? Ha Hrest]; subst. simpl. apply IH; [|done|].
  - unfold positive_sizes. by rewrite perform_pageSizes.
  - by apply perform_keeps_on_page.
Qed.

Lemma fresh_editor_on_page : all_on_page (overlays initialState).
Proof. intros q. unfold page_or_empty. simpl. rewrite lookup_empty. constructor. Qed.

End DragStop.

(** ** Overlay identity *)

(** C4.  On any collection and page: add an item under an id not yet
    used on that page, apply any finite sequence of updates addressed
    to that id (on any pages, none of them overwriting the id itself),
    remove the id; the page's sequence is then exactly what it was
    before the add. *)
Theorem add_update_remove_restores_page
    (st : EditorState) (pageIndex : nat) (uuid : string)
    (updates : list (nat * Partial.t)) :
  Forall (fun o => Item.id o <> uuid) (page_or_empty (overlays st) pageIndex) ->
  Forall (fun u => keeps_id uuid u.2) updates ->
  page_or_empty
    (overlays (removeOverlay pageIndex uuid
                 (updateAll uuid updates (addTextOverlay uuid pageIndex st))))
    pageIndex
  = page_or_empty (overlays st) pageIndex.
Proof.
  intros Hfresh Hkeep.
  destruct (page_add uuid pageIndex st) as (o & Ho & Hadd).
  destruct (updateAll_page uuid pageIndex updates _ _ o Hkeep Hfresh Ho Hadd)
    as (o' & Ho' & Hupd).
  rewrite page_remove, Hupd, List.filter_app, filter_remove_foreign by done.
  simpl. rewrite Ho', String.eqb_refl. simpl. apply app_nil_r.
Qed.

(** The edits the interface issues never overwrite an id. *)
Lemma interface_edits_keep_id id size data value :
  keeps_id id {| Partial.id := None; Partial.text := None;
                 Partial.x := Some (newX size data); Partial.y := Some (newY size data);
                 Partial.fontSize := None; Partial.color := None |} /\
  keeps_id id {| Partial.id := None; Partial.text := Some value; Partial.x := None;
                 Partial.y := None; Partial.fontSize := None; Partial.color := None |} /\
  keeps_id id {| Partial.id := None; Partial.text := None; Partial.x := None;
                 Partial.y := None; Partial.fontSize := None; Partial.color := Some value |} /\
  keeps_id id {| Partial.id := None; Partial.text := None; Partial.x := None;
                 Partial.y := None; Partial.fontSize := Some (parseInt value);
                 Partial.color := None |}.
Proof. repeat split; intros i; simpl; discriminate. Qed.

(** ** Export *)

Section ExportFacts.

Context `{lib : PdfLib}.
Variable ctx : option (string -> string).

Lemma drawOverlay_inv font w h page o page' :
  drawOverlay ctx font w h page o = Some page' ->
  getWidth page' = getWidth page /\ getHeight page' = getHeight page /\
  exists op, draws_as ctx w h o op /\ drawn page' = drawn page ++ [op].
Proof.
  unfold drawOverlay, drawText. intros H.
  destruct (widthOfTextAtSize font _ _) as [tw|]; [|done]. simpl in H.
  destruct (rgb _) as [c|] eqn:Hc; [|done]. simpl in H.
  destruct (drawText_accepts _ _ _); [|done].
  injection H as <-. simpl. do 2 (split; [done|]).
  eexists. split; [|reflexivity]. by repeat split.
Qed.

(** The inner loop appends one instruction per overlay, in order. *)
Lemma drawOverlays_inv font w h items : forall page page',
  drawOverlays ctx font w h page items = Some page' ->
  getWidth page' = getWidth page /\ getHeight page' = getHeight page /\
  exists ops, Forall2 (draws_as ctx w h) items ops /\ drawn page' = drawn page ++ ops.
Proof.
  induction items as [|o items IH]; intros page page' H; simpl in H.
  - injection H as <-. do 2 (split; [done|]). exists []. split; [constructor|].
    by rewrite app_nil_r.
  - destruct (drawOverlay ctx font w h page o) as [page1|] eqn:H1; [|done]. simpl in H.
    apply drawOverlay_inv in H1 as (Hw & Hh & op & Hop & Hd).
    apply IH in H as (Hw' & Hh' & ops & Hops & Hd').
    split; [congruence|]. split; [congruence|].
    exists (op :: ops). split; [by constructor|].
    by rewrite Hd', Hd, <- app_assoc.
Qed.

(** The outer loop treats page [i + j] with the overlays stored under
    [i + j]. *)
Lemma drawPages_inv font overlays pages : forall i doc' j page,
  drawPages ctx font overlays i pages = Some doc' ->
  pages !! j = Some page ->
  exists page', doc' !! j = Some page' /\
    drawOverlays ctx font (getWidth page) (getHeight page) page
      (page_or_empty overlays (i + j)) = Some page'.
Proof.
  induction pages as [|pg pages IH]; intros i doc' j page H Hj; [done|].
  simpl in H.
  destruct (drawOverlays ctx font _ _ pg _) as [pg'|] eqn:H1; [|done]. simpl in H.
  destruct (drawPages ctx font overlays (S i) pages) as [rest'|] eqn:H2; [|done].
  injection H as <-. destruct j as [|j]; simpl in Hj.
  - injection Hj as <-. exists pg'. split; [done|]. by rewrite Nat.add_0_r.
  - destruct (IH _ _ _ _ H2 Hj) as (page' & Hl & Hd).
    exists page'. split; [done|]. by rewrite <- Nat.add_succ_comm.
Qed.

(** C1.  In an export whose drawing completes, the overlay stored at
    position [k] of page [i], with normalized position [(x, y)] and
    font size [f], is drawn on that page (of size [(width, height)]),
    after what the page already held, with its text, at
    [(x * width, height - y * height - f)] and at size [f]; the bytes
    handed to the download are the serialization of the document so
    drawn. *)
Theorem export_draw_position
    (st : EditorState) (buffer : ArrayBuffer) (doc doc' : PDFDocument) (font : PDFFont)
    (i k : nat) (page : PDFPage) (o : OverlayItem) (w h qx qy f : Q) :
  exportArrayBuffer st = Some buffer ->
  PDFDocument_load buffer = Some doc ->
  embedFont doc = Some font ->
  drawPages ctx font (overlays st) 0 doc = Some doc' ->
  doc !! i = Some page ->
  getWidth page = Fin w -> getHeight page = Fin h ->
  page_or_empty (overlays st) i !! k = Some o ->
  Item.x o = Fin qx -> Item.y o = Fin qy -> Item.fontSize o = Fin f ->
  exportBytes ctx (overlays st) buffer = save doc' /\
  exists page' options,
    doc' !! i = Some page' /\
    drawn page' !! (length (drawn page) + k)%nat = Some (Item.text o, options) /\
    opt_x options = Fin (qx * w) /\
    opt_y options = Fin (h - qy * h - f) /\
    opt_size options = Fin f.
Proof.
  intros Hbuf Hload Hfont Hdraw Hi Hw Hh Hk Hx Hy Hf. split.
  - unfold exportBytes. rewrite Hload. simpl. rewrite Hfont. simpl.
    by rewrite Hdraw.
  - destruct (drawPages_inv _ _ _ _ _ _ _ Hdraw Hi) as (page' & Hi' & Hpage).
    apply drawOverlays_inv in Hpage as (_ & _ & ops & Hops & Hd).
    destruct (Forall2_lookup_l _ _ _ _ _ Hops Hk) as ([t options] & Hop & Has).
    destruct Has as (Ht & Hox & Hoy & Hos & _). simpl in *.
    exists page', options. split; [done|]. split.
    + rewrite Hd, lookup_app_r by lia.
      replace (length (drawn page) + k - length (drawn page))%nat with k by lia.
      by rewrite Hop, Ht.
    + rewrite Hox, Hoy, Hos, Hx, Hy, Hf, Hw, Hh. done.
Qed.

(** An export either fails at one of its steps or hands the
    serialized bytes to the download. *)
Lemma export_outcome (overlays : PageOverlays) (buffer : ArrayBuffer) :
  (exists step, fails_at ctx overlays buffer step /\
     exportBytes ctx overlays buffer = None) \/
  (exists doc font doc' bytes,
     PDFDocument_load buffer = Some doc /\ embedFont doc = Some font /\
     drawPages ctx font overlays 0 doc = Some doc' /\ save doc' = Some bytes /\
     exportBytes ctx overlays buffer = Some bytes).
Proof.
  unfold exportBytes.
  destruct (PDFDocument_load buffer) as [doc|] eqn:Hload; simpl;
    [|left; by exists LoadSource].
  destruct (embedFont doc) as [font|] eqn:Hfont; simpl;
    [|left; exists EmbedFont; split; [by exists doc|done]].
  destruct (drawPages ctx font overlays 0 doc) as [doc'|] eqn:Hdraw; simpl;
    [|left; exists Draw; split; [by exists doc, font|done]].
  destruct (save doc') as [bytes|] eqn:Hsave;
    [|left; exists Serialize; split; [by exists doc, font, doc'|done]].
  right. by exists doc, font, doc', bytes.
Qed.

Lemma fails_at_exportBytes (overlays : PageOverlays) (buffer : ArrayBuffer) step :
  fails_at ctx overlays buffer step -> exportBytes ctx overlays buffer = None.
Proof.
  unfold exportBytes. destruct step; simpl.
  - by intros ->.
  - intros (doc & -> & Hf). simpl. by rewrite Hf.
  - intros (doc & font & -> & Hf & Hd). simpl. rewrite Hf. simpl. by rewrite Hd.
  - intros (doc & font & doc' & -> & Hf & Hd & Hs). simpl. rewrite Hf. simpl.
    rewrite Hd. simpl. done.
Qed.

(** C8.  In every export run: if a step fails (loading the source
    bytes, embedding the font, drawing, serializing), the run performs
    [console.error] and one [alert] and nothing else, so no file is
    downloaded; and a download only ever carries the bytes that the
    serialization of the fully drawn document produced. *)
Theorem export_failure_aborts (st : EditorState) (buffer : ArrayBuffer) :
  exportArrayBuffer st = Some buffer ->
  (forall step, fails_at ctx (overlays st) buffer step ->
     handleExport ctx st = [ConsoleError; Alert "Failed to export PDF"] /\
     length (List.filter is_Alert (handleExport ctx st)) = 1%nat /\
     existsb is_Download (handleExport ctx st) = false) /\
  (forall filename mime bytes,
     In (Download filename mime bytes) (handleExport ctx st) ->
     exists doc font doc',
       PDFDocument_load buffer = Some doc /\ embedFont doc = Some font /\
       drawPages ctx font (overlays st) 0 doc = Some doc' /\
       save doc' = Some bytes).
Proof.
  intros Hbuf. unfold handleExport. rewrite Hbuf. split.
  - intros step Hstep. by rewrite (fails_at_exportBytes _ _ _ Hstep).
  - intros filename mime bytes.
    destruct (export_outcome (overlays st) buffer)
      as [(step & _ & ->)|(doc & font & doc' & bytes' & Hl & Hf & Hd & Hs & ->)];
      simpl; intros Hin.
    + destruct Hin as [|[|[]]]; discriminate.
    + destruct Hin as [Heq|[]]. injection Heq as _ _ <-.
      by exists doc, font, doc'.
Qed.

(** C10.  A document loaded through [?file=] while no export copy is
    held: the load fills the rendering buffer and leaves the export
    buffer null, and an export then returns at once, with no download
    and no message. *)
Theorem param_load_cannot_export
    (fetch_arrayBuffer : string -> option ArrayBuffer)
    (paramUrl : string) (ab : ArrayBuffer) (st : EditorState) :
  exportArrayBuffer st = None ->
  truthy paramUrl = true ->
  pdfUrl st <> Some paramUrl ->
  fetch_arrayBuffer paramUrl = Some ab ->
  pdfUrl (loadFromParam fetch_arrayBuffer (Some paramUrl) st).1 = Some paramUrl /\
  pdfArrayBuffer (loadFromParam fetch_arrayBuffer (Some paramUrl) st).1 = Some ab /\
  exportArrayBuffer (loadFromParam fetch_arrayBuffer (Some paramUrl) st).1 = None /\
  (loadFromParam fetch_arrayBuffer (Some paramUrl) st).2 = [] /\
  handleExport ctx (loadFromParam fetch_arrayBuffer (Some paramUrl) st).1 = [].
Proof.
  intros Hexp Htruthy Hurl Hfetch. unfold loadFromParam.
  rewrite Htruthy. simpl. destruct (decide (pdfUrl st = Some paramUrl)); [done|].
  rewrite Hfetch. simpl. unfold handleExport. simpl. by rewrite Hexp.
Qed.

(** The [?file=] effect never touches the export buffer, whatever it
    is given and whatever the fetch answers. *)
Lemma loadFromParam_keeps_export_buffer
    (fetch_arrayBuffer : string -> option ArrayBuffer)
    (searchParams_file : option string) (st : EditorState) :
  exportArrayBuffer (loadFromParam fetch_arrayBuffer searchParams_file st).1
  = exportArrayBuffer st.
Proof.
  unfold loadFromParam. destruct searchParams_file as [paramUrl|]; [|done].
  destruct (truthy paramUrl); [|done]. simpl.
  destruct (decide (pdfUrl st = Some paramUrl)); [done|].
  by destruct (fetch_arrayBuffer paramUrl).
Qed.

(** Once an upload has set [pdfUrl], the [?file=] effect that follows
    the reflected URL does nothing. *)
Lemma loadFromParam_same_url
    (fetch_arrayBuffer : string -> option ArrayBuffer) (url : string) (st : EditorState) :
  pdfUrl st = Some url ->
  loadFromParam fetch_arrayBuffer (Some url) st = (st, []).
Proof.
  intros Hurl. unfold loadFromParam. destruct (truthy url); [|done]. simpl.
  by destruct (decide (pdfUrl st = Some url)).
Qed.

(** A fresh upload, by contrast, fills both buffers with the fetched
    bytes. *)
Lemma upload_fills_both_buffers
    (fetch_arrayBuffer : string -> option ArrayBuffer) (upload : File -> UploadAnswer)
    (fetch_message url : string) (file : File) (ab : ArrayBuffer) (st : EditorState) :
  file_type file = "application/pdf" ->
  upload file = UploadOk url ->
  fetch_arrayBuffer url = Some ab ->
  pdfArrayBuffer (handleFileSelect fetch_arrayBuffer upload fetch_message (Some file) st).1
    = Some ab /\
  exportArrayBuffer (handleFileSelect fetch_arrayBuffer upload fetch_message (Some file) st).1
    = Some ab.
Proof.
  intros Htype Hup Hfetch. unfold handleFileSelect.
  rewrite Htype, Hup, Hfetch. simpl. done.
Qed.

End ExportFacts.

(** ** Colour resolution *)

Section Colour.

Lemma digit_not_space (c : ascii) : is_digit c = true -> is_space c = false.
Proof. destruct c as [[] [] [] [] [] [] [] []]; vm_compute; congruence. Qed.

Lemma span_digits_all (s : string) : all_digits (span_digits s).1 = true.
Proof.
  induction s as [|c s IH]; simpl; [done|].
  destruct (is_digit c) eqn:Hc; [|done].
  destruct (span_digits s) as [ds rest]. simpl in *. by rewrite Hc.
Qed.

Lemma span_all_digits (s : string) :
  all_digits s = true -> span_digits s = (s, EmptyString).
Proof.
  induction s as [|c s IH]; simpl; [done|].
  intros [Hc Hs]%andb_prop. rewrite Hc, (IH Hs). done.
Qed.

Lemma digits1_inv (s ds rest : string) :
  digits1 s = Some (ds, rest) -> ds <> EmptyString /\ all_digits ds = true.
Proof.
  unfold digits1. pose proof (span_digits_all s) as Hall.
  destruct (span_digits s) as [[|c ds'] r]; [done|].
  intros [= <- <-]. by split.
Qed.

(** On a non-empty string of digits [parseInt] answers its value. *)
Lemma parseInt_digits (ds : string) :
  ds <> EmptyString -> all_digits ds = true ->
  parseInt ds = of_Z (digits_value 0 ds).
Proof.
  destruct ds as [|c ds]; [done|]. intros _ Hall.
  pose proof (span_all_digits _ Hall) as Hspan.
  simpl in Hall. apply andb_prop in Hall as [Hc Hds].
  unfold parseInt. cbn [skip_spaces]. rewrite (digit_not_space c Hc).
  destruct c as [[] [] [] [] [] [] [] []]; try discriminate Hc;
    rewrite Hspan; reflexivity.
Qed.

Lemma channel_digits (m : string) :
  m <> EmptyString -> all_digits m = true ->
  between 0 1 (div (channel m) (Fin 255)).
Proof.
  intros Hne Hall. unfold channel. rewrite (parseInt_digits m Hne Hall).
  unfold of_Z. cbn [Math_max Math_min]. rewrite div_Fin_pos by done.
  set (q := Qmin 255 (Qmax 0 (inject_Z (digits_value 0 m)))).
  assert (Hq : 0 <= q /\ q <= 255).
  { split; [apply Q.min_glb; [done|apply Q.le_max_l]|apply Q.le_min_l]. }
  destruct Hq as [H0 H1]. simpl. split.
  - apply Qle_shift_div_l; [done|]. by rewrite Qmult_0_l.
  - apply Qle_shift_div_r; [done|]. by rewrite Qmult_1_l.
Qed.

Lemma rgb_match_here_inv (s m1 m2 m3 : string) :
  rgb_match_here s = Some (m1, m2, m3) ->
  (m1 <> EmptyString /\ all_digits m1 = true) /\
  (m2 <> EmptyString /\ all_digits m2 = true) /\
  (m3 <> EmptyString /\ all_digits m3 = true).
Proof.
  unfold rgb_match_here. intros H.
  apply bind_Some in H as (s1 & _ & H).
  apply bind_Some in H as (s2 & _ & H).
  apply bind_Some in H as ([g1 s3] & E1 & H).
  apply bind_Some in H as (s4 & _ & H).
  apply bind_Some in H as ([g2 s5] & E2 & H).
  apply bind_Some in H as (s6 & _ & H).
  apply bind_Some in H as ([g3 s7] & E3 & H).
  injection H as <- <- <-.
  apply digits1_inv in E1, E2, E3. done.
Qed.

Lemma rgb_exec_inv (computed m1 m2 m3 : string) :
  rgb_exec computed = Some (m1, m2, m3) ->
  (m1 <> EmptyString /\ all_digits m1 = true) /\
  (m2 <> EmptyString /\ all_digits m2 = true) /\
  (m3 <> EmptyString /\ all_digits m3 = true).
Proof.
  induction computed as [|c computed IH].
  - cbn [rgb_exec].
    destruct (rgb_match_here EmptyString) as [m|] eqn:E; [|done].
    intros [= ->]. by apply rgb_match_here_inv in E.
  - cbn [rgb_exec].
    destruct (rgb_match_here (String c computed)) as [m|] eqn:E; [|exact IH].
    intros [= ->]. by apply rgb_match_here_inv in E.
Qed.

Lemma between_in_range01 (a : number) : between 0 1 a -> in_range01 a = true.
Proof.
  destruct a; simpl; try done. intros [H0 H1].
  apply andb_true_intro. split; by apply Qle_bool_iff.
Qed.

Lemma black_in_unit_cube : in_unit_cube black.
Proof. repeat split; done. Qed.

Lemma cssColorToRgb01_in_unit_cube ctx color :
  in_unit_cube (cssColorToRgb01 ctx color).
Proof.
  unfold cssColorToRgb01. destruct ctx as [fillStyle|]; [|apply black_in_unit_cube].
  destruct (rgb_exec (fillStyle color)) as [[[m1 m2] m3]|] eqn:E;
    [|apply black_in_unit_cube].
  apply rgb_exec_inv in E as ((? & ?) & (? & ?) & (? & ?)).
  repeat split; simpl; by apply channel_digits.
Qed.

(** C9.  For every colour string, and whatever the canvas answers, the
    resolved triple has each component in [0,1]; it is black when there
    is no 2d context or when the string read back from [fillStyle] has
    no [rgb(]/[rgba(] form for the expression to match; and pdf-lib's
    [rgb] accepts the triple, so the resolution cannot make the export
    throw. *)
Theorem cssColorToRgb01_safe (ctx : option (string -> string)) (color : string) :
  in_unit_cube (cssColorToRgb01 ctx color) /\
  match ctx with
  | None => cssColorToRgb01 ctx color = black
  | Some fillStyle =>
      match rgb_exec (fillStyle color) with
      | None => cssColorToRgb01 ctx color = black
      | Some _ => True
      end
  end /\
  is_Some (rgb (cssColorToRgb01 ctx color)).
Proof.
  split; [apply cssColorToRgb01_in_unit_cube|]. split.
  - destruct ctx as [fillStyle|]; [|done]. unfold cssColorToRgb01.
    by destruct (rgb_exec (fillStyle color)).
  - pose proof (cssColorToRgb01_in_unit_cube ctx color) as H.
    destruct (cssColorToRgb01 ctx color) as [[r g] b].
    destruct H as (Hr & Hg & Hb). simpl in *. unfold rgb.
    by rewrite !between_in_range01.
Qed.

Example rgba_resolves :
  cssColorToRgb01 (Some (fun _ => "rgba(17, 24, 39, 0.5)")) "#11182780"
  = (Fin (17 / 255), Fin (24 / 255), Fin (39 / 255)).
Proof. reflexivity. Qed.

Example hex_serialization_is_black :
  cssColorToRgb01 (Some (fun c => c)) "#111827" = black.
Proof. reflexivity. Qed.

Example exec_is_leftmost :
  rgb_exec "xrgb(1,2)rgb(300,4,  5" = Some ("300", "4", "5").
Proof. reflexivity. Qed.

End Colour.

(** ** Restoring overlays *)

Section RestoreFacts.

Variable encodeURIComponent : string -> string.
Variable localStorage_getItem : string -> StorageRead.
Variable JSON_parse : string -> option PageOverlays.

(** C7.  For the document [url] that is current: when the read of its
    persisted record throws, or the record is absent or empty, or its
    parse throws, the restore sets the overlay collection to the empty
    one, raises no alert (at most a [console.error]), and leaves the
    rest of the editor state as it was. *)
Theorem restore_failure_is_empty (st : EditorState) (url : string) :
  pdfUrl st = Some url ->
  truthy url = true ->
  nothing_restorable encodeURIComponent localStorage_getItem JSON_parse url ->
  overlays (restoreOverlays encodeURIComponent localStorage_getItem JSON_parse st).1 = ∅ /\
  existsb is_Alert
    (restoreOverlays encodeURIComponent localStorage_getItem JSON_parse st).2 = false /\
  (restoreOverlays encodeURIComponent localStorage_getItem JSON_parse st).1
  = setOverlays (fun _ => ∅) st.
Proof.
  intros Hurl Htruthy Hnothing. unfold restoreOverlays, nothing_restorable in *.
  rewrite Hurl, Htruthy. simpl.
  destruct (localStorage_getItem _) as [| |raw]; [done|done|].
  destruct Hnothing as [-> | Hparse]; [done|].
  destruct (truthy raw); [|done]. by rewrite Hparse.
Qed.

(** When the record is there and parses, the restore installs it. *)
Lemma restore_success (st : EditorState) (url raw : string) (parsed : PageOverlays) :
  pdfUrl st = Some url ->
  truthy url = true ->
  localStorage_getItem (getOverlaysStorageKey encodeURIComponent url) = ReadString raw ->
  truthy raw = true ->
  JSON_parse raw = Some parsed ->
  restoreOverlays encodeURIComponent localStorage_getItem JSON_parse st
  = (setOverlays (fun _ => parsed) st, []).
Proof.
  intros Hurl Htruthy Hread Hraw Hparse. unfold restoreOverlays.
  by rewrite Hurl, Htruthy, Hread, Hraw, Hparse.
Qed.

End RestoreFacts.

(** ** Font size edits *)

Section FontSize.

Lemma onFontSizeChange_page (st : EditorState) (pageIndex : nat) (o : OverlayItem)
    (value : string) :
  page_or_empty (overlays (onFontSizeChange pageIndex o value st)) pageIndex
  = map (fun o' =>
           if String.eqb (Item.id o') (Item.id o)
           then {| Item.id := Item.id o'; Item.text := Item.text o';
                   Item.x := Item.x o'; Item.y := Item.y o';
                   Item.fontSize := parseInt value; Item.color := Item.color o' |}
           else o')
      (page_or_empty (overlays st) pageIndex).
Proof. unfold onFontSizeChange. by rewrite page_update. Qed.

(** The control writes an integer below 100 in decimal, and [parseInt]
    reads it back. *)
Lemma parseInt_decimal (n : Z) :
  (0 <= n < 100)%Z -> parseInt (decimal_lt100 n) = of_Z n.
Proof.
  intros Hn. rewrite <- (Z2Nat.id n) by lia.
  assert (Hk : (Z.to_nat n < 100)%nat) by lia.
  revert Hk. generalize (Z.to_nat n). intros k Hk.
  do 100 (destruct k as [|k]; [reflexivity|]). lia.
Qed.

(** C6.  The one edit of the interface that sets [fontSize] is the
    [onChange] of the range control (lines 400-407), which delivers the
    decimal of an integer from its [min = 8] to its [max = 72] in steps
    of 1.  On every such value every item the edit rewrites gets
    exactly [parseInt(value, 10)], that integer, as its [fontSize],
    which lies in 8..72. *)
Theorem fontSize_edit_within_control_range
    (st : EditorState) (pageIndex : nat) (o : OverlayItem) (n : Z) :
  (fontSize_min <= n <= fontSize_max)%Z ->
  Forall (fun o' => Item.id o' = Item.id o ->
                    Item.fontSize o' = of_Z n /\ between 8 72 (Item.fontSize o'))
    (page_or_empty (overlays (onFontSizeChange pageIndex o (decimal_lt100 n) st))
       pageIndex).
Proof.
  unfold fontSize_min, fontSize_max. intros Hn.
  rewrite onFontSizeChange_page. apply Forall_map, Forall_forall. intros o' _.
  destruct (String.eqb_spec (Item.id o') (Item.id o)) as [E|NE]; simpl.
  - intros _. rewrite parseInt_decimal by lia. split; [done|].
    unfold of_Z. simpl. split.
    + replace 8 with (inject_Z 8) by done. rewrite <- Zle_Qle. lia.
    + replace 72 with (inject_Z 72) by done. rewrite <- Zle_Qle. lia.
  - intros E. by destruct NE.
Qed.

End FontSize.

(** ** Rendering *)

Section RenderingFacts.

Variable getDocument : ArrayBuffer -> option PDFDocumentProxy.
Variable canvasRefs : gmap nat HTMLCanvasElement.

(** A document of [doc_numPages doc] pages whose [getPage] resolves on
    each of them, every page with a mounted canvas that has a 2d
    context. *)
Variable doc : PDFDocumentProxy.
Variable pages : nat -> PDFPageProxy.
Hypothesis getPage_resolves :
  forall i, (1 <= i <= doc_numPages doc)%nat -> getPage doc i = Some (pages i).
Hypothesis canvases_mounted :
  forall i, (i < doc_numPages doc)%nat ->
    exists canvas, canvasRefs !! i = Some canvas /\ has_2d_context canvas = true.

Lemma collectSizes_all (len a : nat) :
  (1 <= a)%nat -> (a + len <= S (doc_numPages doc))%nat ->
  collectSizes doc (seq a len) = Some (map (fun i => getViewport (pages i)) (seq a len)).
Proof.
  revert a. induction len as [|len IH]; intros a Ha Hlen; simpl; [done|].
  rewrite getPage_resolves by lia. simpl. rewrite IH by lia. done.
Qed.

(** The paint loop stops at the first page whose render rejects. *)
Lemma renderPages_stops (k len a : nat) :
  (1 <= a)%nat -> (a + len <= S (doc_numPages doc))%nat ->
  (a <= k < a + len)%nat ->
  (forall i, (a <= i < k)%nat -> render_resolves (pages i) = true) ->
  render_resolves (pages k) = false ->
  renderPages canvasRefs doc (seq a len) = (seq a (k - a), false).
Proof.
  revert a. induction len as [|len IH]; intros a Ha Hlen Hk Hbefore Hfail; [lia|].
  simpl. rewrite getPage_resolves by lia.
  destruct (canvases_mounted (a - 1)) as (canvas & -> & ->); [lia|]. simpl.
  destruct (decide (a = k)) as [->|Hne].
  - rewrite Hfail. by rewrite Nat.sub_diag.
  - rewrite Hbefore by lia. rewrite (IH (S a)); [|lia|lia|lia| |done].
    + replace (k - a)%nat with (S (k - S a)) by lia. done.
    + intros i Hi. apply Hbefore. lia.
Qed.

(** When every render resolves, every page is painted. *)
Lemma renderPages_all (len a : nat) :
  (1 <= a)%nat -> (a + len <= S (doc_numPages doc))%nat ->
  (forall i, (a <= i < a + len)%nat -> render_resolves (pages i) = true) ->
  renderPages canvasRefs doc (seq a len) = (seq a len, true).
Proof.
  revert a. induction len as [|len IH]; intros a Ha Hlen Hall; [done|].
  simpl. rewrite getPage_resolves by lia.
  destruct (canvases_mounted (a - 1)) as (canvas & -> & ->); [lia|]. simpl.
  rewrite Hall by lia. rewrite (IH (S a)); [done|lia|lia|].
  intros i Hi. apply Hall. lia.
Qed.

(** C5, as the code has it.  In a run that is not cancelled, on a
    document whose page [k] is the (first) one whose render fails: the
    pages before [k] are painted, page [k] and every later page are
    not, [console.error] and one alert ['Failed to render PDF'] are
    raised, the page count and all page sizes stay published, and the
    rendering flag is cleared. *)
Theorem render_failure_stops_later_pages
    (st : EditorState) (data : ArrayBuffer) (k : nat) :
  pdfArrayBuffer st = Some data ->
  getDocument data = Some doc ->
  (1 <= k <= doc_numPages doc)%nat ->
  (forall i, (1 <= i < k)%nat -> render_resolves (pages i) = true) ->
  render_resolves (pages k) = false ->
  run_painted (loadAndRender getDocument canvasRefs NotCancelled st) = seq 1 (k - 1) /\
  run_effects (loadAndRender getDocument canvasRefs NotCancelled st)
  = [ConsoleError; Alert "Failed to render PDF"] /\
  numPages (run_state (loadAndRender getDocument canvasRefs NotCancelled st))
  = doc_numPages doc /\
  pageSizes (run_state (loadAndRender getDocument canvasRefs NotCancelled st))
  = map (fun i => getViewport (pages i)) (seq 1 (doc_numPages doc)) /\
  rendering (run_state (loadAndRender getDocument canvasRefs NotCancelled st)) = false.
Proof.
  intros Hdata Hdoc Hk Hbefore Hfail. unfold loadAndRender.
  rewrite Hdata, Hdoc, collectSizes_all by lia.
  rewrite (renderPages_stops k) by (done || lia). done.
Qed.

(** When no render fails, every page is painted and nothing is
    raised. *)
Lemma render_success (st : EditorState) (data : ArrayBuffer) :
  pdfArrayBuffer st = Some data ->
  getDocument data = Some doc ->
  (forall i, (1 <= i <= doc_numPages doc)%nat -> render_resolves (pages i) = true) ->
  run_painted (loadAndRender getDocument canvasRefs NotCancelled st)
  = seq 1 (doc_numPages doc) /\
  run_effects (loadAndRender getDocument canvasRefs NotCancelled st) = [].
Proof.
  intros Hdata Hdoc Hall. unfold loadAndRender.
  rewrite Hdata, Hdoc, collectSizes_all by lia.
  rewrite renderPages_all; [done|lia|lia|].
  intros i Hi. apply Hall. lia.
Qed.

End RenderingFacts.

(** ** The scenarios of the specification *)

(** C1 on an A4 page: the overlay [{x: 0.5, y: 0.5, fontSize: 16}] is
    drawn at [(297.5, 405.0)]. *)
Lemma export_draw_position_a4 :
  exportBytes (lib := one_page_lib) None
    (overlays (setExportArrayBuffer (Some []) one_overlay)) []
  = save (PdfLib := one_page_lib)
      [{| getWidth := Fin 595; getHeight := Fin 842;
          drawn := [("New Text",
                     {| opt_x := Fin 297.5; opt_y := Fin 405.0; opt_size := Fin 16;
                        opt_color := {| red := Fin 0; green := Fin 0; blue := Fin 0 |} |})] |}] /\
  exists page' options,
    [{| getWidth := Fin 595; getHeight := Fin 842;
        drawn := [("New Text",
                   {| opt_x := Fin 297.5; opt_y := Fin 405.0; opt_size := Fin 16;
                      opt_color := {| red := Fin 0; green := Fin 0; blue := Fin 0 |} |})] |}]
      !! 0%nat = Some page' /\
    drawn page' !! (length (drawn a4_page) + 0)%nat = Some (Item.text the_overlay, options) /\
    opt_x options = Fin 297.5 /\
    opt_y options = Fin 405.0 /\
    opt_size options = Fin 16.
Proof.
  apply (export_draw_position (lib := one_page_lib) None
           (setExportArrayBuffer (Some []) one_overlay) [] [a4_page] _ tt
           0 0 a4_page the_overlay 595 842 0.5 0.5 16);
    reflexivity.
Defined.

(** C2 on an A4 page: the overlay shown at [(297.5, 421)] and dropped
    where it was shown keeps [(0.5, 0.5)]. *)
Lemma drag_round_trip_a4 :
  num_eq (newX a4 (defaultPosition a4 the_overlay)) (Item.x the_overlay) /\
  num_eq (newY a4 (defaultPosition a4 the_overlay)) (Item.y the_overlay).
Proof.
  apply (drag_round_trip a4 the_overlay 595 842 0.5 0.5);
    first [reflexivity | split; discriminate].
Defined.

(** A drag that stops at pixel [(0, 0)] of a surface of 800 x 600
    yields [(0, 0)]. *)
Example drag_to_origin :
  newX {| width := Fin 800; height := Fin 600 |} {| data_x := Fin 0; data_y := Fin 0 |}
  = Fin 0 /\
  newY {| width := Fin 800; height := Fin 600 |} {| data_x := Fin 0; data_y := Fin 0 |}
  = Fin 0.
Proof. split; reflexivity. Qed.

(** C3 on a surface of 800 x 600: a drag that stops left of the page
    and below it, at [(-50, 900)]. *)
Lemma drag_stop_clamped_800x600 :
  between 0 1
    (newX (size_or_default
             (setPageSizes [{| width := Fin 800; height := Fin 600 |}] one_overlay) 0)
       {| data_x := Fin (-50); data_y := Fin 900 |}) /\
  between 0 1
    (newY (size_or_default
             (setPageSizes [{| width := Fin 800; height := Fin 600 |}] one_overlay) 0)
       {| data_x := Fin (-50); data_y := Fin 900 |}) /\
  Forall (fun o' => Item.id o' = Item.id the_overlay -> item_on_page o')
    (page_or_empty
       (overlays
          (onStop 0 the_overlay {| data_x := Fin (-50); data_y := Fin 900 |}
             (setPageSizes [{| width := Fin 800; height := Fin 600 |}] one_overlay)))
       0) /\
  (all_on_page
     (overlays (setPageSizes [{| width := Fin 800; height := Fin 600 |}] one_overlay)) ->
   all_on_page
     (overlays
        (onStop 0 the_overlay {| data_x := Fin (-50); data_y := Fin 900 |}
           (setPageSizes [{| width := Fin 800; height := Fin 600 |}] one_overlay)))).
Proof.
  apply (drag_stop_clamped
           (setPageSizes [{| width := Fin 800; height := Fin 600 |}] one_overlay)
           0 the_overlay {| data_x := Fin (-50); data_y := Fin 900 |} 800 600);
    reflexivity.
Defined.

Example drag_off_page_lands_on_edge :
  map (fun o => (Item.x o, Item.y o))
    (page_or_empty
       (overlays
          (onStop 0 the_overlay {| data_x := Fin (-50); data_y := Fin 900 |}
             (setPageSizes [{| width := Fin 800; height := Fin 600 |}] one_overlay)))
       0)
  = [(Fin 0, Fin 1)].
Proof. vm_compute. reflexivity. Qed.

(** C4 on the editor with one overlay: a second one is added, edited
    three times, dragged, and removed. *)
Lemma add_update_remove_one_overlay :
  page_or_empty
    (overlays
       (removeOverlay 0 "u2"
          (updateAll "u2"
             [(0%nat, Partial.mk None (Some "Hello") None None None None);
              (0%nat, Partial.mk None None None None (Some (Fin 30)) None);
              (1%nat, Partial.mk None None None None None (Some "#ff0000"));
              (0%nat, Partial.mk None None (Some (Fin 0)) (Some (Fin 1)) None None)]
             (addTextOverlay "u2" 0 one_overlay))))
    0
  = page_or_empty (overlays one_overlay) 0.
Proof.
  apply (add_update_remove_restores_page one_overlay 0 "u2").
  - repeat constructor. discriminate.
  - repeat constructor; intros i; discriminate.
Defined.

(** C5: the document of three pages whose page 2 fails to render.
    Page 1 is painted, page 3 is not, and the failure is raised. *)
Lemma page3_not_rendered :
  run_painted
    (loadAndRender (fun _ => Some three_pages) three_canvases NotCancelled
       (setPdfArrayBuffer (Some []) initialState)) = [1%nat] /\
  ~ In 3%nat
      (run_painted
         (loadAndRender (fun _ => Some three_pages) three_canvases NotCancelled
            (setPdfArrayBuffer (Some []) initialState))) /\
  run_effects
    (loadAndRender (fun _ => Some three_pages) three_canvases NotCancelled
       (setPdfArrayBuffer (Some []) initialState))
  = [ConsoleError; Alert "Failed to render PDF"].
Proof.
  assert (H : run_painted
    (loadAndRender (fun _ => Some three_pages) three_canvases NotCancelled
       (setPdfArrayBuffer (Some []) initialState)) = [1%nat]) by (vm_compute; reflexivity).
  split; [exact H|]. split.
  - rewrite H. intros [E|[]]. discriminate E.
  - vm_compute. reflexivity.
Qed.

Lemma render_failure_three_pages :
  run_painted
    (loadAndRender (fun _ => Some three_pages) three_canvases NotCancelled
       (setPdfArrayBuffer (Some []) initialState)) = seq 1 (2 - 1) /\
  run_effects
    (loadAndRender (fun _ => Some three_pages) three_canvases NotCancelled
       (setPdfArrayBuffer (Some []) initialState))
  = [ConsoleError; Alert "Failed to render PDF"] /\
  numPages
    (run_state
       (loadAndRender (fun _ => Some three_pages) three_canvases NotCancelled
          (setPdfArrayBuffer (Some []) initialState)))
  = doc_numPages three_pages /\
  pageSizes
    (run_state
       (loadAndRender (fun _ => Some three_pages) three_canvases NotCancelled
          (setPdfArrayBuffer (Some []) initialState)))
  = map (fun i => getViewport (page2_fails i)) (seq 1 (doc_numPages three_pages)) /\
  rendering
    (run_state
       (loadAndRender (fun _ => Some three_pages) three_canvases NotCancelled
          (setPdfArrayBuffer (Some []) initialState))) = false.
Proof.
  apply (render_failure_stops_later_pages (fun _ => Some three_pages) three_canvases
           three_pages page2_fails) with (data := []).
  - intros i _. reflexivity.
  - intros i Hi. simpl in Hi.
    destruct i as [|[|[|i]]]; [eexists; split; vm_compute; reflexivity..|lia].
  - reflexivity.
  - reflexivity.
  - simpl. lia.
  - intros i Hi. assert (i = 1%nat) as -> by lia. reflexivity.
  - reflexivity.
Defined.

(** C6 on the slider moved to 30. *)
Lemma fontSize_edit_30 :
  Forall (fun o' => Item.id o' = Item.id the_overlay ->
                    Item.fontSize o' = of_Z 30 /\ between 8 72 (Item.fontSize o'))
    (page_or_empty
       (overlays (onFontSizeChange 0 the_overlay (decimal_lt100 30) one_overlay)) 0).
Proof.
  apply (fontSize_edit_within_control_range one_overlay 0 the_overlay 30).
  unfold fontSize_min, fontSize_max. lia.
Defined.

(** C7: the record stored for ["/fake.pdf"] is not JSON. *)
Lemma restore_unparsable_record :
  overlays
    (restoreOverlays (fun url => url) (fun _ => ReadString "{not json") (fun _ => None)
       (setPdfUrl (Some "/fake.pdf") one_overlay)).1 = ∅ /\
  existsb is_Alert
    (restoreOverlays (fun url => url) (fun _ => ReadString "{not json") (fun _ => None)
       (setPdfUrl (Some "/fake.pdf") one_overlay)).2 = false /\
  (restoreOverlays (fun url => url) (fun _ => ReadString "{not json") (fun _ => None)
     (setPdfUrl (Some "/fake.pdf") one_overlay)).1
  = setOverlays (fun _ => ∅) (setPdfUrl (Some "/fake.pdf") one_overlay).
Proof.
  apply (restore_failure_is_empty (fun url => url) (fun _ => ReadString "{not json")
           (fun _ => None) (setPdfUrl (Some "/fake.pdf") one_overlay) "/fake.pdf").
  - reflexivity.
  - reflexivity.
  - right. reflexivity.
Defined.

(** C8: the source bytes are corrupt. *)
Lemma export_corrupt_source :
  (forall step,
     fails_at (lib := corrupt_source_lib) None
       (overlays (setExportArrayBuffer (Some []) one_overlay)) [] step ->
     handleExport (lib := corrupt_source_lib) None
       (setExportArrayBuffer (Some []) one_overlay)
     = [ConsoleError; Alert "Failed to export PDF"] /\
     length (List.filter is_Alert
               (handleExport (lib := corrupt_source_lib) None
                  (setExportArrayBuffer (Some []) one_overlay))) = 1%nat /\
     existsb is_Download
       (handleExport (lib := corrupt_source_lib) None
          (setExportArrayBuffer (Some []) one_overlay)) = false) /\
  (forall filename mime bytes,
     In (Download filename mime bytes)
       (handleExport (lib := corrupt_source_lib) None
          (setExportArrayBuffer (Some []) one_overlay)) ->
     exists doc font doc',
       PDFDocument_load (PdfLib := corrupt_source_lib) [] = Some doc /\
       embedFont (PdfLib := corrupt_source_lib) doc = Some font /\
       drawPages (lib := corrupt_source_lib) None font
         (overlays (setExportArrayBuffer (Some []) one_overlay)) 0 doc = Some doc' /\
       save (PdfLib := corrupt_source_lib) doc' = Some bytes).
Proof.
  apply (export_failure_aborts (lib := corrupt_source_lib) None
           (setExportArrayBuffer (Some []) one_overlay) []).
  reflexivity.
Defined.

Example export_corrupt_source_effects :
  fails_at (lib := corrupt_source_lib) None (overlays one_overlay) [] LoadSource /\
  handleExport (lib := corrupt_source_lib) None
    (setExportArrayBuffer (Some []) one_overlay)
  = [ConsoleError; Alert "Failed to export PDF"].
Proof. split; reflexivity. Qed.

Example export_success_downloads :
  handleExport (lib := one_page_lib) None (setExportArrayBuffer (Some []) one_overlay)
  = [Download "annotated.pdf" "application/pdf" []].
Proof. vm_compute. reflexivity. Qed.

(** C10: a fresh editor opened on [?file=/fake.pdf]. *)
Lemma param_load_fresh_editor :
  pdfUrl (loadFromParam (fun _ => Some []) (Some "/fake.pdf") initialState).1
  = Some "/fake.pdf" /\
  pdfArrayBuffer (loadFromParam (fun _ => Some []) (Some "/fake.pdf") initialState).1
  = Some [] /\
  exportArrayBuffer (loadFromParam (fun _ => Some []) (Some "/fake.pdf") initialState).1
  = None /\
  (loadFromParam (fun _ => Some []) (Some "/fake.pdf") initialState).2 = [] /\
  handleExport (lib := one_page_lib) None
    (loadFromParam (fun _ => Some []) (Some "/fake.pdf") initialState).1 = [].
Proof.
  apply (param_load_cannot_export (lib := one_page_lib) None (fun _ => Some [])
           "/fake.pdf" [] initialState).
  - reflexivity.
  - reflexivity.
  - discriminate.
  - reflexivity.
Defined.

(** * Further properties of the overlay store *)

Section StoreFacts.

Lemma clamp_between (lo hi : Q) (a : number) :
  lo <= hi -> is_NaN a = false ->
  between lo hi (Math_max (Fin lo) (Math_min (Fin hi) a)).
Proof.
  intros Hle Ha. destruct a as [q| | |]; simpl; try done.
  - split; [apply Q.le_max_l|].
    apply Q.max_lub; [exact Hle|apply Q.le_min_l].
  - split; [apply Q.le_max_l|]. apply Q.max_lub; [exact Hle|apply Qle_refl].
  - split; [apply Qle_refl|exact Hle].
Qed.

Lemma round_scaled_not_NaN (w : number) :
  is_NaN w = false -> is_NaN (Math_round (mul w (Fin 0.02))) = false.
Proof. by destruct w. Qed.

(** X1.  [addTextOverlay] appends one item after those the page holds:
    it carries the given id, the text ['New Text'] and the centre
    [(0.5, 0.5)]; its font size lies in 12..24 whatever the page's
    width (unless that width is NaN), and is 16 while the page's size
    is not known. *)
Theorem addTextOverlay_default (st : EditorState) (pageIndex : nat) (uuid : string) :
  (forall size, pageSizes st !! pageIndex = Some size -> is_NaN (width size) = false) ->
  exists o,
    page_or_empty (overlays (addTextOverlay uuid pageIndex st)) pageIndex
    = page_or_empty (overlays st) pageIndex ++ [o] /\
    Item.id o = uuid /\ Item.text o = "New Text" /\
    Item.x o = Fin 0.5 /\ Item.y o = Fin 0.5 /\
    between 12 24 (Item.fontSize o) /\
    (pageSizes st !! pageIndex = None -> Item.fontSize o = Fin 16).
Proof.
  intros Hsize. eexists. split.
  { unfold addTextOverlay, page_or_empty at 1. simpl.
    rewrite lookup_insert_eq. reflexivity. }
  simpl. do 4 (split; [reflexivity|]). split.
  - apply clamp_between; [done|].
    destruct (pageSizes st !! pageIndex) as [size|]; [|done].
    apply round_scaled_not_NaN. by apply Hsize.
  - by intros ->.
Qed.

(** X2.  An update or a removal addressed to an id that no item of the
    page carries leaves the page's sequence as it was. *)
Theorem absent_id_is_noop (st : EditorState) (pageIndex : nat) (id : string)
    (partial : Partial.t) :
  Forall (fun o => Item.id o <> id) (page_or_empty (overlays st) pageIndex) ->
  page_or_empty (overlays (updateOverlay pageIndex id partial st)) pageIndex
  = page_or_empty (overlays st) pageIndex /\
  page_or_empty (overlays (removeOverlay pageIndex id st)) pageIndex
  = page_or_empty (overlays st) pageIndex.
Proof.
  intros Habsent. split.
  - rewrite page_update. by apply map_update_foreign.
  - rewrite page_remove. by apply filter_remove_foreign.
Qed.

Lemma filter_twice {A} (f : A -> bool) (l : list A) :
  List.filter f (List.filter f l) = List.filter f l.
Proof.
  induction l as [|a l IH]; simpl; [done|].
  destruct (f a) eqn:E; simpl; [|done]. by rewrite E, IH.
Qed.

(** X3.  After [removeOverlay] no item of the page carries the id; an
    item is on the page afterwards exactly when it was there before
    under another id; and removing a second time changes nothing. *)
Theorem removeOverlay_removes (st : EditorState) (pageIndex : nat) (id : string) :
  Forall (fun o => Item.id o <> id)
    (page_or_empty (overlays (removeOverlay pageIndex id st)) pageIndex) /\
  (forall o,
     In o (page_or_empty (overlays (removeOverlay pageIndex id st)) pageIndex) <->
     In o (page_or_empty (overlays st) pageIndex) /\ Item.id o <> id) /\
  removeOverlay pageIndex id (removeOverlay pageIndex id st)
  = removeOverlay pageIndex id st.
Proof.
  assert (Hin : forall o,
     In o (page_or_empty (overlays (removeOverlay pageIndex id st)) pageIndex) <->
     In o (page_or_empty (overlays st) pageIndex) /\ Item.id o <> id).
  { intros o. rewrite page_remove, List.filter_In.
    destruct (String.eqb_spec (Item.id o) id); simpl; intuition congruence. }
  split; [|split; [exact Hin|]].
  - apply List.Forall_forall. intros o Ho. by apply Hin in Ho as [_ Hne].
  - unfold removeOverlay, setOverlays. simpl. f_equal.
    unfold page_or_empty at 1. rewrite lookup_insert_eq. simpl.
    by rewrite insert_insert_eq, filter_twice.
Qed.

(** X4.  An update that carries no id keeps the page's items in
    place: item by item the id is the same, an item under another id is
    unchanged, and an item under the id is the old one overwritten by
    the partial's fields. *)
Theorem updateOverlay_in_place (st : EditorState) (pageIndex : nat) (id : string)
    (partial : Partial.t) :
  Partial.id partial = None ->
  Forall2 (fun o o' => Item.id o' = Item.id o /\
                       (Item.id o <> id -> o' = o) /\
                       (Item.id o = id -> o' = spread o partial))
    (page_or_empty (overlays st) pageIndex)
    (page_or_empty (overlays (updateOverlay pageIndex id partial st)) pageIndex).
Proof.
  intros Hid. rewrite page_update.
  induction (page_or_empty (overlays st) pageIndex) as [|o l IH]; simpl; constructor;
    [|exact IH].
  destruct (String.eqb_spec (Item.id o) id) as [E|NE].
  - split; [|split; [done|done]]. simpl. by rewrite Hid.
  - split; [done|]. split; [done|]. intros E. by destruct NE.
Qed.

(** X5.  An action of the interface changes the overlays of its own
    page only, and nothing of the document: the sequence of every other
    page, the URL, the two byte buffers and the page sizes stay as they
    were. *)
Theorem action_is_local (action : Action) (st : EditorState) (pageIndex : nat) :
  pageIndex <> action_page action ->
  page_or_empty (overlays (perform action st)) pageIndex
  = page_or_empty (overlays st) pageIndex /\
  pdfUrl (perform action st) = pdfUrl st /\
  pdfArrayBuffer (perform action st) = pdfArrayBuffer st /\
  exportArrayBuffer (perform action st) = exportArrayBuffer st /\
  pageSizes (perform action st) = pageSizes st.
Proof.
  intros Hne. split; [|by destruct action].
  destruct action; simpl in *;
    unfold onStop, onTextChange, onColorChange, onFontSizeChange, onDeleteClick;
    first [by apply page_add_other | by apply page_update_other
          | by apply page_remove_other].
Qed.

Lemma spread_spread (o : OverlayItem) (a b : Partial.t) :
  spread (spread o a) b = spread o (merge_partials a b).
Proof.
  unfold spread, merge_partials. simpl.
  destruct (Partial.id b), (Partial.text b), (Partial.x b), (Partial.y b),
    (Partial.fontSize b), (Partial.color b); reflexivity.
Qed.

(** X6.  Two updates in a row to the same id on the same page amount
    to one update with the two partials merged, a field of the second
    winning, when the first carries no id. *)
Theorem updateOverlay_twice (st : EditorState) (pageIndex : nat) (id : string)
    (a b : Partial.t) :
  Partial.id a = None ->
  updateOverlay pageIndex id b (updateOverlay pageIndex id a st)
  = updateOverlay pageIndex id (merge_partials a b) st.
Proof.
  intros Ha. unfold updateOverlay, setOverlays. simpl. f_equal.
  unfold page_or_empty at 1. rewrite lookup_insert_eq. simpl.
  rewrite insert_insert_eq. f_equal. rewrite List.map_map.
  apply List.map_ext. intros o.
  destruct (String.eqb_spec (Item.id o) id) as [E|NE].
  - assert (Hid : Item.id (spread o a) = id) by (simpl; by rewrite Ha).
    rewrite Hid, String.eqb_refl. apply spread_spread.
  - by destruct (String.eqb_spec (Item.id o) id).
Qed.

End StoreFacts.

(** X1 on an editor whose page 0 is 800 wide: the size is
    [round(800 * 0.02) = 16]. *)
Lemma addTextOverlay_default_800 :
  exists o,
    page_or_empty
      (overlays (addTextOverlay "u2" 0
                   (setPageSizes [{| width := Fin 800; height := Fin 600 |}] one_overlay))) 0
    = page_or_empty
        (overlays (setPageSizes [{| width := Fin 800; height := Fin 600 |}] one_overlay)) 0
      ++ [o] /\
    Item.id o = "u2" /\ Item.text o = "New Text" /\
    Item.x o = Fin 0.5 /\ Item.y o = Fin 0.5 /\
    between 12 24 (Item.fontSize o) /\
    (pageSizes (setPageSizes [{| width := Fin 800; height := Fin 600 |}] one_overlay)
       !! 0%nat = None -> Item.fontSize o = Fin 16).
Proof.
  apply (addTextOverlay_default
           (setPageSizes [{| width := Fin 800; height := Fin 600 |}] one_overlay) 0 "u2").
  intros size [= <-]. reflexivity.
Defined.

Example narrow_and_wide_pages :
  map Item.fontSize
    (page_or_empty
       (overlays (addTextOverlay "a" 0
                    (setPageSizes [{| width := Fin 200; height := Fin 300 |}] initialState))) 0)
  = [Fin 12] /\
  map Item.fontSize
    (page_or_empty
       (overlays (addTextOverlay "a" 0
                    (setPageSizes [{| width := Fin 3000; height := Fin 300 |}] initialState))) 0)
  = [Fin 24].
Proof. split; vm_compute; reflexivity. Qed.

(** X2 on the editor with one overlay ["u1"]: nothing is stored under
    ["gone"]. *)
Lemma absent_id_is_noop_one_overlay :
  page_or_empty
    (overlays (updateOverlay 0 "gone" (Partial.mk None (Some "x") None None None None)
                 one_overlay)) 0
  = page_or_empty (overlays one_overlay) 0 /\
  page_or_empty (overlays (removeOverlay 0 "gone" one_overlay)) 0
  = page_or_empty (overlays one_overlay) 0.
Proof.
  apply (absent_id_is_noop one_overlay 0 "gone").
  repeat constructor. discriminate.
Defined.

(** X4 on the editor with one overlay. *)
Lemma updateOverlay_in_place_one_overlay :
  Forall2 (fun o o' => Item.id o' = Item.id o /\
                       (Item.id o <> "u1" -> o' = o) /\
                       (Item.id o = "u1" ->
                        o' = spread o (Partial.mk None (Some "Hi") None None None None)))
    (page_or_empty (overlays one_overlay) 0)
    (page_or_empty
       (overlays (updateOverlay 0 "u1" (Partial.mk None (Some "Hi") None None None None)
                    one_overlay)) 0).
Proof.
  apply (updateOverlay_in_place one_overlay 0 "u1"
           (Partial.mk None (Some "Hi") None None None None)).
  reflexivity.
Defined.

(** X5: a deletion on page 0 seen from page 1. *)
Lemma action_is_local_delete :
  page_or_empty (overlays (perform (ClickDelete 0 the_overlay) one_overlay)) 1
  = page_or_empty (overlays one_overlay) 1 /\
  pdfUrl (perform (ClickDelete 0 the_overlay) one_overlay) = pdfUrl one_overlay /\
  pdfArrayBuffer (perform (ClickDelete 0 the_overlay) one_overlay)
  = pdfArrayBuffer one_overlay /\
  exportArrayBuffer (perform (ClickDelete 0 the_overlay) one_overlay)
  = exportArrayBuffer one_overlay /\
  pageSizes (perform (ClickDelete 0 the_overlay) one_overlay) = pageSizes one_overlay.
Proof.
  apply (action_is_local (ClickDelete 0 the_overlay) one_overlay 1).
  discriminate.
Defined.

(** X6: a text edit followed by a drag. *)
Lemma updateOverlay_twice_edit_then_drag :
  updateOverlay 0 "u1" (Partial.mk None None (Some (Fin 0)) (Some (Fin 1)) None None)
    (updateOverlay 0 "u1" (Partial.mk None (Some "Hi") None None None None) one_overlay)
  = updateOverlay 0 "u1"
      (merge_partials (Partial.mk None (Some "Hi") None None None None)
         (Partial.mk None None (Some (Fin 0)) (Some (Fin 1)) None None))
      one_overlay.
Proof.
  apply (updateOverlay_twice one_overlay 0 "u1"
           (Partial.mk None (Some "Hi") None None None None)
           (Partial.mk None None (Some (Fin 0)) (Some (Fin 1)) None None)).
  reflexivity.
Defined.

(** X7: a session on a page of 800 x 600 that adds an overlay, drags
    it off the page, edits it and deletes it. *)
Lemma session_keeps_on_page_800x600 :
  all_on_page
    (overlays
       (fold_left (fun s a => perform a s)
          [AddText "a" 0;
           DragStop 0 the_overlay {| data_x := Fin (-50); data_y := Fin 900 |};
           EditText 0 the_overlay "Hi";
           EditFontSize 0 the_overlay "100";
           ClickDelete 0 the_overlay]
          (setPageSizes [{| width := Fin 800; height := Fin 600 |}] one_overlay))).
Proof.
  apply (session_keeps_on_page
           [AddText "a" 0;
            DragStop 0 the_overlay {| data_x := Fin (-50); data_y := Fin 900 |};
            EditText 0 the_overlay "Hi";
            EditFontSize 0 the_overlay "100";
            ClickDelete 0 the_overlay]
           (setPageSizes [{| width := Fin 800; height := Fin 600 |}] one_overlay)).
  - repeat constructor. exists 800, 600. repeat split; reflexivity.
  - repeat constructor.
  - exact (add_keeps_on_page "u1" 0 initialState fresh_editor_on_page).
Defined.

(** * Further properties of the drag-stop conversion *)

Section DragFacts.

Lemma div_in_unit (p w : Q) : 0 < w -> 0 <= p <= w -> 0 <= p / w <= 1.
Proof.
  intros Hw [H0 H1]. split.
  - apply Qle_shift_div_l; [done|]. by rewrite Qmult_0_l.
  - apply Qle_shift_div_r; [done|]. by rewrite Qmult_1_l.
Qed.

Lemma div_nonpos (p w : Q) : 0 < w -> p <= 0 -> p / w <= 0.
Proof. intros Hw Hp. apply Qle_shift_div_r; [done|]. by rewrite Qmult_0_l. Qed.

Lemma div_ge_one (p w : Q) : 0 < w -> w <= p -> 1 <= p / w.
Proof. intros Hw Hp. apply Qle_shift_div_l; [done|]. by rewrite Qmult_1_l. Qed.

(** The clamp of a quotient by a positive divisor, case by case. *)
Lemma clamp_div_piecewise (p w : Q) :
  0 < w ->
  (p <= 0 -> Qmin 1 (Qmax 0 (p / w)) == 0) /\
  (0 <= p <= w -> Qmin 1 (Qmax 0 (p / w)) == p / w) /\
  (w <= p -> Qmin 1 (Qmax 0 (p / w)) == 1).
Proof.
  intros Hw. split; [|split].
  - intros Hp. rewrite Q.max_l by by apply div_nonpos. by apply Q.min_r.
  - intros Hp. by apply clamp01_id, div_in_unit.
  - intros Hp. pose proof (div_ge_one p w Hw Hp) as H1.
    rewrite Q.max_r by (eapply Qle_trans; [|exact H1]; done). by apply Q.min_l.
Qed.

(** X8.  On a page of positive size the drag-stop conversion of a
    finite position is piecewise linear in each coordinate: 0 at or
    before the page's start, the quotient by the page's extent inside
    the page, 1 at or beyond its end. *)
Theorem drag_stop_piecewise (size : Size) (data : DraggableData) (w h px py : Q) :
  width size = Fin w -> height size = Fin h -> 0 < w -> 0 < h ->
  data_x data = Fin px -> data_y data = Fin py ->
  ((px <= 0 -> num_eq (newX size data) (Fin 0)) /\
   (0 <= px <= w -> num_eq (newX size data) (Fin (px / w))) /\
   (w <= px -> num_eq (newX size data) (Fin 1))) /\
  ((py <= 0 -> num_eq (newY size data) (Fin 0)) /\
   (0 <= py <= h -> num_eq (newY size data) (Fin (py / h))) /\
   (h <= py -> num_eq (newY size data) (Fin 1))).
Proof.
  intros Hw Hh Hwp Hhp Hx Hy. unfold newX, newY.
  rewrite Hw, Hh, Hx, Hy, !div_Fin_pos by done. cbn [Math_max Math_min num_eq].
  split; by apply clamp_div_piecewise.
Qed.

(** X9.  An overlay dropped at a position inside its page is shown,
    from then on, at the position it was dropped at: the rewritten item
    converts back to the drop position. *)
Theorem drop_inside_page_stays (st : EditorState) (pageIndex : nat) (o : OverlayItem)
    (data : DraggableData) (w h px py : Q) :
  width (size_or_default st pageIndex) = Fin w ->
  height (size_or_default st pageIndex) = Fin h ->
  0 < w -> 0 < h ->
  data_x data = Fin px -> data_y data = Fin py ->
  0 <= px <= w -> 0 <= py <= h ->
  Forall (fun o' =>
            Item.id o' = Item.id o ->
            num_eq (data_x (defaultPosition (size_or_default st pageIndex) o')) (Fin px) /\
            num_eq (data_y (defaultPosition (size_or_default st pageIndex) o')) (Fin py))
    (page_or_empty (overlays (onStop pageIndex o data st)) pageIndex).
Proof.
  intros Hw Hh Hwp Hhp Hx Hy Hpx Hpy.
  rewrite onStop_page. apply Forall_map, Forall_forall. intros o' _.
  destruct (String.eqb_spec (Item.id o') (Item.id o)) as [E|NE];
    [|intros E; by destruct NE].
  intros _. unfold defaultPosition, newX, newY. simpl.
  rewrite Hw, Hh, Hx, Hy, !div_Fin_pos by done. cbn [Math_max Math_min mul num_eq].
  split.
  - destruct (clamp_div_piecewise px w Hwp) as (_ & Hin & _). rewrite (Hin Hpx).
    field. intros E0. rewrite E0 in Hwp. by apply Qlt_irrefl in Hwp.
  - destruct (clamp_div_piecewise py h Hhp) as (_ & Hin & _). rewrite (Hin Hpy).
    field. intros E0. rewrite E0 in Hhp. by apply Qlt_irrefl in Hhp.
Qed.

End DragFacts.

(** X8 on a surface of 800 x 600, for a drag that stops at
    [(200, 900)]: a quarter of the width, and the bottom edge. *)
Lemma drag_stop_piecewise_800x600 :
  ((200 <= 0 ->
    num_eq (newX {| width := Fin 800; height := Fin 600 |}
              {| data_x := Fin 200; data_y := Fin 900 |}) (Fin 0)) /\
   (0 <= 200 <= 800 ->
    num_eq (newX {| width := Fin 800; height := Fin 600 |}
              {| data_x := Fin 200; data_y := Fin 900 |}) (Fin (200 / 800))) /\
   (800 <= 200 ->
    num_eq (newX {| width := Fin 800; height := Fin 600 |}
              {| data_x := Fin 200; data_y := Fin 900 |}) (Fin 1))) /\
  ((900 <= 0 ->
    num_eq (newY {| width := Fin 800; height := Fin 600 |}
              {| data_x := Fin 200; data_y := Fin 900 |}) (Fin 0)) /\
   (0 <= 900 <= 600 ->
    num_eq (newY {| width := Fin 800; height := Fin 600 |}
              {| data_x := Fin 200; data_y := Fin 900 |}) (Fin (900 / 600))) /\
   (600 <= 900 ->
    num_eq (newY {| width := Fin 800; height := Fin 600 |}
              {| data_x := Fin 200; data_y := Fin 900 |}) (Fin 1))).
Proof.
  apply (drag_stop_piecewise {| width := Fin 800; height := Fin 600 |}
           {| data_x := Fin 200; data_y := Fin 900 |} 800 600 200 900);
    reflexivity.
Defined.

(** X9 on a surface of 800 x 600, for a drop at [(200, 150)]. *)
Lemma drop_inside_page_stays_800x600 :
  Forall (fun o' =>
            Item.id o' = Item.id the_overlay ->
            num_eq
              (data_x (defaultPosition
                         (size_or_default
                            (setPageSizes [{| width := Fin 800; height := Fin 600 |}]
                               one_overlay) 0) o'))
              (Fin 200) /\
            num_eq
              (data_y (defaultPosition
                         (size_or_default
                            (setPageSizes [{| width := Fin 800; height := Fin 600 |}]
                               one_overlay) 0) o'))
              (Fin 150))
    (page_or_empty
       (overlays
          (onStop 0 the_overlay {| data_x := Fin 200; data_y := Fin 150 |}
             (setPageSizes [{| width := Fin 800; height := Fin 600 |}] one_overlay)))
       0).
Proof.
  apply (drop_inside_page_stays
           (setPageSizes [{| width := Fin 800; height := Fin 600 |}] one_overlay)
           0 the_overlay {| data_x := Fin 200; data_y := Fin 150 |} 800 600 200 150);
    first [reflexivity | split; discriminate].
Defined.

(** * Further properties of the colour resolution *)

Section ColourFacts.

Lemma rgb_match_here_needs_r (s : string) :
  match s with String "r"%char _ => False | _ => True end ->
  rgb_match_here s = None.
Proof.
  destruct s as [|c s]; [done|].
  destruct (Ascii.eqb_spec c "r"%char) as [->|Hne]; [done|]. intros _.
  unfold rgb_match_here. cbn [strip_prefix].
  destruct (Ascii.eqb_spec "r"%char c) as [E|_]; [by destruct Hne|done].
Qed.

Lemma rgb_exec_needs_r (s : string) : has_char "r" s = false -> rgb_exec s = None.
Proof.
  induction s as [|c s IH]; [done|].
  cbn [has_char rgb_exec]. intros [Hc Hs]%orb_false_elim.
  rewrite rgb_match_here_needs_r; [by apply IH|].
  destruct (Ascii.eqb_spec c "r"%char) as [->|Hne]; [done|].
  destruct c as [[] [] [] [] [] [] [] []]; first [done | by destruct Hne].
Qed.

(** X10.  When the string read back from [fillStyle] holds no letter
    [r], as every [#rrggbb] form does, the colour resolves to black,
    whatever colour was asked for. *)
Theorem no_r_resolves_to_black (fillStyle : string -> string) (color : string) :
  has_char "r" (fillStyle color) = false ->
  cssColorToRgb01 (Some fillStyle) color = black.
Proof.
  intros Hr. unfold cssColorToRgb01. by rewrite rgb_exec_needs_r.
Qed.

Lemma strip_prefix_app (p s : string) : strip_prefix p (p ++ s)%string = Some s.
Proof.
  induction p as [|c p IH]; simpl; [by destruct s|].
  by rewrite Ascii.eqb_refl.
Qed.

Lemma span_digits_app (m rest : string) :
  all_digits m = true -> starts_with_digit rest = false ->
  span_digits (m ++ rest)%string = (m, rest).
Proof.
  intros Hm Hrest. induction m as [|c m IH]; simpl.
  - destruct rest as [|c rest]; [done|]. simpl in *. by rewrite Hrest.
  - simpl in Hm. apply andb_prop in Hm as [Hc Hm]. by rewrite Hc, IH.
Qed.

Lemma digits1_app (m rest : string) :
  m <> EmptyString -> all_digits m = true -> starts_with_digit rest = false ->
  digits1 (m ++ rest)%string = Some (m, rest).
Proof.
  intros Hne Hm Hrest. unfold digits1. rewrite span_digits_app by done.
  by destruct m.
Qed.

Lemma skip_spaces_app (ws s : string) :
  all_spaces ws = true -> starts_with_digit s = true ->
  skip_spaces (ws ++ s)%string = s.
Proof.
  intros Hws Hs. induction ws as [|c ws IH]; simpl.
  - destruct s as [|c s]; [done|]. simpl in *. by rewrite (digit_not_space c Hs).
  - simpl in Hws. apply andb_prop in Hws as [Hc Hws]. by rewrite Hc, IH.
Qed.

Lemma digits_start_with_digit (m s : string) :
  m <> EmptyString -> all_digits m = true -> starts_with_digit (m ++ s)%string = true.
Proof.
  destruct m as [|c m]; [done|]. simpl. by intros _ [Hc _]%andb_prop.
Qed.

Lemma rgb_match_here_form (alpha : bool) (m1 ws1 m2 ws2 m3 rest : string) :
  m1 <> EmptyString -> all_digits m1 = true ->
  m2 <> EmptyString -> all_digits m2 = true ->
  m3 <> EmptyString -> all_digits m3 = true ->
  all_spaces ws1 = true -> all_spaces ws2 = true ->
  starts_with_digit rest = false ->
  rgb_match_here (rgb_form alpha m1 ws1 m2 ws2 m3 rest) = Some (m1, m2, m3).
Proof.
  intros Hn1 Hd1 Hn2 Hd2 Hn3 Hd3 Hw1 Hw2 Hrest.
  unfold rgb_match_here, rgb_form. rewrite strip_prefix_app. cbn [mbind option_bind].
  set (Z := (m1 +:+ "," +:+ ws1 +:+ m2 +:+ "," +:+ ws2 +:+ m3 +:+ rest)).
  assert (Hopen : strip_prefix "(" ("(" +:+ Z) = Some Z) by apply strip_prefix_app.
  destruct alpha;
    [change ("a" +:+ "(" +:+ Z) with (String "a" ("(" +:+ Z))
    |change ("" +:+ "(" +:+ Z) with (String "(" Z)];
    cbv beta iota zeta;
    [|change (String "(" Z) with ("(" +:+ Z)];
    rewrite Hopen; cbn [mbind option_bind]; unfold Z;
    (rewrite digits1_app by first [done | reflexivity]);
    cbn [mbind option_bind]; rewrite strip_prefix_app; cbn [mbind option_bind];
    (rewrite skip_spaces_app by first [done | by apply digits_start_with_digit]);
    (rewrite digits1_app by first [done | reflexivity]);
    cbn [mbind option_bind]; rewrite strip_prefix_app; cbn [mbind option_bind];
    (rewrite skip_spaces_app by first [done | by apply digits_start_with_digit]);
    (rewrite digits1_app by done); done.
Qed.

(** X11.  When the string read back from [fillStyle] has the form
    [rgb(R, G, B ...] or [rgba(R, G, B ...], with decimal digits for
    [R], [G], [B] and any white space after the commas, the colour
    resolves to the three values, each cut off at 255 and divided by
    255. *)
Theorem rgb_form_resolves (fillStyle : string -> string) (color : string)
    (alpha : bool) (m1 ws1 m2 ws2 m3 rest : string) :
  m1 <> EmptyString -> all_digits m1 = true ->
  m2 <> EmptyString -> all_digits m2 = true ->
  m3 <> EmptyString -> all_digits m3 = true ->
  all_spaces ws1 = true -> all_spaces ws2 = true ->
  starts_with_digit rest = false ->
  fillStyle color = rgb_form alpha m1 ws1 m2 ws2 m3 rest ->
  cssColorToRgb01 (Some fillStyle) color
  = (unit_channel (digits_value 0 m1), unit_channel (digits_value 0 m2),
     unit_channel (digits_value 0 m3)).
Proof.
  intros Hn1 Hd1 Hn2 Hd2 Hn3 Hd3 Hw1 Hw2 Hrest Hform.
  unfold cssColorToRgb01. rewrite Hform.
  assert (Hexec : rgb_exec (rgb_form alpha m1 ws1 m2 ws2 m3 rest) = Some (m1, m2, m3)).
  { destruct (rgb_form alpha m1 ws1 m2 ws2 m3 rest) eqn:E; cbn [rgb_exec];
      rewrite <- E, rgb_match_here_form; done. }
  rewrite Hexec. unfold channel, unit_channel.
  rewrite !parseInt_digits by done. reflexivity.
Qed.

End ColourFacts.

(** X10 for the colour ['#111827'] on a canvas that reads colours back
    in their hex form. *)
Lemma no_r_resolves_to_black_hex :
  cssColorToRgb01 (Some (fun c => c)) "#111827" = black.
Proof. apply (no_r_resolves_to_black (fun c => c) "#111827"). reflexivity. Defined.

(** X11 for a half-transparent red with an overflowing first
    component: ['rgba(300, 0, 17, 0.5)']. *)
Lemma rgb_form_resolves_rgba :
  cssColorToRgb01 (Some (fun _ => "rgba(300, 0, 17, 0.5)")) "tomato"
  = (unit_channel (digits_value 0 "300"), unit_channel (digits_value 0 "0"),
     unit_channel (digits_value 0 "17")).
Proof.
  apply (rgb_form_resolves (fun _ => "rgba(300, 0, 17, 0.5)") "tomato"
           true "300" " " "0" " " "17" ", 0.5)");
    first [reflexivity | discriminate].
Defined.

Example overflowing_component_is_one :
  unit_channel (digits_value 0 "300") = Fin (255 / 255) /\
  unit_channel (digits_value 0 "17") = Fin (17 / 255).
Proof. split; reflexivity. Qed.

(** * Further properties of the export *)

Section ExportMore.

Context `{lib : PdfLib}.
Variable ctx : option (string -> string).

Lemma drawPages_no_overlays font (overlays : PageOverlays) (pages : list PDFPage) :
  forall i, (forall j, page_or_empty overlays j = []) ->
  drawPages ctx font overlays i pages = Some pages.
Proof.
  induction pages as [|page pages IH]; intros i Hempty; simpl; [done|].
  rewrite Hempty. simpl. by rewrite IH.
Qed.

(** With no overlay on any page the export draws nothing: the
    document handed to [save] is the loaded one, and the run ends in
    the download of its bytes, or in the failure message when [save]
    fails. *)
Theorem export_without_overlays (st : EditorState) (buffer : ArrayBuffer)
    (doc : PDFDocument) (font : PDFFont) :
  exportArrayBuffer st = Some buffer ->
  (forall i, page_or_empty (overlays st) i = []) ->
  PDFDocument_load buffer = Some doc ->
  embedFont doc = Some font ->
  drawPages ctx font (overlays st) 0 doc = Some doc /\
  handleExport ctx st
  = match save doc with
    | Some bytes => [Download "annotated.pdf" "application/pdf" bytes]
    | None => [ConsoleError; Alert "Failed to export PDF"]
    end.
Proof.
  intros Hbuf Hempty Hload Hfont.
  pose proof (drawPages_no_overlays font (overlays st) doc 0 Hempty) as Hdraw.
  split; [done|]. unfold handleExport, exportBytes.
  rewrite Hbuf, Hload. simpl. rewrite Hfont. simpl. by rewrite Hdraw.
Qed.

Lemma drawPages_length font (overlays : PageOverlays) (pages : list PDFPage) :
  forall i doc', drawPages ctx font overlays i pages = Some doc' ->
  length doc' = length pages.
Proof.
  induction pages as [|page pages IH]; intros i doc' H; simpl in H.
  - by injection H as <-.
  - destruct (drawOverlays ctx font _ _ page _) as [page'|]; [|done]. simpl in H.
    destruct (drawPages ctx font overlays (S i) pages) as [rest'|] eqn:E; [|done].
    injection H as <-. simpl. f_equal. by eapply IH.
Qed.

(** X12.  An export whose drawing completes leaves the document with
    the same pages at the same sizes, and on each page appends, after
    what the page held, exactly one instruction per overlay stored
    under that page's index, in the stored order (empty texts
    included), each with its text, position, size and resolved
    colour. *)
Theorem export_draws_every_overlay (font : PDFFont) (overlays : PageOverlays)
    (doc doc' : PDFDocument) :
  drawPages ctx font overlays 0 doc = Some doc' ->
  length doc' = length doc /\
  forall i page, doc !! i = Some page ->
    exists page' ops,
      doc' !! i = Some page' /\
      getWidth page' = getWidth page /\ getHeight page' = getHeight page /\
      Forall2 (draws_as ctx (getWidth page) (getHeight page))
        (page_or_empty overlays i) ops /\
      drawn page' = drawn page ++ ops.
Proof.
  intros Hdraw. split; [by eapply drawPages_length|].
  intros i page Hi.
  destruct (drawPages_inv ctx _ _ _ _ _ _ _ Hdraw Hi) as (page' & Hi' & Hpage).
  apply drawOverlays_inv in Hpage as (Hw & Hh & ops & Hops & Hd).
  by exists page', ops.
Qed.

Lemma drawPages_ext font (overlays1 overlays2 : PageOverlays) (pages : list PDFPage) :
  forall i,
  (forall j, (j < length pages)%nat ->
     page_or_empty overlays1 (i + j) = page_or_empty overlays2 (i + j)) ->
  drawPages ctx font overlays1 i pages = drawPages ctx font overlays2 i pages.
Proof.
  induction pages as [|page pages IH]; intros i Hagree; simpl; [done|].
  assert (H0 : page_or_empty overlays1 i = page_or_empty overlays2 i).
  { rewrite <- (Nat.add_0_r i). apply Hagree. simpl. lia. }
  rewrite H0, (IH (S i)); [done|].
  intros j Hj. rewrite Nat.add_succ_comm. apply Hagree. simpl. lia.
Qed.

(** X13.  Overlays stored under a page index the document does not
    have are ignored: two collections that agree on the pages of the
    document export to the same bytes. *)
Theorem export_ignores_pages_beyond_document (overlays1 overlays2 : PageOverlays)
    (buffer : ArrayBuffer) (doc : PDFDocument) :
  PDFDocument_load buffer = Some doc ->
  (forall i, (i < length doc)%nat ->
     page_or_empty overlays1 i = page_or_empty overlays2 i) ->
  exportBytes ctx overlays1 buffer = exportBytes ctx overlays2 buffer.
Proof.
  intros Hload Hagree. unfold exportBytes. rewrite Hload. simpl.
  destruct (embedFont doc) as [font|]; [|done]. simpl.
  by rewrite (drawPages_ext font overlays1 overlays2 doc 0 Hagree).
Qed.

Lemma rgb_resolves (color : string) :
  exists c, rgb (cssColorToRgb01 ctx color) = Some c.
Proof.
  pose proof (cssColorToRgb01_in_unit_cube ctx color) as H.
  destruct (cssColorToRgb01 ctx color) as [[r g] b].
  destruct H as (Hr & Hg & Hb). simpl in *. unfold rgb.
  rewrite !between_in_range01 by done. simpl. eauto.
Qed.

(** X14.  Drawing one overlay fails exactly when pdf-lib cannot
    measure its text or refuses the instruction: the colour, whatever
    string it is, never makes a draw fail. *)
Theorem drawOverlay_fails_on_text_only (font : PDFFont) (pageWidth pageHeight : number)
    (page : PDFPage) (o : OverlayItem) :
  drawOverlay ctx font pageWidth pageHeight page o = None <->
  widthOfTextAtSize font (Item.text o) (Item.fontSize o) = None \/
  exists color,
    rgb (cssColorToRgb01 ctx (Item.color o)) = Some color /\
    drawText_accepts font (Item.text o)
      {| opt_x := mul (Item.x o) pageWidth;
         opt_y := sub (sub pageHeight (mul (Item.y o) pageHeight)) (Item.fontSize o);
         opt_size := Item.fontSize o; opt_color := color |} = false.
Proof.
  unfold drawOverlay, drawText.
  destruct (rgb_resolves (Item.color o)) as [c Hc]. rewrite Hc.
  destruct (widthOfTextAtSize font _ _) as [tw|]; simpl; [|by split; [left|]].
  destruct (drawText_accepts font _ _) eqn:Hacc; split.
  - done.
  - intros [H|(c' & [= <-] & H)]; [done|]. by rewrite Hacc in H.
  - intros _. right. by exists c.
  - done.
Qed.

Lemma drawOverlays_unmeasurable font w h (items : list OverlayItem) (o : OverlayItem) :
  In o items ->
  widthOfTextAtSize font (Item.text o) (Item.fontSize o) = None ->
  forall page, drawOverlays ctx font w h page items = None.
Proof.
  intros Hin Hwidth. induction items as [|o' items IH]; [done|].
  intros page. simpl. destruct Hin as [->|Hin].
  - unfold drawOverlay. by rewrite Hwidth.
  - destruct (drawOverlay ctx font w h page o') as [page'|]; [|done]. simpl.
    by apply IH.
Qed.

Lemma drawPages_unmeasurable font (overlays : PageOverlays) (o : OverlayItem)
    (pages : list PDFPage) :
  widthOfTextAtSize font (Item.text o) (Item.fontSize o) = None ->
  forall i j, (j < length pages)%nat -> In o (page_or_empty overlays (i + j)) ->
  drawPages ctx font overlays i pages = None.
Proof.
  intros Hwidth. induction pages as [|page pages IH]; intros i j Hj Hin; simpl in *;
    [lia|].
  destruct j as [|j].
  - rewrite Nat.add_0_r in Hin.
    by rewrite (drawOverlays_unmeasurable font _ _ _ o Hin Hwidth).
  - destruct (drawOverlays ctx font _ _ page _) as [page'|]; [|done]. simpl.
    rewrite (IH (S i) j); [done|lia|]. by rewrite Nat.add_succ_comm.
Qed.

(** X15.  One overlay whose text pdf-lib cannot measure, on any page of
    the document, makes the whole export fail: the failure message is
    raised and nothing is downloaded, whatever else is to be drawn. *)
Theorem unmeasurable_overlay_aborts_export (st : EditorState) (buffer : ArrayBuffer)
    (doc : PDFDocument) (font : PDFFont) (i : nat) (o : OverlayItem) :
  exportArrayBuffer st = Some buffer ->
  PDFDocument_load buffer = Some doc ->
  embedFont doc = Some font ->
  (i < length doc)%nat ->
  In o (page_or_empty (overlays st) i) ->
  widthOfTextAtSize font (Item.text o) (Item.fontSize o) = None ->
  handleExport ctx st = [ConsoleError; Alert "Failed to export PDF"].
Proof.
  intros Hbuf Hload Hfont Hi Hin Hwidth. unfold handleExport, exportBytes.
  rewrite Hbuf, Hload. simpl. rewrite Hfont. simpl.
  by rewrite (drawPages_unmeasurable font (overlays st) o doc Hwidth 0 i Hi Hin).
Qed.

End ExportMore.

(** An instance on a fresh editor that holds an export copy. *)
Lemma export_without_overlays_fresh :
  drawPages (lib := one_page_lib) None tt
    (overlays (setExportArrayBuffer (Some []) initialState)) 0 [a4_page]
  = Some [a4_page] /\
  handleExport (lib := one_page_lib) None (setExportArrayBuffer (Some []) initialState)
  = match save (PdfLib := one_page_lib) [a4_page] with
    | Some bytes => [Download "annotated.pdf" "application/pdf" bytes]
    | None => [ConsoleError; Alert "Failed to export PDF"]
    end.
Proof.
  apply (export_without_overlays (lib := one_page_lib) None
           (setExportArrayBuffer (Some []) initialState) [] [a4_page] tt);
    first [reflexivity | intros i; unfold page_or_empty; simpl; by rewrite lookup_empty].
Defined.

(** X12 on the A4 page with the one overlay. *)
Lemma export_draws_every_overlay_a4 :
  length
    [{| getWidth := Fin 595; getHeight := Fin 842;
        drawn := [("New Text",
                   {| opt_x := Fin 297.5; opt_y := Fin 405.0; opt_size := Fin 16;
                      opt_color := {| red := Fin 0; green := Fin 0; blue := Fin 0 |} |})] |}]
  = length [a4_page] /\
  forall i page, [a4_page] !! i = Some page ->
    exists page' ops,
      [{| getWidth := Fin 595; getHeight := Fin 842;
          drawn := [("New Text",
                     {| opt_x := Fin 297.5; opt_y := Fin 405.0; opt_size := Fin 16;
                        opt_color := {| red := Fin 0; green := Fin 0; blue := Fin 0 |} |})] |}]
        !! i = Some page' /\
      getWidth page' = getWidth page /\ getHeight page' = getHeight page /\
      Forall2 (draws_as None (getWidth page) (getHeight page))
        (page_or_empty (overlays one_overlay) i) ops /\
      drawn page' = drawn page ++ ops.
Proof.
  apply (export_draws_every_overlay (lib := one_page_lib) None tt
           (overlays one_overlay) [a4_page]).
  reflexivity.
Defined.

(** X13: an overlay stored under page 5 of a document of one page. *)
Lemma export_ignores_page_5 :
  exportBytes (lib := one_page_lib) None (overlays one_overlay) []
  = exportBytes (lib := one_page_lib) None
      (overlays (addTextOverlay "u9" 5 one_overlay)) [].
Proof.
  apply (export_ignores_pages_beyond_document (lib := one_page_lib) None
           (overlays one_overlay) (overlays (addTextOverlay "u9" 5 one_overlay))
           [] [a4_page]).
  - reflexivity.
  - intros i Hi. destruct i as [|i]; [reflexivity|]. simpl in Hi. lia.
Defined.

(** X15 with a font that cannot measure the overlay's text. *)
Lemma unmeasurable_overlay_aborts_export_a4 :
  handleExport (lib := no_glyph_lib) None (setExportArrayBuffer (Some []) one_overlay)
  = [ConsoleError; Alert "Failed to export PDF"].
Proof.
  apply (unmeasurable_overlay_aborts_export (lib := no_glyph_lib) None
           (setExportArrayBuffer (Some []) one_overlay) [] [a4_page] tt 0 the_overlay).
  - reflexivity.
  - reflexivity.
  - reflexivity.
  - simpl. lia.
  - left. reflexivity.
  - reflexivity.
Defined.

(** * Further properties of loading *)

Section LoadingFacts.

Variable fetch_arrayBuffer : string -> option ArrayBuffer.
Variable upload : File -> UploadAnswer.

(** The [?file=] effect writes [pdfUrl] and [pdfArrayBuffer] and
    nothing else: the export buffer, the overlays, the page sizes, the
    page count and the two flags are what they were, on every path, and
    at most one alert is raised. *)
Theorem loadFromParam_frame (searchParams_file : option string) (st : EditorState) :
  exportArrayBuffer (loadFromParam fetch_arrayBuffer searchParams_file st).1
  = exportArrayBuffer st /\
  overlays (loadFromParam fetch_arrayBuffer searchParams_file st).1 = overlays st /\
  pageSizes (loadFromParam fetch_arrayBuffer searchParams_file st).1 = pageSizes st /\
  numPages (loadFromParam fetch_arrayBuffer searchParams_file st).1 = numPages st /\
  uploading (loadFromParam fetch_arrayBuffer searchParams_file st).1 = uploading st /\
  rendering (loadFromParam fetch_arrayBuffer searchParams_file st).1 = rendering st /\
  (length (List.filter is_Alert (loadFromParam fetch_arrayBuffer searchParams_file st).2)
   <= 1)%nat.
Proof.
  unfold loadFromParam.
  destruct searchParams_file as [paramUrl|];
    [|repeat split; first [done | simpl; lia]].
  destruct (truthy paramUrl); simpl; [|repeat split; first [done | simpl; lia]].
  destruct (decide (pdfUrl st = Some paramUrl));
    [repeat split; first [done | simpl; lia]|].
  destruct (fetch_arrayBuffer paramUrl); repeat split; first [done | simpl; lia].
Qed.

(** X16.  When the fetch of a [?file=] document fails, the editor has
    already switched to the new URL but keeps the bytes it had, one
    alert is raised, and the load is not tried again: run once more for
    the same parameter, even with a fetch that would now succeed, the
    effect does nothing. *)
Theorem failed_param_load_is_not_retried
    (fetch_later : string -> option ArrayBuffer) (paramUrl : string) (st : EditorState) :
  truthy paramUrl = true ->
  pdfUrl st <> Some paramUrl ->
  fetch_arrayBuffer paramUrl = None ->
  (loadFromParam fetch_arrayBuffer (Some paramUrl) st).2
  = [ConsoleError; Alert "Failed to load PDF from URL"] /\
  pdfUrl (loadFromParam fetch_arrayBuffer (Some paramUrl) st).1 = Some paramUrl /\
  pdfArrayBuffer (loadFromParam fetch_arrayBuffer (Some paramUrl) st).1
  = pdfArrayBuffer st /\
  loadFromParam fetch_later (Some paramUrl)
    (loadFromParam fetch_arrayBuffer (Some paramUrl) st).1
  = ((loadFromParam fetch_arrayBuffer (Some paramUrl) st).1, []).
Proof.
  intros Htruthy Hurl Hfetch. unfold loadFromParam at 1 2 3 5.
  rewrite Htruthy. simpl. destruct (decide (pdfUrl st = Some paramUrl)); [done|].
  rewrite Hfetch. simpl. do 3 (split; [done|]).
  unfold loadFromParam. rewrite Htruthy. simpl.
  by destruct (decide (Some paramUrl = Some paramUrl)).
Qed.

(** The handler run with nothing in between is its two parts in a
    row. *)
Lemma handleFileSelect_split (fetch_message : string) (file : option File)
    (st : EditorState) :
  handleFileSelect fetch_arrayBuffer upload fetch_message file st
  = match handleFileSelect_start upload file st with
    | Returned st' effects => (st', effects)
    | AwaitsFetch url st' =>
        handleFileSelect_resume fetch_arrayBuffer fetch_message url st'
    end.
Proof.
  unfold handleFileSelect, handleFileSelect_start, handleFileSelect_resume.
  destruct file as [file|]; [|done].
  destruct (negb _); [done|]. by destruct (upload file).
Qed.

(** The [?file=] effect run with nothing in between is its two parts
    in a row. *)
Lemma loadFromParam_split (searchParams_file : option string) (st : EditorState) :
  loadFromParam fetch_arrayBuffer searchParams_file st
  = match loadFromParam_start searchParams_file st with
    | (st', None) => (st', [])
    | (st', Some paramUrl) => loadFromParam_resume fetch_arrayBuffer paramUrl st'
    end.
Proof.
  unfold loadFromParam, loadFromParam_start, loadFromParam_resume.
  destruct searchParams_file as [paramUrl|]; [|done].
  destruct (negb _); [done|]. by destruct (decide _).
Qed.

(** The rest of the handler writes no URL. *)
Lemma handleFileSelect_resume_keeps_url (fetch_message url : string)
    (st : EditorState) :
  pdfUrl (handleFileSelect_resume fetch_arrayBuffer fetch_message url st).1
  = pdfUrl st.
Proof. unfold handleFileSelect_resume. by destruct (fetch_arrayBuffer url). Qed.

(** X17.  An upload into an editor whose address holds no [?file=]
    parameter, an empty one, or the uploaded URL itself.  The handler
    awaits the fetch with the uploaded URL already set.  From then on,
    in every state that holds that URL, whatever else was written
    meanwhile: the [?file=] effect, run with the address as it was or
    with the uploaded URL reflected into it, returns before its own
    fetch, without a write; and the rest of the handler puts the same
    fetched bytes in both buffers, clears the uploading flag, raises
    nothing and keeps the URL and the overlays.  With nothing written
    meanwhile this is what the handler's own writes give. *)
Theorem upload_then_param_effect
    (fetch_message url : string) (file : File) (ab : ArrayBuffer)
    (searchParams_file : option string) (st : EditorState) :
  file_type file = "application/pdf" ->
  upload file = UploadOk url ->
  fetch_arrayBuffer url = Some ab ->
  (forall paramUrl, searchParams_file = Some paramUrl -> truthy paramUrl = true ->
     paramUrl = url) ->
  exists awaiting,
    handleFileSelect_start upload (Some file) st = AwaitsFetch url awaiting /\
    pdfUrl awaiting = Some url /\
    (forall current, pdfUrl current = Some url ->
       loadFromParam_start searchParams_file current = (current, None) /\
       loadFromParam_start (Some url) current = (current, None) /\
       exists final,
         handleFileSelect_resume fetch_arrayBuffer fetch_message url current
         = (final, []) /\
         pdfUrl final = Some url /\
         pdfArrayBuffer final = Some ab /\ exportArrayBuffer final = Some ab /\
         uploading final = false /\ overlays final = overlays current) /\
    handleFileSelect fetch_arrayBuffer upload fetch_message (Some file) st
    = handleFileSelect_resume fetch_arrayBuffer fetch_message url awaiting.
Proof.
  intros Htype Hup Hfetch Hparam.
  assert (Hidle : forall p st', pdfUrl st' = Some url ->
            (forall paramUrl, p = Some paramUrl -> truthy paramUrl = true ->
               paramUrl = url) ->
            loadFromParam_start p st' = (st', None)).
  { intros p st' Hurl Hp. unfold loadFromParam_start.
    destruct p as [paramUrl|]; [|done].
    destruct (truthy paramUrl) eqn:Ht; [|done]. simpl.
    rewrite (Hp paramUrl eq_refl Ht), Hurl. by destruct (decide _). }
  assert (Hstart : handleFileSelect_start upload (Some file) st
                   = AwaitsFetch url (setPdfUrl (Some url) (setUploading true st))).
  { unfold handleFileSelect_start. by rewrite Htype, Hup. }
  exists (setPdfUrl (Some url) (setUploading true st)).
  split; [exact Hstart|]. split; [done|]. split.
  - intros current Hurl.
    split; [by apply Hidle|].
    split; [apply Hidle; [done|]; by intros paramUrl [= ->] _|].
    exists (setUploading false
              (setExportArrayBuffer (Some ab) (setPdfArrayBuffer (Some ab) current))).
    split; [unfold handleFileSelect_resume; by rewrite Hfetch|]. by destruct current.
  - by rewrite handleFileSelect_split, Hstart.
Qed.

(** The condition on the address is needed.  On an upload that replaces
    a document the address still names, the effect that runs while the
    fetch is pending opens with [setPdfUrl(paramUrl)], and the rest of
    the handler writes no URL: the uploaded bytes reach the export
    buffer of an editor whose URL is the earlier document's again. *)
Lemma stale_param_resets_url
    (fetch_message url paramUrl : string) (file : File) (ab : ArrayBuffer)
    (st : EditorState) :
  file_type file = "application/pdf" ->
  upload file = UploadOk url ->
  fetch_arrayBuffer url = Some ab ->
  truthy paramUrl = true -> paramUrl <> url ->
  exists awaiting reset,
    handleFileSelect_start upload (Some file) st = AwaitsFetch url awaiting /\
    loadFromParam_start (Some paramUrl) awaiting = (reset, Some paramUrl) /\
    pdfUrl reset = Some paramUrl /\
    pdfUrl (handleFileSelect_resume fetch_arrayBuffer fetch_message url reset).1
    = Some paramUrl /\
    exportArrayBuffer (handleFileSelect_resume fetch_arrayBuffer fetch_message url reset).1
    = Some ab.
Proof.
  intros Htype Hup Hfetch Ht Hne.
  exists (setPdfUrl (Some url) (setUploading true st)),
    (setPdfUrl (Some paramUrl) (setPdfUrl (Some url) (setUploading true st))).
  split; [unfold handleFileSelect_start; by rewrite Htype, Hup|].
  split.
  { unfold loadFromParam_start. rewrite Ht. simpl.
    destruct (decide _) as [[= E]|_]; [by destruct Hne|done]. }
  split; [done|]. rewrite handleFileSelect_resume_keeps_url.
  split; [done|]. unfold handleFileSelect_resume. by rewrite Hfetch.
Qed.

(** X18.  On every path [handleFileSelect] raises at most one alert;
    it either installs the same fetched bytes in both buffers and
    raises nothing, or leaves both buffers as they were; so two
    buffers that agreed before agree after; it never leaves the
    uploading flag set that was clear before; and it never touches the
    overlays or the page sizes. *)
Theorem handleFileSelect_paths (fetch_message : string) (file : option File)
    (st : EditorState) :
  (length (List.filter is_Alert
             (handleFileSelect fetch_arrayBuffer upload fetch_message file st).2) <= 1)%nat /\
  ((exists ab,
      pdfArrayBuffer (handleFileSelect fetch_arrayBuffer upload fetch_message file st).1
      = Some ab /\
      exportArrayBuffer (handleFileSelect fetch_arrayBuffer upload fetch_message file st).1
      = Some ab /\
      (handleFileSelect fetch_arrayBuffer upload fetch_message file st).2 = []) \/
   (pdfArrayBuffer (handleFileSelect fetch_arrayBuffer upload fetch_message file st).1
    = pdfArrayBuffer st /\
    exportArrayBuffer (handleFileSelect fetch_arrayBuffer upload fetch_message file st).1
    = exportArrayBuffer st)) /\
  (pdfArrayBuffer st = exportArrayBuffer st ->
   pdfArrayBuffer (handleFileSelect fetch_arrayBuffer upload fetch_message file st).1
   = exportArrayBuffer (handleFileSelect fetch_arrayBuffer upload fetch_message file st).1) /\
  (uploading st = false ->
   uploading (handleFileSelect fetch_arrayBuffer upload fetch_message file st).1 = false) /\
  overlays (handleFileSelect fetch_arrayBuffer upload fetch_message file st).1
  = overlays st /\
  pageSizes (handleFileSelect fetch_arrayBuffer upload fetch_message file st).1
  = pageSizes st.
Proof.
  unfold handleFileSelect.
  destruct file as [file|];
    [|split; [simpl; lia|]; split; [by right|]; done].
  destruct (String.eqb (file_type file) "application/pdf"); simpl;
    [|split; [lia|]; split; [by right|]; done].
  destruct (upload file) as [message|error|url]; simpl;
    [split; [lia|]; split; [by right|]; done..|].
  destruct (fetch_arrayBuffer url) as [ab|]; simpl.
  - split; [lia|]. split; [left; by exists ab|]. done.
  - split; [lia|]. split; [by right|]. done.
Qed.

End LoadingFacts.

(** * Persistence *)

Section PersistFacts.

Variable encodeURIComponent : string -> string.
Variable JSON_stringify : PageOverlays -> string.
Variable JSON_parse : string -> option PageOverlays.
Variable setItem_returns : string -> string -> bool.

(** X19.  What is persisted for a document is what a later restore for
    the same URL installs, in an editor in any state, provided the
    write went through and JSON carries the collection: its text is
    not empty and parses back to it. *)
Theorem persist_then_restore (st later : EditorState) (storage : gmap string string)
    (url : string) :
  pdfUrl st = Some url -> truthy url = true ->
  pdfUrl later = Some url ->
  setItem_returns (getOverlaysStorageKey encodeURIComponent url)
    (JSON_stringify (overlays st)) = true ->
  truthy (JSON_stringify (overlays st)) = true ->
  JSON_parse (JSON_stringify (overlays st)) = Some (overlays st) ->
  restoreOverlays encodeURIComponent
    (getItem_of
       (persistOverlays encodeURIComponent JSON_stringify setItem_returns st storage).1)
    JSON_parse later
  = (setOverlays (fun _ => overlays st) later, []).
Proof.
  intros Hurl Htruthy Hlater Hset Hnonempty Hparse.
  unfold persistOverlays, restoreOverlays, getItem_of.
  rewrite Hurl, Hlater, Htruthy. simpl. rewrite Hset. simpl.
  rewrite lookup_insert_eq. by rewrite Hnonempty, Hparse.
Qed.

Lemma append_inj_r (p a b : string) : (p ++ a = p ++ b)%string -> a = b.
Proof.
  induction p as [|c p IH]; cbn [String.append]; [done|].
  intros [= H]. by apply IH.
Qed.

Lemma storage_key_inj (a b : string) :
  getOverlaysStorageKey encodeURIComponent a = getOverlaysStorageKey encodeURIComponent b ->
  encodeURIComponent a = encodeURIComponent b.
Proof. unfold getOverlaysStorageKey. apply append_inj_r. Qed.

(** X20.  Persisting the overlays of one document changes the record of
    no document whose encoded URL differs, whether the write goes
    through or not; and a failed write changes no record at all. *)
Theorem persist_leaves_other_documents (st : EditorState)
    (storage : gmap string string) (other : string) :
  (forall url, pdfUrl st = Some url ->
     encodeURIComponent other <> encodeURIComponent url) ->
  getItem_of
    (persistOverlays encodeURIComponent JSON_stringify setItem_returns st storage).1
    (getOverlaysStorageKey encodeURIComponent other)
  = getItem_of storage (getOverlaysStorageKey encodeURIComponent other).
Proof.
  intros Hother. unfold persistOverlays.
  destruct (pdfUrl st) as [url|]; [|done].
  destruct (truthy url); simpl; [|done].
  destruct (setItem_returns _ _); simpl; [|done].
  unfold getItem_of. rewrite lookup_insert_ne; [done|].
  intros E. apply storage_key_inj in E. by apply (Hother url).
Qed.

End PersistFacts.

(** X16 on a fresh editor opened on [?file=/fake.pdf] that cannot be
    fetched. *)
Lemma failed_param_load_fresh_editor :
  (loadFromParam (fun _ => None) (Some "/fake.pdf") initialState).2
  = [ConsoleError; Alert "Failed to load PDF from URL"] /\
  pdfUrl (loadFromParam (fun _ => None) (Some "/fake.pdf") initialState).1
  = Some "/fake.pdf" /\
  pdfArrayBuffer (loadFromParam (fun _ => None) (Some "/fake.pdf") initialState).1
  = pdfArrayBuffer initialState /\
  loadFromParam (fun _ => Some []) (Some "/fake.pdf")
    (loadFromParam (fun _ => None) (Some "/fake.pdf") initialState).1
  = ((loadFromParam (fun _ => None) (Some "/fake.pdf") initialState).1, []).
Proof.
  apply (failed_param_load_is_not_retried (fun _ => None) (fun _ => Some [])
           "/fake.pdf" initialState);
    first [reflexivity | discriminate].
Defined.

(** X17 on a fresh editor opened without a [?file=] parameter: the
    upload answers ["/fake.pdf"]. *)
Lemma upload_then_param_effect_fresh_editor :
  exists awaiting,
    handleFileSelect_start (fun _ => UploadOk "/fake.pdf")
      (Some {| file_type := "application/pdf" |}) initialState
    = AwaitsFetch "/fake.pdf" awaiting /\
    pdfUrl awaiting = Some "/fake.pdf" /\
    (forall current, pdfUrl current = Some "/fake.pdf" ->
       loadFromParam_start None current = (current, None) /\
       loadFromParam_start (Some "/fake.pdf") current = (current, None) /\
       exists final,
         handleFileSelect_resume (fun _ => Some []) "" "/fake.pdf" current
         = (final, []) /\
         pdfUrl final = Some "/fake.pdf" /\
         pdfArrayBuffer final = Some [] /\ exportArrayBuffer final = Some [] /\
         uploading final = false /\ overlays final = overlays current) /\
    handleFileSelect (fun _ => Some []) (fun _ => UploadOk "/fake.pdf") ""
      (Some {| file_type := "application/pdf" |}) initialState
    = handleFileSelect_resume (fun _ => Some []) "" "/fake.pdf" awaiting.
Proof.
  apply (upload_then_param_effect (fun _ => Some []) (fun _ => UploadOk "/fake.pdf")
           "" "/fake.pdf" {| file_type := "application/pdf" |} [] None initialState);
    first [reflexivity | discriminate].
Defined.

(** A second upload into an editor opened on [?file=/old.pdf]: the
    effect puts ["/old.pdf"] back while ["/new.pdf"] is fetched. *)
Example replacement_upload_resets_url :
  exists awaiting reset,
    handleFileSelect_start (fun _ => UploadOk "/new.pdf")
      (Some {| file_type := "application/pdf" |}) (setPdfUrl (Some "/old.pdf") initialState)
    = AwaitsFetch "/new.pdf" awaiting /\
    loadFromParam_start (Some "/old.pdf") awaiting = (reset, Some "/old.pdf") /\
    pdfUrl reset = Some "/old.pdf" /\
    pdfUrl (handleFileSelect_resume (fun _ => Some []) "" "/new.pdf" reset).1
    = Some "/old.pdf" /\
    exportArrayBuffer (handleFileSelect_resume (fun _ => Some []) "" "/new.pdf" reset).1
    = Some [].
Proof.
  apply (stale_param_resets_url (fun _ => Some []) (fun _ => UploadOk "/new.pdf")
           "" "/new.pdf" "/old.pdf" {| file_type := "application/pdf" |} []
           (setPdfUrl (Some "/old.pdf") initialState));
    first [reflexivity | discriminate].
Qed.

(** X19: the one overlay, persisted under ["/fake.pdf"] and restored in
    a fresh editor on the same URL. *)
Lemma persist_then_restore_one_overlay :
  restoreOverlays (fun url => url)
    (getItem_of
       (persistOverlays (fun url => url) (fun _ => "{...}") (fun _ _ => true)
          (setPdfUrl (Some "/fake.pdf") one_overlay) ∅).1)
    (fun _ => Some (overlays one_overlay))
    (setPdfUrl (Some "/fake.pdf") initialState)
  = (setOverlays (fun _ => overlays (setPdfUrl (Some "/fake.pdf") one_overlay))
       (setPdfUrl (Some "/fake.pdf") initialState), []).
Proof.
  apply (persist_then_restore (fun url => url) (fun _ => "{...}")
           (fun _ => Some (overlays one_overlay)) (fun _ _ => true)
           (setPdfUrl (Some "/fake.pdf") one_overlay)
           (setPdfUrl (Some "/fake.pdf") initialState) ∅ "/fake.pdf");
    reflexivity.
Defined.

(** X20: persisting for ["/a.pdf"] seen from ["/b.pdf"]. *)
Lemma persist_leaves_b_pdf :
  getItem_of
    (persistOverlays (fun url => url) (fun _ => "{...}") (fun _ _ => true)
       (setPdfUrl (Some "/a.pdf") one_overlay) ∅).1
    (getOverlaysStorageKey (fun url => url) "/b.pdf")
  = getItem_of ∅ (getOverlaysStorageKey (fun url => url) "/b.pdf").
Proof.
  apply (persist_leaves_other_documents (fun url => url) (fun _ => "{...}")
           (fun _ _ => true) (setPdfUrl (Some "/a.pdf") one_overlay) ∅ "/b.pdf").
  intros url [= <-]. discriminate.
Defined.

(** * Further properties of the rendering *)

Section RenderingMore.

Variable getDocument : ArrayBuffer -> option PDFDocumentProxy.
Variable canvasRefs : gmap nat HTMLCanvasElement.

(** When the document cannot be opened, the run raises
    [console.error] and the alert, paints nothing, and publishes
    nothing: the document, the page count, the page sizes and the
    overlays shown stay as they were.  This holds for a cancelled run
    too, alert included; only the rendering flag differs: it is cleared
    when the run is current and left set when it was cancelled. *)
Theorem open_failure (cancel : Cancellation) (st : EditorState) (data : ArrayBuffer) :
  pdfArrayBuffer st = Some data ->
  getDocument data = None ->
  run_effects (loadAndRender getDocument canvasRefs cancel st)
  = [ConsoleError; Alert "Failed to render PDF"] /\
  run_painted (loadAndRender getDocument canvasRefs cancel st) = [] /\
  pdfDoc (run_state (loadAndRender getDocument canvasRefs cancel st)) = pdfDoc st /\
  numPages (run_state (loadAndRender getDocument canvasRefs cancel st)) = numPages st /\
  pageSizes (run_state (loadAndRender getDocument canvasRefs cancel st)) = pageSizes st /\
  overlays (run_state (loadAndRender getDocument canvasRefs cancel st)) = overlays st /\
  rendering (run_state (loadAndRender getDocument canvasRefs cancel st))
  = match cancel with NotCancelled => false | _ => true end.
Proof.
  intros Hdata Hdoc. unfold loadAndRender. rewrite Hdata, Hdoc.
  by destruct cancel.
Qed.

(** A run that was cancelled before its document opened, or
    while the page sizes were being collected, raises nothing, paints
    nothing and publishes no page sizes, and it leaves the rendering
    flag set.  Cancelled before the document opened it publishes
    nothing at all; cancelled while collecting the sizes it has already
    published the superseded document and its page count. *)
Theorem cancelled_before_painting (st : EditorState) (data : ArrayBuffer)
    (doc : PDFDocumentProxy) (sizes : list Size) :
  pdfArrayBuffer st = Some data ->
  getDocument data = Some doc ->
  collectSizes doc (seq 1 (doc_numPages doc)) = Some sizes ->
  loadAndRender getDocument canvasRefs CancelledWhileOpening st
  = {| run_state := setRendering true st; run_effects := []; run_painted := [] |} /\
  loadAndRender getDocument canvasRefs CancelledWhileMeasuring st
  = {| run_state :=
         setNumPages (doc_numPages doc) (setPdfDoc (Some doc) (setRendering true st));
       run_effects := []; run_painted := [] |}.
Proof.
  intros Hdata Hdoc Hsizes. unfold loadAndRender. by rewrite Hdata, Hdoc, Hsizes.
Qed.

(** X21.  Cancelling a run once it has started to paint stops nothing:
    it paints the same pages, raises the same effects and publishes the
    same document, page count and page sizes as the run that was not
    cancelled; only the rendering flag is left as the run set it. *)
Theorem cancelled_while_painting (st : EditorState) :
  run_painted (loadAndRender getDocument canvasRefs CancelledWhileRendering st)
  = run_painted (loadAndRender getDocument canvasRefs NotCancelled st) /\
  run_effects (loadAndRender getDocument canvasRefs CancelledWhileRendering st)
  = run_effects (loadAndRender getDocument canvasRefs NotCancelled st) /\
  pdfDoc (run_state (loadAndRender getDocument canvasRefs CancelledWhileRendering st))
  = pdfDoc (run_state (loadAndRender getDocument canvasRefs NotCancelled st)) /\
  numPages (run_state (loadAndRender getDocument canvasRefs CancelledWhileRendering st))
  = numPages (run_state (loadAndRender getDocument canvasRefs NotCancelled st)) /\
  pageSizes (run_state (loadAndRender getDocument canvasRefs CancelledWhileRendering st))
  = pageSizes (run_state (loadAndRender getDocument canvasRefs NotCancelled st)) /\
  (pdfArrayBuffer st <> None ->
   rendering (run_state (loadAndRender getDocument canvasRefs CancelledWhileRendering st))
   = true).
Proof.
  unfold loadAndRender. destruct (pdfArrayBuffer st) as [data|]; [|done].
  destruct (getDocument data) as [doc|]; [|done].
  destruct (collectSizes doc _) as [sizes|]; [|done].
  by destruct (renderPages canvasRefs doc _) as [painted completed].
Qed.

Lemma renderPages_sound (doc : PDFDocumentProxy) (l : list nat) (i : nat) :
  In i (renderPages canvasRefs doc l).1 ->
  In i l /\ usable_canvas canvasRefs i = true /\
  exists page, getPage doc i = Some page /\ render_resolves page = true.
Proof.
  unfold usable_canvas.
  induction l as [|j l IH]; simpl; [done|].
  destruct (getPage doc j) as [page|] eqn:Hpage; [|done].
  destruct (canvasRefs !! (j - 1)%nat) as [canvas|] eqn:Hcanvas;
    [|intros H; apply IH in H; tauto].
  destruct (has_2d_context canvas) eqn:Hctx; simpl;
    [|intros H; apply IH in H; tauto].
  destruct (render_resolves page) eqn:Hres; [|done].
  destruct (renderPages canvasRefs doc l) as [painted completed]. simpl in *.
  intros [<-|H].
  - split; [by left|]. rewrite Hcanvas. split; [done|]. by exists page.
  - apply IH in H. tauto.
Qed.

(** X22.  Whatever the collaborators answer, a page is painted only if
    it is a page of the opened document whose [getPage] and whose
    render resolved and whose canvas is mounted with a 2d context. *)
Theorem painted_pages_are_sound (cancel : Cancellation) (st : EditorState) (i : nat) :
  In i (run_painted (loadAndRender getDocument canvasRefs cancel st)) ->
  exists data doc page,
    pdfArrayBuffer st = Some data /\ getDocument data = Some doc /\
    (1 <= i <= doc_numPages doc)%nat /\
    getPage doc i = Some page /\ render_resolves page = true /\
    usable_canvas canvasRefs i = true.
Proof.
  unfold loadAndRender. destruct (pdfArrayBuffer st) as [data|]; [|done].
  destruct (getDocument data) as [doc|] eqn:Hdoc; [|done].
  assert (Hsound : forall j,
    In j (renderPages canvasRefs doc (seq 1 (doc_numPages doc))).1 ->
    exists data' doc' page,
      Some data = Some data' /\ getDocument data' = Some doc' /\
      (1 <= j <= doc_numPages doc')%nat /\
      getPage doc' j = Some page /\ render_resolves page = true /\
      usable_canvas canvasRefs j = true).
  { intros j Hj. apply renderPages_sound in Hj as (Hin & Hcanvas & page & Hpage & Hres).
    apply in_seq in Hin. exists data, doc, page. repeat split; (done || lia). }
  destruct cancel; try done;
    destruct (collectSizes doc _) as [sizes|]; try done;
    destruct (renderPages canvasRefs doc _) as [painted completed]; simpl in *;
    apply Hsound.
Qed.

Lemma collectSizes_rejected (doc : PDFDocumentProxy) (l : list nat) (k : nat) :
  In k l -> getPage doc k = None -> collectSizes doc l = None.
Proof.
  intros Hin Hk. induction l as [|j l IH]; [done|]. simpl.
  destruct Hin as [->|Hin]; [by rewrite Hk|].
  destruct (getPage doc j); [|done]. simpl. by rewrite IH.
Qed.

(** X23.  When [getPage] rejects for some page of the document, the
    run fails before anything is painted and before any page size is
    published, but after the new document and its page count were
    published: the editor then shows the new page count over the page
    sizes it had. *)
Theorem measuring_failure (st : EditorState) (data : ArrayBuffer)
    (doc : PDFDocumentProxy) (k : nat) :
  pdfArrayBuffer st = Some data ->
  getDocument data = Some doc ->
  (1 <= k <= doc_numPages doc)%nat ->
  getPage doc k = None ->
  run_effects (loadAndRender getDocument canvasRefs NotCancelled st)
  = [ConsoleError; Alert "Failed to render PDF"] /\
  run_painted (loadAndRender getDocument canvasRefs NotCancelled st) = [] /\
  pageSizes (run_state (loadAndRender getDocument canvasRefs NotCancelled st))
  = pageSizes st /\
  pdfDoc (run_state (loadAndRender getDocument canvasRefs NotCancelled st)) = Some doc /\
  numPages (run_state (loadAndRender getDocument canvasRefs NotCancelled st))
  = doc_numPages doc /\
  rendering (run_state (loadAndRender getDocument canvasRefs NotCancelled st)) = false.
Proof.
  intros Hdata Hdoc Hk Hreject. unfold loadAndRender.
  rewrite Hdata, Hdoc, (collectSizes_rejected doc _ k); [done| |done].
  apply in_seq. lia.
Qed.

Lemma renderPages_skips (doc : PDFDocumentProxy) (pages : nat -> PDFPageProxy)
    (l : list nat) :
  (forall i, In i l -> getPage doc i = Some (pages i)) ->
  (forall i, In i l -> usable_canvas canvasRefs i = true ->
     render_resolves (pages i) = true) ->
  renderPages canvasRefs doc l = (List.filter (usable_canvas canvasRefs) l, true).
Proof.
  unfold usable_canvas. induction l as [|j l IH]; intros Hpages Hres; simpl; [done|].
  rewrite Hpages by by left.
  assert (IH' : renderPages canvasRefs doc l
                = (List.filter (usable_canvas canvasRefs) l, true)).
  { apply IH; intros i Hi; [apply Hpages|apply Hres]; by right. }
  unfold usable_canvas in IH'.
  pose proof (Hres j (or_introl eq_refl)) as Hj.
  destruct (canvasRefs !! (j - 1)%nat) as [canvas|]; [|exact IH'].
  destruct (has_2d_context canvas); simpl; [|exact IH'].
  rewrite Hj by done. by rewrite IH'.
Qed.

(** X24.  When every [getPage] resolves and every page that has a
    usable canvas renders, the run paints exactly the pages whose
    canvas is mounted with a 2d context, in page order, and raises
    nothing: a page without such a canvas is passed over without an
    error, whether its render would have failed or not. *)
Theorem pages_without_canvas_are_skipped (st : EditorState) (data : ArrayBuffer)
    (doc : PDFDocumentProxy) (pages : nat -> PDFPageProxy) :
  pdfArrayBuffer st = Some data ->
  getDocument data = Some doc ->
  (forall i, (1 <= i <= doc_numPages doc)%nat -> getPage doc i = Some (pages i)) ->
  (forall i, (1 <= i <= doc_numPages doc)%nat -> usable_canvas canvasRefs i = true ->
     render_resolves (pages i) = true) ->
  run_painted (loadAndRender getDocument canvasRefs NotCancelled st)
  = List.filter (usable_canvas canvasRefs) (seq 1 (doc_numPages doc)) /\
  run_effects (loadAndRender getDocument canvasRefs NotCancelled st) = [] /\
  pageSizes (run_state (loadAndRender getDocument canvasRefs NotCancelled st))
  = map (fun i => getViewport (pages i)) (seq 1 (doc_numPages doc)).
Proof.
  intros Hdata Hdoc Hpages Hres. unfold loadAndRender. rewrite Hdata, Hdoc.
  assert (Hsizes : collectSizes doc (seq 1 (doc_numPages doc))
                   = Some (map (fun i => getViewport (pages i)) (seq 1 (doc_numPages doc)))).
  { assert (Hall : forall l, (forall i, In i l -> getPage doc i = Some (pages i)) ->
                     collectSizes doc l = Some (map (fun i => getViewport (pages i)) l)).
    { induction l as [|j l IH]; intros Hl; simpl; [done|].
      rewrite Hl by by left. simpl. rewrite IH; [done|].
      intros i Hi. apply Hl. by right. }
    apply Hall. intros i Hi. apply in_seq in Hi. apply Hpages. lia. }
  rewrite Hsizes, (renderPages_skips doc pages); [done| |].
  - intros i Hi. apply in_seq in Hi. apply Hpages. lia.
  - intros i Hi. apply in_seq in Hi. apply Hres. lia.
Qed.

End RenderingMore.

(** An instance for a run that was cancelled while a corrupt document was
    being opened. *)
Lemma open_failure_cancelled :
  run_effects
    (loadAndRender (fun _ => None) three_canvases CancelledWhileOpening
       (setPdfArrayBuffer (Some []) one_overlay))
  = [ConsoleError; Alert "Failed to render PDF"] /\
  run_painted
    (loadAndRender (fun _ => None) three_canvases CancelledWhileOpening
       (setPdfArrayBuffer (Some []) one_overlay)) = [] /\
  pdfDoc
    (run_state
       (loadAndRender (fun _ => None) three_canvases CancelledWhileOpening
          (setPdfArrayBuffer (Some []) one_overlay)))
  = pdfDoc (setPdfArrayBuffer (Some []) one_overlay) /\
  numPages
    (run_state
       (loadAndRender (fun _ => None) three_canvases CancelledWhileOpening
          (setPdfArrayBuffer (Some []) one_overlay)))
  = numPages (setPdfArrayBuffer (Some []) one_overlay) /\
  pageSizes
    (run_state
       (loadAndRender (fun _ => None) three_canvases CancelledWhileOpening
          (setPdfArrayBuffer (Some []) one_overlay)))
  = pageSizes (setPdfArrayBuffer (Some []) one_overlay) /\
  overlays
    (run_state
       (loadAndRender (fun _ => None) three_canvases CancelledWhileOpening
          (setPdfArrayBuffer (Some []) one_overlay)))
  = overlays (setPdfArrayBuffer (Some []) one_overlay) /\
  rendering
    (run_state
       (loadAndRender (fun _ => None) three_canvases CancelledWhileOpening
          (setPdfArrayBuffer (Some []) one_overlay)))
  = true.
Proof.
  apply (open_failure (fun _ => None) three_canvases CancelledWhileOpening
           (setPdfArrayBuffer (Some []) one_overlay) []);
    reflexivity.
Defined.

(** An instance on the document of three pages. *)
Lemma cancelled_before_painting_three_pages :
  loadAndRender (fun _ => Some three_pages) three_canvases CancelledWhileOpening
    (setPdfArrayBuffer (Some []) initialState)
  = {| run_state := setRendering true (setPdfArrayBuffer (Some []) initialState);
       run_effects := []; run_painted := [] |} /\
  loadAndRender (fun _ => Some three_pages) three_canvases CancelledWhileMeasuring
    (setPdfArrayBuffer (Some []) initialState)
  = {| run_state :=
         setNumPages (doc_numPages three_pages)
           (setPdfDoc (Some three_pages)
              (setRendering true (setPdfArrayBuffer (Some []) initialState)));
       run_effects := []; run_painted := [] |}.
Proof.
  apply (cancelled_before_painting (fun _ => Some three_pages) three_canvases
           (setPdfArrayBuffer (Some []) initialState) [] three_pages [a4; a4; a4]);
    reflexivity.
Defined.

(** X22 for page 1 of the document of three pages. *)
Lemma painted_page_1_is_sound :
  exists data doc page,
    pdfArrayBuffer (setPdfArrayBuffer (Some []) initialState) = Some data /\
    (fun _ : ArrayBuffer => Some three_pages) data = Some doc /\
    (1 <= 1 <= doc_numPages doc)%nat /\
    getPage doc 1 = Some page /\ render_resolves page = true /\
    usable_canvas three_canvases 1 = true.
Proof.
  apply (painted_pages_are_sound (fun _ => Some three_pages) three_canvases
           NotCancelled (setPdfArrayBuffer (Some []) initialState) 1).
  vm_compute. left. reflexivity.
Defined.

(** X23 on the document whose page 2 cannot be got. *)
Lemma measuring_failure_page2_missing :
  run_effects
    (loadAndRender (fun _ => Some page2_missing) three_canvases NotCancelled
       (setPdfArrayBuffer (Some []) initialState))
  = [ConsoleError; Alert "Failed to render PDF"] /\
  run_painted
    (loadAndRender (fun _ => Some page2_missing) three_canvases NotCancelled
       (setPdfArrayBuffer (Some []) initialState)) = [] /\
  pageSizes
    (run_state
       (loadAndRender (fun _ => Some page2_missing) three_canvases NotCancelled
          (setPdfArrayBuffer (Some []) initialState)))
  = pageSizes (setPdfArrayBuffer (Some []) initialState) /\
  pdfDoc
    (run_state
       (loadAndRender (fun _ => Some page2_missing) three_canvases NotCancelled
          (setPdfArrayBuffer (Some []) initialState)))
  = Some page2_missing /\
  numPages
    (run_state
       (loadAndRender (fun _ => Some page2_missing) three_canvases NotCancelled
          (setPdfArrayBuffer (Some []) initialState)))
  = doc_numPages page2_missing /\
  rendering
    (run_state
       (loadAndRender (fun _ => Some page2_missing) three_canvases NotCancelled
          (setPdfArrayBuffer (Some []) initialState)))
  = false.
Proof.
  apply (measuring_failure (fun _ => Some page2_missing) three_canvases
           (setPdfArrayBuffer (Some []) initialState) [] page2_missing 2).
  - reflexivity.
  - reflexivity.
  - simpl. lia.
  - reflexivity.
Defined.

(** X24 on the document whose page 2 would fail to render, with no
    canvas mounted for page 2: pages 1 and 3 are painted and nothing is
    raised. *)
Lemma page_2_without_canvas :
  run_painted
    (loadAndRender (fun _ => Some three_pages) two_canvases NotCancelled
       (setPdfArrayBuffer (Some []) initialState))
  = List.filter (usable_canvas two_canvases) (seq 1 (doc_numPages three_pages)) /\
  run_effects
    (loadAndRender (fun _ => Some three_pages) two_canvases NotCancelled
       (setPdfArrayBuffer (Some []) initialState)) = [] /\
  pageSizes
    (run_state
       (loadAndRender (fun _ => Some three_pages) two_canvases NotCancelled
          (setPdfArrayBuffer (Some []) initialState)))
  = map (fun i => getViewport (page2_fails i)) (seq 1 (doc_numPages three_pages)).
Proof.
  apply (pages_without_canvas_are_skipped (fun _ => Some three_pages) two_canvases
           (setPdfArrayBuffer (Some []) initialState) [] three_pages page2_fails).
  - reflexivity.
  - reflexivity.
  - intros i _. reflexivity.
  - intros i Hi. simpl in Hi.
    destruct i as [|[|[|[|i]]]]; first [lia | reflexivity | discriminate].
Defined.

Example page_2_without_canvas_painted :
  run_painted
    (loadAndRender (fun _ => Some three_pages) two_canvases NotCancelled
       (setPdfArrayBuffer (Some []) initialState)) = [1%nat; 3%nat].
Proof. vm_compute. reflexivity. Qed.

(** * The autosizing input *)

Section AutosizeFacts.

Variable parseFloat : string -> number.
Variable measureText_width : string -> number.

Lemma ceiling_bounds (c : Q) :
  c <= inject_Z (Qceiling c) /\ inject_Z (Qceiling c) < c + 1.
Proof.
  split; [apply Qle_ceiling|].
  pose proof (Qceiling_lt c) as H.
  unfold Z.sub in H. rewrite inject_Z_plus in H.
  change (inject_Z (-1)) with (- (1)) in H.
  apply (Qplus_lt_l _ _ (- (1))). by ring_simplify (c + 1 + - (1)).
Qed.

(** X25.  With an element and a context, and finite measures, the
    width the autosizing input gets is at least [minWidth] and at least
    one more than its text, paddings and borders together; and it is
    [minWidth] itself or less than one above that need.  Without an
    element or without a context the width stays as it was. *)
Theorem autosize_bounds (cs : CSSStyleDeclaration) (value : string)
    (minWidth tw pl pr bl br : Q) (width : number) :
  measureText_width (or_else value " ") = Fin tw ->
  parseFloat (or_else (paddingLeft cs) "0") = Fin pl ->
  parseFloat (or_else (paddingRight cs) "0") = Fin pr ->
  parseFloat (or_else (borderLeftWidth cs) "0") = Fin bl ->
  parseFloat (or_else (borderRightWidth cs) "0") = Fin br ->
  (exists q,
     autosize parseFloat measureText_width (Some cs) true value (Fin minWidth) width
     = Fin q /\
     minWidth <= q /\
     tw + pl + pr + bl + br + 1 <= q /\
     (q == minWidth \/ q < tw + pl + pr + bl + br + 2)) /\
  autosize parseFloat measureText_width (Some cs) false value (Fin minWidth) width
  = width /\
  autosize parseFloat measureText_width None true value (Fin minWidth) width = width.
Proof.
  intros Htw Hpl Hpr Hbl Hbr. split; [|done].
  unfold autosize, computedWidth. rewrite Htw, Hpl, Hpr, Hbl, Hbr.
  cbn [add Math_ceil Math_max].
  set (c := tw + pl + pr + bl + br + 1).
  destruct (ceiling_bounds c) as [Hlo Hhi].
  eexists. split; [reflexivity|]. split; [apply Q.le_max_l|]. split.
  - eapply Qle_trans; [exact Hlo|apply Q.le_max_r].
  - destruct (Q.max_spec minWidth (inject_Z (Qceiling c))) as [[_ ->]|[_ ->]].
    + right. unfold c in Hhi. eapply Qlt_le_trans; [exact Hhi|].
      apply Qle_lteq. right. ring.
    + by left.
Qed.

End AutosizeFacts.

(** X25 for the text ["Hi"] measured 13.2 wide, with 8 of padding on
    each side and no border, under [minWidth = 40]: the width stays
    40. *)
Lemma autosize_bounds_hi :
  (exists q,
     autosize (fun s => if String.eqb s "8px" then Fin 8 else Fin 0) (fun _ => Fin 13.2)
       (Some {| paddingLeft := "8px"; paddingRight := "8px";
                borderLeftWidth := ""; borderRightWidth := "" |})
       true "Hi" (Fin 40) (Fin 40)
     = Fin q /\
     40 <= q /\
     13.2 + 8 + 8 + 0 + 0 + 1 <= q /\
     (q == 40 \/ q < 13.2 + 8 + 8 + 0 + 0 + 2)) /\
  autosize (fun s => if String.eqb s "8px" then Fin 8 else Fin 0) (fun _ => Fin 13.2)
    (Some {| paddingLeft := "8px"; paddingRight := "8px";
             borderLeftWidth := ""; borderRightWidth := "" |})
    false "Hi" (Fin 40) (Fin 40)
  = Fin 40 /\
  autosize (fun s => if String.eqb s "8px" then Fin 8 else Fin 0) (fun _ => Fin 13.2)
    None true "Hi" (Fin 40) (Fin 40) = Fin 40.
Proof.
  apply (autosize_bounds (fun s => if String.eqb s "8px" then Fin 8 else Fin 0)
           (fun _ => Fin 13.2)
           {| paddingLeft := "8px"; paddingRight := "8px";
              borderLeftWidth := ""; borderRightWidth := "" |}
           "Hi" 40 13.2 8 8 0 0 (Fin 40));
    reflexivity.
Defined.

Example autosize_long_text :
  autosize (fun s => if String.eqb s "8px" then Fin 8 else Fin 0) (fun _ => Fin 113.2)
    (Some {| paddingLeft := "8px"; paddingRight := "8px";
             borderLeftWidth := ""; borderRightWidth := "" |})
    true "A much longer text" (Fin 40) (Fin 40)
  = Fin (Qmax 40 (inject_Z 131)).
Proof. reflexivity. Qed.

(** * The upload page *)

Section HomeFacts.

Variable upload : File -> UploadAnswer.

Lemma or_else_truthy (a b : string) : truthy b = true -> truthy (or_else a b) = true.
Proof. intros Hb. unfold or_else. by destruct (truthy a) eqn:E. Qed.

(** X26.  [handleFileChange] forgets the error of an earlier attempt:
    its result does not depend on the error the page showed.  It never
    leaves the uploading flag set that was clear before.  The uploaded
    URL changes only when the upload answers ok, and then no error is
    left; a file that is not a PDF leaves the message to select a PDF,
    and a response that is not ok always leaves a message that is
    shown. *)
Theorem handleFileChange_paths (file : option File) (st : Home.State) :
  (forall e, Home.handleFileChange upload file (Home.setError e st)
             = Home.handleFileChange upload file st) /\
  (Home.isUploading st = false ->
   Home.isUploading (Home.handleFileChange upload file st) = false) /\
  ((exists f url,
      file = Some f /\ upload f = UploadOk url /\
      Home.uploadedUrl (Home.handleFileChange upload file st) = Some url /\
      Home.error (Home.handleFileChange upload file st) = None) \/
   Home.uploadedUrl (Home.handleFileChange upload file st) = Home.uploadedUrl st) /\
  (forall f, file = Some f -> file_type f <> "application/pdf" ->
     Home.error (Home.handleFileChange upload file st) = Some "Please select a PDF file") /\
  (forall f data_error, file = Some f -> file_type f = "application/pdf" ->
     upload f = UploadNotOk data_error ->
     Home.error_shown (Home.handleFileChange upload file st) = true).
Proof.
  split; [intros e; unfold Home.handleFileChange; by destruct file|].
  unfold Home.handleFileChange. destruct file as [f|]; simpl.
  - destruct (String.eqb_spec (file_type f) "application/pdf") as [E|NE]; simpl.
    + destruct (upload f) as [message|data_error|url] eqn:Hup; simpl.
      * split; [done|]. split; [by right|]. split; [intros f' [= <-] H; by destruct H|].
        intros f' e [= <-] _ Hu. rewrite Hup in Hu. discriminate.
      * split; [done|]. split; [by right|]. split; [intros f' [= <-] H; by destruct H|].
        intros f' e [= <-] _ _. unfold Home.error_shown. simpl.
        by apply or_else_truthy.
      * split; [done|]. split; [left; by exists f, url|].
        split; [intros f' [= <-] H; by destruct H|].
        intros f' e [= <-] _ Hu. rewrite Hup in Hu. discriminate.
    + split; [done|]. split; [by right|]. split; [done|].
      intros f' e [= <-] H. by destruct NE.
  - split; [done|]. split; [by right|]. split; [done|]. done.
Qed.

End HomeFacts.

(** A rejection with an empty message leaves an error that is not
    shown. *)
Example empty_message_is_not_shown :
  Home.error_shown
    (Home.handleFileChange (fun _ => UploadRejects "")
       (Some {| file_type := "application/pdf" |})
       {| Home.uploadedUrl := None; Home.isUploading := false; Home.error := None |})
  = false.
Proof. reflexivity. Qed.

(** * The single-page editor *)

Section SinglePageFacts.

Context `{lib : PdfLib}.
Variable fetch_arrayBuffer : string -> option ArrayBuffer.

(** The instruction one text item leaves on the first page. *)
Lemma drawItems_inv font (canvasHeight xRatio yRatio : number)
    (items : list SinglePage.TextItem) : forall page page',
  SinglePage.drawItems font canvasHeight xRatio yRatio page items = Some page' ->
  getWidth page' = getWidth page /\ getHeight page' = getHeight page /\
  drawn page'
  = drawn page
    ++ map (fun item =>
              (SinglePage.text item,
               {| opt_x := mul (SinglePage.x item) xRatio;
                  opt_y := mul (sub canvasHeight (SinglePage.y item)) yRatio;
                  opt_size := SinglePage.size item;
                  opt_color := {| red := Fin 0; green := Fin 0; blue := Fin 0 |} |}))
        items.
Proof.
  induction items as [|item items IH]; intros page page' H; simpl in H.
  - injection H as <-. by rewrite app_nil_r.
  - unfold drawText in H at 1.
    destruct (drawText_accepts font _ _); [|done]. simpl in H.
    apply IH in H as (Hw & Hh & Hd). simpl in *.
    do 2 (split; [done|]). by rewrite Hd, <- app_assoc.
Qed.

Lemma or_num_positive (q : Q) (b : number) : 0 < q -> SinglePage.or_num (Fin q) b = Fin q.
Proof.
  intros Hq. unfold SinglePage.or_num. simpl.
  destruct (Qeq_bool q 0) eqn:E; [|done].
  apply Qeq_bool_iff in E. rewrite E in Hq. by apply Qlt_irrefl in Hq.
Qed.

(** X27.  In an export of the single-page editor that ends in a
    download, the item at position [k] is drawn on the first page, after
    what the page held, with its text and size, in black, at a point
    that keeps the item's relative place on the canvas: its [x] is to
    the page's width as the item's [x] is to the canvas's width, and
    its [y], counted from the bottom, is to the page's height as the
    item's distance from the canvas's bottom is to the canvas's height.
    The other pages go to [save] as they were loaded. *)
Theorem single_page_export_position (pdfUrl : string) (st : SinglePage.State)
    (bytes out : ArrayBuffer) (page : PDFPage) (others : list PDFPage)
    (viewport : Size) (cw ch pw ph qx qy : Q) (k : nat) (item : SinglePage.TextItem) :
  fetch_arrayBuffer pdfUrl = Some bytes ->
  PDFDocument_load bytes = Some (page :: others) ->
  SinglePage.pageViewport st = Some viewport ->
  width viewport = Fin cw -> height viewport = Fin ch -> 0 < cw -> 0 < ch ->
  getWidth page = Fin pw -> getHeight page = Fin ph ->
  SinglePage.textItems st !! k = Some item ->
  SinglePage.x item = Fin qx -> SinglePage.y item = Fin qy ->
  SinglePage.handleExport fetch_arrayBuffer pdfUrl st
  = [Download "filled.pdf" "application/pdf" out] ->
  exists page' options X Y,
    save (page' :: others) = Some out /\
    drawn page' !! (length (drawn page) + k)%nat = Some (SinglePage.text item, options) /\
    opt_x options = Fin X /\ opt_y options = Fin Y /\
    X * cw == qx * pw /\ Y * ch == (ch - qy) * ph /\
    opt_size options = SinglePage.size item /\
    opt_color options = {| red := Fin 0; green := Fin 0; blue := Fin 0 |}.
Proof.
  intros Hfetch Hload Hvp Hcw Hch Hcwp Hchp Hpw Hph Hk Hx Hy Hexport.
  unfold SinglePage.handleExport, SinglePage.exportBytes in Hexport.
  rewrite Hfetch in Hexport. simpl in Hexport. rewrite Hload in Hexport.
  simpl in Hexport.
  destruct (embedFont (page :: others)) as [font|]; [|done]. simpl in Hexport.
  unfold SinglePage.canvasWidth, SinglePage.canvasHeight in Hexport.
  rewrite Hvp, Hcw, Hch, Hpw, Hph, !or_num_positive, !div_Fin_pos in Hexport by done.
  destruct (SinglePage.drawItems font _ _ _ page _) as [page'|] eqn:Hdraw; [|done].
  simpl in Hexport.
  destruct (save (page' :: others)) as [out'|] eqn:Hsave; [|done].
  injection Hexport as ->.
  apply drawItems_inv in Hdraw as (_ & _ & Hd).
  eexists page', _, (qx * (pw / cw)), ((ch - qy) * (ph / ch)).
  split; [done|]. split.
  { rewrite Hd, lookup_app_r by lia.
    replace (length (drawn page) + k - length (drawn page))%nat with k by lia.
    rewrite list_lookup_fmap, Hk. reflexivity. }
  simpl. rewrite Hx, Hy. simpl. do 2 (split; [done|]). split; [|split; [|done]].
  - field. intros E. rewrite E in Hcwp. by apply Qlt_irrefl in Hcwp.
  - field. intros E. rewrite E in Hchp. by apply Qlt_irrefl in Hchp.
Qed.

End SinglePageFacts.

Section SinglePageStore.

Lemma move_foreign (rid : string) (px py : number) (items : list SinglePage.TextItem) :
  Forall (fun t => SinglePage.id t <> rid) items ->
  map (fun t => if String.eqb (SinglePage.id t) rid
                then {| SinglePage.id := SinglePage.id t; SinglePage.text := SinglePage.text t;
                        SinglePage.x := px; SinglePage.y := py;
                        SinglePage.size := SinglePage.size t |}
                else t) items
  = items.
Proof.
  induction 1 as [|t items Ht _ IH]; simpl; [done|].
  destruct (String.eqb_spec (SinglePage.id t) rid); [done|]. by rewrite IH.
Qed.

(** X28.  In the single-page editor, adding a text and moving it leaves
    the items there were as they were, followed by one item that holds
    the typed text (['Text'] when nothing was typed) at size 16 and at
    the position it was moved to, unclamped; the input is cleared.
    Before the page is rendered, or without the container, adding does
    nothing. *)
Theorem add_then_move (random_id : string) (px py : number) (viewport : Size)
    (st : SinglePage.State) :
  SinglePage.pageViewport st = Some viewport ->
  Forall (fun t => SinglePage.id t <> random_id) (SinglePage.textItems st) ->
  SinglePage.textItems
    (SinglePage.updateItemPosition random_id px py
       (SinglePage.handleAddText true random_id st))
  = SinglePage.textItems st
    ++ [{| SinglePage.id := random_id;
           SinglePage.text := or_else (SinglePage.newText st) "Text";
           SinglePage.x := px; SinglePage.y := py; SinglePage.size := Fin 16 |}] /\
  SinglePage.newText
    (SinglePage.updateItemPosition random_id px py
       (SinglePage.handleAddText true random_id st)) = "" /\
  SinglePage.handleAddText false random_id st = st /\
  (forall container,
     SinglePage.handleAddText container random_id
       {| SinglePage.scale := SinglePage.scale st; SinglePage.pageViewport := None;
          SinglePage.textItems := SinglePage.textItems st;
          SinglePage.newText := SinglePage.newText st |}
     = {| SinglePage.scale := SinglePage.scale st; SinglePage.pageViewport := None;
          SinglePage.textItems := SinglePage.textItems st;
          SinglePage.newText := SinglePage.newText st |}).
Proof.
  intros Hvp Hfresh. unfold SinglePage.handleAddText. rewrite Hvp. simpl.
  split; [|done].
  rewrite map_app, move_foreign by done. simpl. by rewrite String.eqb_refl.
Qed.

End SinglePageStore.

(** X27 on an A4 page shown at half size: an item at the canvas point
    [(100, 50)] of a canvas of 297 x 421. *)
Lemma single_page_export_position_half_size :
  exists page' options X Y,
    save (PdfLib := one_page_lib) (page' :: []) = Some [] /\
    drawn page' !! (length (drawn a4_page) + 0)%nat = Some ("Hi", options) /\
    opt_x options = Fin X /\ opt_y options = Fin Y /\
    X * 297 == 100 * 595 /\ Y * 421 == (421 - 50) * 842 /\
    opt_size options = Fin 16 /\
    opt_color options = {| red := Fin 0; green := Fin 0; blue := Fin 0 |}.
Proof.
  apply (single_page_export_position (lib := one_page_lib) (fun _ => Some [])
           "/fake.pdf"
           {| SinglePage.scale := Fin 0.5;
              SinglePage.pageViewport := Some {| width := Fin 297; height := Fin 421 |};
              SinglePage.textItems :=
                [{| SinglePage.id := "t1"; SinglePage.text := "Hi";
                    SinglePage.x := Fin 100; SinglePage.y := Fin 50;
                    SinglePage.size := Fin 16 |}];
              SinglePage.newText := "" |}
           [] [] a4_page [] {| width := Fin 297; height := Fin 421 |}
           297 421 595 842 100 50 0
           {| SinglePage.id := "t1"; SinglePage.text := "Hi";
              SinglePage.x := Fin 100; SinglePage.y := Fin 50;
              SinglePage.size := Fin 16 |});
    reflexivity.
Defined.

(** X28 on a rendered page with an empty input. *)
Lemma add_then_move_empty_input :
  SinglePage.textItems
    (SinglePage.updateItemPosition "t1" (Fin (-20)) (Fin 700)
       (SinglePage.handleAddText true "t1"
          {| SinglePage.scale := Fin 1;
             SinglePage.pageViewport := Some {| width := Fin 595; height := Fin 842 |};
             SinglePage.textItems := []; SinglePage.newText := "" |}))
  = SinglePage.textItems
      {| SinglePage.scale := Fin 1;
         SinglePage.pageViewport := Some {| width := Fin 595; height := Fin 842 |};
         SinglePage.textItems := []; SinglePage.newText := "" |}
    ++ [{| SinglePage.id := "t1";
           SinglePage.text :=
             or_else
               (SinglePage.newText
                  {| SinglePage.scale := Fin 1;
                     SinglePage.pageViewport :=
                       Some {| width := Fin 595; height := Fin 842 |};
                     SinglePage.textItems := []; SinglePage.newText := "" |})
               "Text";
           SinglePage.x := Fin (-20); SinglePage.y := Fin 700;
           SinglePage.size := Fin 16 |}] /\
  SinglePage.newText
    (SinglePage.updateItemPosition "t1" (Fin (-20)) (Fin 700)
       (SinglePage.handleAddText true "t1"
          {| SinglePage.scale := Fin 1;
             SinglePage.pageViewport := Some {| width := Fin 595; height := Fin 842 |};
             SinglePage.textItems := []; SinglePage.newText := "" |})) = "" /\
  SinglePage.handleAddText false "t1"
    {| SinglePage.scale := Fin 1;
       SinglePage.pageViewport := Some {| width := Fin 595; height := Fin 842 |};
       SinglePage.textItems := []; SinglePage.newText := "" |}
  = {| SinglePage.scale := Fin 1;
       SinglePage.pageViewport := Some {| width := Fin 595; height := Fin 842 |};
       SinglePage.textItems := []; SinglePage.newText := "" |} /\
  (forall container,
     SinglePage.handleAddText container "t1"
       {| SinglePage.scale := Fin 1; SinglePage.pageViewport := None;
          SinglePage.textItems := []; SinglePage.newText := "" |}
     = {| SinglePage.scale := Fin 1; SinglePage.pageViewport := None;
          SinglePage.textItems := []; SinglePage.newText := "" |}).
Proof.
  apply (add_then_move "t1" (Fin (-20)) (Fin 700)
           {| width := Fin 595; height := Fin 842 |}
           {| SinglePage.scale := Fin 1;
              SinglePage.pageViewport := Some {| width := Fin 595; height := Fin 842 |};
              SinglePage.textItems := []; SinglePage.newText := "" |}).
  - reflexivity.
  - constructor.
Defined.

(** * The upload routes *)

Section RouteFacts.

Variable put : string -> UploadedFile -> string -> PutBlobResult + string.
Variable put_with_token
  : string -> UploadedFile -> string -> option string -> PutBlobResult + string.

(** X29.  The edge route answers 200, 400 or 500.  It answers 200
    exactly when the form holds a file whose type (read as
    ['application/octet-stream'] when empty) contains ['pdf'] and [put]
    stored it, and the body then carries the URL [put] answered; every
    other answer carries an error message. *)
Theorem POST_edge_answers (formData : FormEntry + string) :
  (status (POST_edge put formData) = 200%nat \/
   status (POST_edge put formData) = 400%nat \/
   status (POST_edge put formData) = 500%nat) /\
  (status (POST_edge put formData) = 200%nat <->
   exists file blob,
     formData = inl (FileEntry file) /\
     includes (or_else (type file) "application/octet-stream") "pdf" = true /\
     put (or_else (name file) "upload.pdf") file
       (or_else (type file) "application/octet-stream") = inl blob /\
     body (POST_edge put formData) = UrlBody (blob_url blob) None) /\
  (status (POST_edge put formData) <> 200%nat ->
   exists message, body (POST_edge put formData) = ErrorBody message None).
Proof.
  unfold POST_edge. destruct formData as [[|value|file]|message]; simpl.
  - split; [auto|]. split; [|eauto]. split; [done|]. intros (f & b & [=] & _).
  - split; [auto|]. split; [|eauto]. split; [done|]. intros (f & b & [=] & _).
  - destruct (includes _ "pdf") eqn:Hpdf; simpl.
    + destruct (put _ file _) as [blob|m] eqn:Hput; simpl.
      * split; [auto|]. split; [|done]. split; [|done].
        intros _. by exists file, blob.
      * split; [auto|]. split; [|eauto]. split; [done|].
        intros (f & b & [= <-] & _ & Hb & _). rewrite Hput in Hb. discriminate.
    + split; [auto|]. split; [|eauto]. split; [done|].
      intros (f & b & [= <-] & Hi & _). rewrite Hpdf in Hi. discriminate.
  - split; [auto|]. split; [|eauto]. split; [done|]. intros (f & b & [=] & _).
Qed.

Lemma or_else_empty (a : string) : or_else a "" = a.
Proof. by destruct a. Qed.

Lemma or_else_nonempty (a b : string) : a <> EmptyString -> or_else a b = a.
Proof. by destruct a. Qed.

(** X30.  What the nodejs route accepts passes the checks of the edge
    route.  When the nodejs route answers 200, the form holds a file of
    type exactly ['application/pdf'] that the route's own [put] call
    stored, and its body carries that call's URL and pathname.  For
    the same form the edge route never answers 400: it answers 200,
    with the URL its own [put] call answers, when that call stores the
    file, and 500 when that call fails.  The two calls are separate,
    so the two URLs need not be the same. *)
Theorem node_accepts_implies_edge_validates (BLOB_READ_WRITE_TOKEN : option string)
    (content_type : option string) (now : string) (formData : FormEntry + string) :
  status (POST_node put_with_token BLOB_READ_WRITE_TOKEN content_type now formData)
  = 200%nat ->
  exists file blob,
    formData = inl (FileEntry file) /\ type file = "application/pdf" /\
    put_with_token (or_else (name file) ("upload-" ++ now ++ ".pdf")%string) file
      "application/pdf" BLOB_READ_WRITE_TOKEN = inl blob /\
    body (POST_node put_with_token BLOB_READ_WRITE_TOKEN content_type now formData)
    = UrlBody (blob_url blob) (Some (blob_pathname blob)) /\
    status (POST_edge put formData) <> 400%nat /\
    (forall stored,
       put (or_else (name file) "upload.pdf") file "application/pdf" = inl stored ->
       status (POST_edge put formData) = 200%nat /\
       body (POST_edge put formData) = UrlBody (blob_url stored) None) /\
    (forall message,
       put (or_else (name file) "upload.pdf") file "application/pdf" = inr message ->
       status (POST_edge put formData) = 500%nat).
Proof.
  unfold POST_node, POST_edge.
  destruct (includes _ "multipart/form-data"); simpl; [|done].
  destruct formData as [[|value|file]|message]; simpl; try done.
  destruct (String.eqb_spec (type file) "application/pdf") as [E|NE]; simpl; [|done].
  destruct (put_with_token _ file "application/pdf" BLOB_READ_WRITE_TOKEN)
    as [blob|m] eqn:Hnode; simpl; [|done].
  intros _. exists file, blob. rewrite E.
  change (or_else "application/pdf" "application/octet-stream") with "application/pdf".
  change (negb (includes "application/pdf" "pdf")) with false. cbv iota.
  split; [done|]. split; [done|]. split; [exact Hnode|]. split; [done|].
  split; [by destruct (put _ file "application/pdf")|].
  split; [intros stored Hput | intros message Hput]; by rewrite Hput.
Qed.

End RouteFacts.

(** The edge route accepts a type the nodejs route refuses. *)
Example edge_accepts_more :
  status (POST_edge (fun _ _ _ => inl {| blob_url := "u"; blob_pathname := "p" |})
            (inl (FileEntry {| type := "application/x-pdf"; name := "a.pdf" |})))
  = 200%nat /\
  status (POST_node (fun _ _ _ _ => inl {| blob_url := "u"; blob_pathname := "p" |})
            None (Some "multipart/form-data; boundary=x") "0"
            (inl (FileEntry {| type := "application/x-pdf"; name := "a.pdf" |})))
  = 400%nat.
Proof. split; reflexivity. Qed.

(** X30 for a PDF named ["a.pdf"], stored by the nodejs route's call
    under one random suffix and by the edge route's call under
    another. *)
Lemma node_accepts_a_pdf :
  exists file blob,
    inl (FileEntry {| type := "application/pdf"; name := "a.pdf" |})
    = (inl (FileEntry file) : FormEntry + string) /\
    type file = "application/pdf" /\
    inl {| blob_url := "/a-x1.pdf"; blob_pathname := "a-x1.pdf" |}
    = (inl blob : PutBlobResult + string) /\
    body (POST_node
            (fun _ _ _ _ => inl {| blob_url := "/a-x1.pdf"; blob_pathname := "a-x1.pdf" |})
            (Some "token") (Some "multipart/form-data; boundary=x") "0"
            (inl (FileEntry {| type := "application/pdf"; name := "a.pdf" |})))
    = UrlBody (blob_url blob) (Some (blob_pathname blob)) /\
    status (POST_edge
              (fun _ _ _ => inl {| blob_url := "/a-y2.pdf"; blob_pathname := "a-y2.pdf" |})
              (inl (FileEntry {| type := "application/pdf"; name := "a.pdf" |})))
    <> 400%nat /\
    (forall stored,
       inl {| blob_url := "/a-y2.pdf"; blob_pathname := "a-y2.pdf" |}
       = (inl stored : PutBlobResult + string) ->
       status (POST_edge
                 (fun _ _ _ => inl {| blob_url := "/a-y2.pdf"; blob_pathname := "a-y2.pdf" |})
                 (inl (FileEntry {| type := "application/pdf"; name := "a.pdf" |})))
       = 200%nat /\
       body (POST_edge
               (fun _ _ _ => inl {| blob_url := "/a-y2.pdf"; blob_pathname := "a-y2.pdf" |})
               (inl (FileEntry {| type := "application/pdf"; name := "a.pdf" |})))
       = UrlBody (blob_url stored) None) /\
    (forall message,
       inl {| blob_url := "/a-y2.pdf"; blob_pathname := "a-y2.pdf" |}
       = (inr message : PutBlobResult + string) ->
       status (POST_edge
                 (fun _ _ _ => inl {| blob_url := "/a-y2.pdf"; blob_pathname := "a-y2.pdf" |})
                 (inl (FileEntry {| type := "application/pdf"; name := "a.pdf" |})))
       = 500%nat).
Proof.
  apply (node_accepts_implies_edge_validates
           (fun _ _ _ => inl {| blob_url := "/a-y2.pdf"; blob_pathname := "a-y2.pdf" |})
           (fun _ _ _ _ => inl {| blob_url := "/a-x1.pdf"; blob_pathname := "a-x1.pdf" |})
           (Some "token") (Some "multipart/form-data; boundary=x") "0"
           (inl (FileEntry {| type := "application/pdf"; name := "a.pdf" |}))).
  reflexivity.
Defined.
